(** * proxy-web: the gateway worker [_worker.js], embedded and verified

    The worker maps a gateway host such as [aaa--bb--com.gw.tld] to the
    upstream origin [aaa.bb.com], forwards the request with sanitised
    headers, and relays the answer.  This development embeds the
    routing, codec, header and redirect logic of [src/_worker.js] as
    executable Rocq functions and settles, one by one, the properties
    the specification states about them.

    Conventions.
    - A JavaScript string is a [string]; a character stands for one code
      unit in the range 0..255.  Every string the modelled code accepts
      is ASCII (its regular expressions reject anything else).
    - [null] results are [option]; a [throw] is the [Throw] completion.
    - An [async] function is a value of the free monad [Async], whose only
      suspension point is the upstream [fetch]. *)

From Stdlib Require Import Strings.String Strings.Ascii Lists.List Bool.Bool.
From Stdlib Require Import Arith.PeanoNat ZArith.ZArith NArith.NArith micromega.Lia.
From Stdlib Require Import Numbers.DecimalString.
Import ListNotations.

Set Warnings "-register-all".

Local Open Scope list_scope.
Local Open Scope string_scope.

Set Implicit Arguments.

(* ================================================================== *)
(** * JavaScript strings *)
(* ================================================================== *)

Module JsString.

(** Code-unit classes used by the worker's regular expressions. *)
Definition in_range (lo hi : nat) (c : ascii) : bool :=
  (lo <=? nat_of_ascii c)%nat && (nat_of_ascii c <=? hi)%nat.

Definition is_digit (c : ascii) : bool := in_range 48 57 c.      (* \d, [0-9] *)
Definition is_lower (c : ascii) : bool := in_range 97 122 c.     (* [a-z] *)
Definition is_upper (c : ascii) : bool := in_range 65 90 c.      (* [A-Z] *)
Definition is_alpha (c : ascii) : bool := is_lower c || is_upper c.
Definition is_alnum (c : ascii) : bool := is_alpha c || is_digit c.
Definition is_char (a c : ascii) : bool := Ascii.eqb c a.

(** [[a-zA-Z0-9-]] *)
Definition is_alnum_hyphen (c : ascii) : bool := is_alnum c || is_char "-" c.
(** [[a-zA-Z0-9.-]] *)
Definition is_alnum_dot_hyphen (c : ascii) : bool :=
  is_alnum c || is_char "." c || is_char "-" c.

(** White space and line terminators of ECMAScript within 0..255:
    TAB, LF, VT, FF, CR, SP and NBSP. *)
Definition is_whitespace (c : ascii) : bool :=
  in_range 9 13 c || is_char " " c || (nat_of_ascii c =? 160)%nat.

(** Line terminators within 0..255 (what [.] refuses to match). *)
Definition is_line_terminator (c : ascii) : bool :=
  (nat_of_ascii c =? 10)%nat || (nat_of_ascii c =? 13)%nat.

Fixpoint forall_chars (p : ascii -> bool) (s : string) : bool :=
  match s with
  | EmptyString => true
  | String c s' => p c && forall_chars p s'
  end.

Definition is_empty (s : string) : bool :=
  match s with EmptyString => true | _ => false end.

(** [s.startsWith(p)] *)
Definition startsWith (s p : string) : bool := String.prefix p s.

(** [s.endsWith(p)] *)
Fixpoint endsWith (s p : string) : bool :=
  String.eqb s p ||
  match s with
  | EmptyString => false
  | String _ s' => endsWith s' p
  end.

(** [s.includes(p)] *)
Fixpoint includes (s p : string) : bool :=
  String.prefix p s ||
  match s with
  | EmptyString => false
  | String _ s' => includes s' p
  end.

(** [s.trim()]: strip leading, then trailing white space. *)
Fixpoint trimStart (s : string) : string :=
  match s with
  | String c s' => if is_whitespace c then trimStart s' else s
  | EmptyString => EmptyString
  end.

Fixpoint trimEnd (s : string) : string :=
  match s with
  | EmptyString => EmptyString
  | String c s' =>
      match trimEnd s' with
      | EmptyString => if is_whitespace c then EmptyString else String c EmptyString
      | t => String c t
      end
  end.

Definition trim (s : string) : string := trimEnd (trimStart s).

(** [s.toLowerCase()] on code units 0..255: A-Z, and the Latin-1 capitals
    U+00C0..U+00DE except the multiplication sign U+00D7. *)
Definition lower_char (c : ascii) : ascii :=
  let n := nat_of_ascii c in
  if is_upper c || (in_range 192 222 c && negb (n =? 215)%nat)
  then ascii_of_nat (n + 32) else c.

Fixpoint toLowerCase (s : string) : string :=
  match s with
  | EmptyString => EmptyString
  | String c s' => String (lower_char c) (toLowerCase s')
  end.

(** Prepend a code unit to the first element of a list of parts. *)
Definition cons_first (c : ascii) (parts : list string) : list string :=
  match parts with
  | [] => [String c EmptyString]
  | p :: ps => String c p :: ps
  end.

(** [s.split(sep)] for a string separator: the occurrences of [sep] are
    found left to right and do not overlap.  [skip] counts the code units
    of an occurrence that are still to be passed over. *)
Fixpoint split_from (sep : string) (skip : nat) (s : string) : list string :=
  match s with
  | EmptyString => [EmptyString]
  | String c rest =>
      match skip with
      | S k => split_from sep k rest
      | O =>
          if String.prefix sep s
          then EmptyString :: split_from sep (String.length sep - 1) rest
          else cons_first c (split_from sep 0 rest)
      end
  end.

Fixpoint chars (s : string) : list string :=
  match s with
  | EmptyString => []
  | String c s' => String c EmptyString :: chars s'
  end.

Definition split (sep s : string) : list string :=
  if is_empty sep then chars s else split_from sep 0 s.

(** [parts.join(sep)] *)
Definition join (sep : string) (parts : list string) : string :=
  String.concat sep parts.

(** [s.replace(/\./g, by)] and its like: every occurrence of the single
    code unit [c] is replaced by [by]. *)
Fixpoint replace_char (c : ascii) (by_ : string) (s : string) : string :=
  match s with
  | EmptyString => EmptyString
  | String x s' =>
      if Ascii.eqb x c then by_ ++ replace_char c by_ s'
      else String x (replace_char c by_ s')
  end.

(** [s.substring(n)] *)
Fixpoint drop (n : nat) (s : string) : string :=
  match n, s with
  | S k, String _ s' => drop k s'
  | _, _ => s
  end.

(** [arr.includes(x)] on an array of strings. *)
Definition array_includes (l : list string) (x : string) : bool :=
  existsb (String.eqb x) l.

(** [arr.slice(1)] *)
Definition slice1 (A : Type) (l : list A) : list A := tl l.

End JsString.
Import JsString.

(* ================================================================== *)
(** * Regular expressions *)
(* ================================================================== *)

(** The anchored patterns of the worker are written as terms of [regex]
    and decided by Brzozowski derivatives; [Lang] is their meaning. *)
Module RegExp.

Inductive regex : Type :=
| Void                                  (* matches nothing *)
| Eps                                   (* the empty string *)
| Cls (p : ascii -> bool)               (* one code unit of a class *)
| Seq (r1 r2 : regex)
| Alt (r1 r2 : regex)
| Star (r : regex).

Definition Plus (r : regex) : regex := Seq r (Star r).          (* r+     *)
Definition Opt (r : regex) : regex := Alt r Eps.                (* r?     *)
Definition Rep1to3 (r : regex) : regex :=                       (* r{1,3} *)
  Seq r (Opt (Seq r (Opt r))).
Definition Rep3 (r : regex) : regex := Seq r (Seq r r).         (* r{3}   *)
Definition AtLeast2 (r : regex) : regex := Seq r (Seq r (Star r)). (* r{2,} *)
Definition Chr (c : ascii) : regex := Cls (is_char c).

Fixpoint Lit (s : string) : regex :=
  match s with
  | EmptyString => Eps
  | String c s' => Seq (Chr c) (Lit s')
  end.

Fixpoint nullable (r : regex) : bool :=
  match r with
  | Void => false
  | Eps => true
  | Cls _ => false
  | Seq r1 r2 => nullable r1 && nullable r2
  | Alt r1 r2 => nullable r1 || nullable r2
  | Star _ => true
  end.

Fixpoint deriv (c : ascii) (r : regex) : regex :=
  match r with
  | Void => Void
  | Eps => Void
  | Cls p => if p c then Eps else Void
  | Seq r1 r2 =>
      if nullable r1
      then Alt (Seq (deriv c r1) r2) (deriv c r2)
      else Seq (deriv c r1) r2
  | Alt r1 r2 => Alt (deriv c r1) (deriv c r2)
  | Star r1 => Seq (deriv c r1) (Star r1)
  end.

(** [/^r$/.test(s)] *)
Fixpoint test (r : regex) (s : string) : bool :=
  match s with
  | EmptyString => nullable r
  | String c s' => test (deriv c r) s'
  end.

Inductive Lang : regex -> string -> Prop :=
| LEps : Lang Eps EmptyString
| LCls p c : p c = true -> Lang (Cls p) (String c EmptyString)
| LSeq r1 r2 s1 s2 : Lang r1 s1 -> Lang r2 s2 -> Lang (Seq r1 r2) (s1 ++ s2)
| LAltL r1 r2 s : Lang r1 s -> Lang (Alt r1 r2) s
| LAltR r1 r2 s : Lang r2 s -> Lang (Alt r1 r2) s
| LStar0 r : Lang (Star r) EmptyString
| LStarS r s1 s2 : Lang r s1 -> Lang (Star r) s2 -> Lang (Star r) (s1 ++ s2).

End RegExp.
Import RegExp.

(* ================================================================== *)
(** * Values of the run time *)
(* ================================================================== *)

(** An exception value: [error.name] and [error.message]. *)
Record Exn : Type := mkExn { exn_name : string; exn_message : string }.

Definition Error (msg : string) : Exn := mkExn "Error" msg.
Definition TypeError (msg : string) : Exn := mkExn "TypeError" msg.
Definition SyntaxError (msg : string) : Exn := mkExn "SyntaxError" msg.

(** The completion of a synchronous computation. *)
Inductive Completion (A : Type) : Type :=
| Normal (a : A)
| Throw (e : Exn).
Arguments Normal {A} a.
Arguments Throw {A} e.

Definition cbind {A B : Type} (m : Completion A) (f : A -> Completion B)
  : Completion B :=
  match m with
  | Normal a => f a
  | Throw e => Throw e
  end.

(** [try { body } catch (e) { handler(e) }] *)
Definition try_catch {A : Type} (body : Completion A)
  (handler : Exn -> Completion A) : Completion A :=
  match body with
  | Normal a => Normal a
  | Throw e => handler e
  end.

Declare Scope completion_scope.
Delimit Scope completion_scope with completion.
Notation "x <- m ;; k" := (cbind m (fun x => k))
  (at level 61, m at next level, right associativity) : completion_scope.

(** JSON values.  A number is carried by the text [JSON.stringify] prints
    for it; the worker never computes with the numbers of a document.  The
    entries of an object are in property-enumeration order. *)
Inductive JSON : Type :=
| JNull
| JBool (b : bool)
| JNumber (text : string)
| JString (s : string)
| JArray (items : list JSON)
| JObject (entries : list (string * JSON)).

(** Decimal rendering of a natural number, as [String(n)] prints it. *)
Definition decimal (n : N) : string := NilEmpty.string_of_uint (N.to_uint n).

(** [Number(s)] for the strings the worker converts, the parts of a host
    name that matched [ipv4Regex]: a run of decimal digits gives its value
    and the empty string gives 0.  [None] is NaN; no string that reaches
    the conversion contains anything but digits. *)
Fixpoint number_loop (acc : N) (s : string) : option N :=
  match s with
  | EmptyString => Some acc
  | String c s' =>
      if is_digit c
      then number_loop (10 * acc + (N.of_nat (nat_of_ascii c) - 48)) s'
      else None
  end.
Definition toNumber (s : string) : option N := number_loop 0 s.

(** A parsed URL, as the fields of a [URL] object read. *)
Record URL : Type := mkURL {
  protocol : string;    (* with its colon: "https:" *)
  hostname : string;
  port : string;        (* empty when it is the scheme's default *)
  pathname : string;
  search : string;      (* empty, or "?" and the query *)
  hash : string         (* empty, or "#" and the fragment *)
}.

Definition URL_host (u : URL) : string :=
  if is_empty (port u) then hostname u else hostname u ++ ":" ++ port u.
(** [url.origin] *)
Definition URL_origin (u : URL) : string := protocol u ++ "//" ++ URL_host u.
(** [url.toString()] *)
Definition URL_toString (u : URL) : string :=
  protocol u ++ "//" ++ URL_host u ++ pathname u ++ search u ++ hash u.

(** The property setters used by the worker. *)
Definition URL_set_hostname (u : URL) (h : string) : URL :=
  mkURL (protocol u) h (port u) (pathname u) (search u) (hash u).
Definition URL_set_protocol (u : URL) (p : string) : URL :=
  mkURL p (hostname u) (port u) (pathname u) (search u) (hash u).
Definition URL_set_pathname (u : URL) (p : string) : URL :=
  mkURL (protocol u) (hostname u) (port u) p (search u) (hash u).
Definition URL_set_search (u : URL) (q : string) : URL :=
  mkURL (protocol u) (hostname u) (port u) (pathname u) q (hash u).

(* ------------------------------------------------------------------ *)
(** ** Header lists *)

Module Headers.

(** A header list; names compare without regard to case. *)
Definition t : Type := list (string * string).

Definition name_eq (a b : string) : bool :=
  String.eqb (toLowerCase a) (toLowerCase b).

Definition values (h : t) (name : string) : list string :=
  map snd (filter (fun kv => name_eq (fst kv) name) h).

(** [headers.get(name)]: the values under [name], joined by ", ". *)
Definition get (h : t) (name : string) : option string :=
  match values h name with
  | [] => None
  | vs => Some (join ", " vs)
  end.

(** [headers.has(name)] *)
Definition has (h : t) (name : string) : bool :=
  existsb (fun kv => name_eq (fst kv) name) h.

(** [headers.delete(name)] *)
Definition delete (h : t) (name : string) : t :=
  filter (fun kv => negb (name_eq (fst kv) name)) h.

(** [headers.set(name, value)]: the first header of that name takes the
    value and the others go; without one, the header is appended. *)
Fixpoint set (h : t) (name value : string) : t :=
  match h with
  | [] => [(name, value)]
  | (k, v) :: rest =>
      if name_eq k name then (k, value) :: delete rest name
      else (k, v) :: set rest name value
  end.

Fixpoint insert_sorted (x : string) (l : list string) : list string :=
  match l with
  | [] => [x]
  | y :: l' => if String.leb x y then x :: l else y :: insert_sorted x l'
  end.

Definition sort (l : list string) : list string :=
  fold_right insert_sorted [] l.

Fixpoint dedup (l : list string) : list string :=
  match l with
  | [] => []
  | x :: l' => if array_includes l' x then dedup l' else x :: dedup l'
  end.

(** [headers.entries()]: lower-cased names in sorted order, the values of
    one name combined. *)
Definition entries (h : t) : list (string * string) :=
  map (fun n => (n, match get h n with Some v => v | None => "" end))
      (sort (dedup (map (fun kv => toLowerCase (fst kv)) h))).

(** [new Headers(init)] from a literal object. *)
Definition of_object (init : list (string * string)) : t :=
  fold_left (fun h kv => set h (fst kv) (snd kv)) init [].

End Headers.

(* ------------------------------------------------------------------ *)
(** ** Requests, responses and the upstream fetch *)

(** A message body.  [BJson j] is the text [JSON.stringify(j)];
    [BPage host] is the landing page [getProxyPageHTML(host)], whose
    markup is outside the verified core. *)
Inductive Body : Type :=
| BNull
| BText (text : string)
| BJson (j : JSON)
| BPage (host : string).

Record Request : Type := mkRequest {
  req_method : string;
  req_url : URL;                 (* [new URL(request.url)] *)
  req_headers : Headers.t;
  req_body : Body;
  req_json : Completion JSON     (* what [request.json()] settles to *)
}.

Record Response : Type := mkResponse {
  status : Z;
  statusText : string;
  headers : Headers.t;
  body : Body
}.

(** The options handed to [fetch]. *)
Record RequestInit : Type := mkRequestInit {
  init_method : string;
  init_headers : Headers.t;
  init_redirect : string;
  init_timeout : Z;              (* [AbortSignal.timeout(ms)] *)
  init_body : option Body        (* [None]: the property is not set *)
}.

(** How the promise of a [fetch] settles. *)
Inductive FetchOutcome : Type :=
| Fulfilled (r : Response)
| Rejected (e : Exn).

(** An [async] computation: it resolves, rejects, or awaits an upstream
    fetch and goes on with what that settles to. *)
Inductive Async (A : Type) : Type :=
| Resolve (a : A)
| Reject (e : Exn)
| Fetch (url : string) (init : RequestInit) (k : FetchOutcome -> Async A).
Arguments Resolve {A} a.
Arguments Reject {A} e.
Arguments Fetch {A} url init k.

Fixpoint abind {A B : Type} (m : Async A) (f : A -> Async B) : Async B :=
  match m with
  | Resolve a => f a
  | Reject e => Reject e
  | Fetch url init k => Fetch url init (fun o => abind (k o) f)
  end.

(** [try { ... await ... } catch (e) { handler(e) }] in an async body. *)
Fixpoint async_try {A : Type} (m : Async A) (handler : Exn -> Async A)
  : Async A :=
  match m with
  | Resolve a => Resolve a
  | Reject e => handler e
  | Fetch url init k => Fetch url init (fun o => async_try (k o) handler)
  end.

(** [await fetch(url, init)] *)
Definition await_fetch (url : string) (init : RequestInit) : Async Response :=
  Fetch url init (fun o =>
    match o with
    | Fulfilled r => Resolve r
    | Rejected e => Reject e
    end).

(** A synchronous completion seen from an async body. *)
Definition lift {A : Type} (c : Completion A) : Async A :=
  match c with
  | Normal a => Resolve a
  | Throw e => Reject e
  end.

(** Running an async computation against an upstream: how it completes
    and how many fetches it issued. *)
Fixpoint run {A : Type} (upstream : string -> RequestInit -> FetchOutcome)
  (m : Async A) : Completion A * nat :=
  match m with
  | Resolve a => (Normal a, O)
  | Reject e => (Throw e, O)
  | Fetch url init k =>
      let (r, n) := run upstream (k (upstream url init)) in (r, S n)
  end.

(* ================================================================== *)
(** * The worker *)
(* ================================================================== *)

(** ** Configuration ([CONFIG]) *)

Definition REQUEST_TIMEOUT : Z := 45000.
Definition CORS_MAX_AGE : string := "86400".
Definition ALLOWED_METHODS : list string :=
  ["GET"; "POST"; "PUT"; "DELETE"; "PATCH"; "HEAD"; "OPTIONS"].

Definition BLOCKED_HEADERS : list string :=
  [ "cf-connecting-ip"; "cf-ipcountry"; "cf-ray"; "cf-visitor";
    "cf-request-id"; "cf-warp-tag-id"; "cf-worker";
    "x-forwarded-proto"; "x-forwarded-for"; "x-forwarded-host";
    "x-forwarded-port"; "x-real-ip"; "x-original-forwarded-for";
    "x-cluster-client-ip"; "x-forwarded"; "forwarded-for"; "forwarded";
    "via"; "x-proxy-authorization"; "proxy-authorization";
    "proxy-connection"; "true-client-ip"; "x-client-ip"; "client-ip";
    "x-originating-ip"; "x-remote-ip"; "x-remote-addr"; "remote-addr" ].

(* ------------------------------------------------------------------ *)
(** ** Subdomain codec *)

(** [/^[a-zA-Z0-9-]+$/] *)
Definition re_label : regex := Plus (Cls is_alnum_hyphen).
(** [/^[a-zA-Z0-9.-]+$/] *)
Definition re_hostname : regex := Plus (Cls is_alnum_dot_hyphen).

Definition isValidSubdomainFormat (subdomain : string) : bool :=
  if startsWith subdomain "-" || endsWith subdomain "-" then false
  else
    let parts := split "--" subdomain in
    if (List.length parts <? 2)%nat then false
    else
      forallb (fun part =>
                 (0 <? String.length part)%nat && test re_label part &&
                 negb (startsWith part "-") && negb (endsWith part "-"))
              parts.

Definition extractSubdomain (hostname : string) : option string :=
  let parts := split "." hostname in
  if (List.length parts <? 2)%nat then None
  else
    let subdomain := nth 0 parts "" in
    if negb (test re_label subdomain) then None
    else if negb (isValidSubdomainFormat subdomain) then None
    else Some subdomain.

Definition convertSubdomainToUrl (subdomain : string) : option string :=
  if is_empty subdomain then None
  else
    let subdomain := trim subdomain in
    if negb (test re_label subdomain) then None
    else
      let parts := split "--" subdomain in
      if (List.length parts <? 2)%nat then None
      else if existsb (fun part => is_empty part || (String.length part =? 0)%nat) parts
      then None
      else Some (join "." parts).

Definition convertUrlToSubdomain (hostname : string) : option string :=
  if is_empty hostname then None
  else if negb (test re_hostname hostname) then None
  else Some (replace_char "." "--" hostname).

(** [/^[a-zA-Z0-9.-]+\.[a-zA-Z]{2,}$/] *)
Definition re_standard_domain : regex :=
  Seq (Plus (Cls is_alnum_dot_hyphen)) (Seq (Chr ".") (AtLeast2 (Cls is_alpha))).

Definition isStandardDomain (hostname : string) : bool :=
  test re_standard_domain hostname &&
  includes hostname "." &&
  negb (includes hostname "--").

(* ------------------------------------------------------------------ *)
(** ** URL safety classifier *)

(** [/^(\d{1,3}\.){3}\d{1,3}$/] *)
Definition ipv4Regex : regex :=
  Seq (Rep3 (Seq (Rep1to3 (Cls is_digit)) (Chr ".")))
      (Rep1to3 (Cls is_digit)).

(** [x === n], [x >= n] and [x <= n] on numbers that may be NaN. *)
Definition num_eq (x : option N) (n : N) : bool :=
  match x with Some v => N.eqb v n | None => false end.
Definition num_ge (x : option N) (n : N) : bool :=
  match x with Some v => N.leb n v | None => false end.
Definition num_le (x : option N) (n : N) : bool :=
  match x with Some v => N.leb v n | None => false end.

Definition localDomains : list string := ["localhost"; "127.0.0.1"; "::1"].

Definition isPublicUrl (url : URL) : bool :=
  let hostname := toLowerCase (hostname url) in
  let private :=
    if test ipv4Regex hostname then
      let parts := map toNumber (split "." hostname) in
      let part i := nth i parts None in
      num_eq (part 0%nat) 10 ||
      (num_eq (part 0%nat) 172 && num_ge (part 1%nat) 16 && num_le (part 1%nat) 31) ||
      (num_eq (part 0%nat) 192 && num_eq (part 1%nat) 168) ||
      num_eq (part 0%nat) 127 ||
      (num_eq (part 0%nat) 169 && num_eq (part 1%nat) 254)
    else false in
  if private then false
  else if array_includes localDomains hostname then false
  else true.

(** [/^https?:\/\//i] as [String.prototype.match] uses it: the pattern at
    the start, anything after it. *)
Definition is_char_i (a c : ascii) : bool :=
  Ascii.eqb (lower_char c) (lower_char a).
Fixpoint LitI (s : string) : regex :=
  match s with
  | EmptyString => Eps
  | String c s' => Seq (Cls (is_char_i c)) (LitI s')
  end.
Definition anything : regex := Star (Cls (fun _ => true)).

Definition re_has_http_scheme_i : regex :=
  Seq (LitI "http") (Seq (Opt (Cls (is_char_i "s"))) (Seq (Lit "://") anything)).
(** [/^https?:\/\//] *)
Definition re_has_http_scheme : regex :=
  Seq (Lit "http") (Seq (Opt (Chr "s")) (Seq (Lit "://") anything)).

(** [normalizeUrl] on a string argument; the empty string throws. *)
Definition normalizeUrl (url : string) : Completion string :=
  if is_empty url then Throw (Error "Invalid URL")
  else
    let url := trim url in
    if test re_has_http_scheme_i url then Normal url
    else if startsWith url "//" then Normal ("https:" ++ url)
    else Normal ("https://" ++ url).

(* ------------------------------------------------------------------ *)
(** ** Responses built by the worker *)

Definition addCorsHeaders (h : Headers.t) : Headers.t :=
  let h := Headers.set h "Access-Control-Allow-Origin" "*" in
  let h := Headers.set h "Access-Control-Allow-Methods" (join ", " ALLOWED_METHODS) in
  let h := Headers.set h "Access-Control-Allow-Headers"
             "Content-Type, Authorization, X-Requested-With, Accept, Origin" in
  let h := Headers.set h "Access-Control-Max-Age" CORS_MAX_AGE in
  Headers.set h "Access-Control-Expose-Headers" "Content-Length, Content-Type".

(** [createErrorResponse]; [now] is what [new Date().toISOString()] reads. *)
Definition createErrorResponse (now : string) (message : string) (st : Z)
  : Response :=
  let errorBody :=
    BJson (JObject [ ("error", JString message);
                     ("status", JNumber (decimal (Z.to_N st)));
                     ("timestamp", JString now) ]) in
  let h := Headers.of_object [("Content-Type", "application/json; charset=utf-8")] in
  mkResponse st "" (addCorsHeaders h) errorBody.

Definition headersToRemove : list string :=
  [ "server"; "x-powered-by"; "x-aspnet-version"; "x-runtime"; "x-version";
    "content-security-policy"; "x-frame-options"; "x-content-type-options" ].

Definition createProxyResponse (originalResponse : Response) : Response :=
  let h := addCorsHeaders (headers originalResponse) in
  let h := fold_left Headers.delete headersToRemove h in
  mkResponse (status originalResponse) (statusText originalResponse) h
             (body originalResponse).

Definition handleOptions (request : Request) : Response :=
  let h := addCorsHeaders [] in
  let h :=
    match Headers.get (req_headers request) "Access-Control-Request-Headers" with
    | Some requestHeaders =>
        if is_empty requestHeaders then h
        else Headers.set h "Access-Control-Allow-Headers" requestHeaders
    | None => h
    end in
  let h :=
    match Headers.get (req_headers request) "Access-Control-Request-Method" with
    | Some requestMethod =>
        if negb (is_empty requestMethod) && array_includes ALLOWED_METHODS requestMethod
        then Headers.set h "Access-Control-Allow-Methods" (join ", " ALLOWED_METHODS)
        else h
    | None => h
    end in
  mkResponse 204 "" h BNull.

(* ------------------------------------------------------------------ *)
(** ** The parts that call into the platform *)

Section Worker.

(** The platform's URL parser: [new URL(s)] and [new URL(s, base)];
    [None] is the [TypeError] it throws. *)
Variable URL_parse : string -> option URL.
Variable URL_parse_base : string -> string -> option URL.
(** [JSON.parse] and [JSON.stringify]. *)
Variable JSON_parse : string -> Completion JSON.
Variable JSON_stringify : JSON -> Completion string.

Definition new_URL (s : string) : Completion URL :=
  match URL_parse s with
  | Some u => Normal u
  | None => Throw (TypeError "Invalid URL")
  end.

(** *** Header sanitizer *)

Definition copy_allowed (cleanedHeaders : Headers.t) (kv : string * string)
  : Headers.t :=
  let (key, value) := kv in
  let lowerKey := toLowerCase key in
  if negb (array_includes BLOCKED_HEADERS lowerKey)
  then Headers.set cleanedHeaders key value
  else cleanedHeaders.

Definition set_if_absent (h : Headers.t) (name value : string) : Headers.t :=
  if negb (Headers.has h name) then Headers.set h name value else h.

Definition cleanRequestHeaders (originalHeaders : Headers.t) (targetUrl : URL)
  : Headers.t :=
  let cleanedHeaders :=
    fold_left copy_allowed (Headers.entries originalHeaders) [] in
  let cleanedHeaders := Headers.set cleanedHeaders "Host" (hostname targetUrl) in
  let cleanedHeaders :=
    if Headers.has originalHeaders "Origin"
    then Headers.set cleanedHeaders "Origin" (URL_origin targetUrl)
    else cleanedHeaders in
  let cleanedHeaders :=
    if Headers.has originalHeaders "Referer" then
      match
        (referer <- match Headers.get originalHeaders "Referer" with
                    | Some r => Normal r
                    | None => Normal "null"
                    end ;;
         refererUrl <- new_URL referer ;;
         let refererUrl := URL_set_hostname refererUrl (hostname targetUrl) in
         let refererUrl := URL_set_protocol refererUrl (protocol targetUrl) in
         Normal (Headers.set cleanedHeaders "Referer" (URL_toString refererUrl))
        )%completion
      with
      | Normal h => h
      | Throw _ => Headers.delete cleanedHeaders "Referer"
      end
    else cleanedHeaders in
  let cleanedHeaders :=
    set_if_absent cleanedHeaders "User-Agent"
      "Mozilla/5.0 (Windows NT 10.0; Win64; x64) AppleWebKit/537.36 (KHTML, like Gecko) Chrome/120.0.0.0 Safari/537.36" in
  let cleanedHeaders :=
    set_if_absent cleanedHeaders "Accept"
      "text/html,application/xhtml+xml,application/xml;q=0.9,image/webp,*/*;q=0.8" in
  let cleanedHeaders :=
    set_if_absent cleanedHeaders "Accept-Language" "en-US,en;q=0.5" in
  set_if_absent cleanedHeaders "Accept-Encoding" "gzip, deflate, br".

(** *** Target URL *)

Definition buildTargetUrl (subdomain : string) (originalUrl : URL)
  : Completion URL :=
  match convertSubdomainToUrl subdomain with
  | None => Throw (Error "Invalid subdomain format")
  | Some targetDomain =>
      (targetUrl <- new_URL ("https://" ++ targetDomain) ;;
       let targetUrl := URL_set_pathname targetUrl (pathname originalUrl) in
       let targetUrl := URL_set_search targetUrl (search originalUrl) in
       Normal targetUrl)%completion
  end.

(** *** Redirect normalizer *)

Definition handleRedirect (response : Response) (originalRequest : Request)
  : Response :=
  match Headers.get (headers response) "Location" with
  | None => createProxyResponse response
  | Some location =>
      if is_empty location then createProxyResponse response
      else
        match URL_parse location with
        | None => createProxyResponse response
        | Some redirectUrl =>
            let originalUrl := req_url originalRequest in
            if isStandardDomain (hostname redirectUrl) then
              match convertUrlToSubdomain (hostname redirectUrl) with
              | Some convertedSubdomain =>
                  let originalHostParts := split "." (hostname originalUrl) in
                  let proxyDomain := join "." (slice1 originalHostParts) in
                  let redirectUrl :=
                    URL_set_hostname redirectUrl
                      (convertedSubdomain ++ "." ++ proxyDomain) in
                  let h := Headers.set (headers response) "Location"
                             (URL_toString redirectUrl) in
                  mkResponse (status response) (statusText response)
                             (addCorsHeaders h) (body response)
              | None => createProxyResponse response
              end
            else createProxyResponse response
        end
  end.

(** *** Upstream request

    [_worker.js] declares [proxyRequest] twice, at line 120 (ending in
    [createProxyResponseWithRewrite]) and at line 756 (ending in
    [createProxyResponse]).  Function declarations of a script are
    hoisted and a later declaration of a name replaces an earlier one, so
    every call of [proxyRequest] runs the declaration of line 756, which
    is the one embedded here. *)
Definition proxyRequest (now : string) (originalRequest : Request)
  (targetUrl : URL) : Async Response :=
  let requestOptions :=
    mkRequestInit
      (req_method originalRequest)
      (cleanRequestHeaders (req_headers originalRequest) targetUrl)
      "manual"
      REQUEST_TIMEOUT
      (if negb (array_includes ["GET"; "HEAD"] (req_method originalRequest))
       then Some (req_body originalRequest) else None) in
  async_try
    (abind (await_fetch (URL_toString targetUrl) requestOptions)
       (fun response =>
          if (300 <=? status response)%Z && (status response <? 400)%Z
          then Resolve (handleRedirect response originalRequest)
          else Resolve (createProxyResponse response)))
    (fun error =>
       if String.eqb (exn_name error) "TimeoutError"
       then Resolve (createErrorResponse now "Request timeout" 504)
       else Reject error).

(** *** Link generation on the landing host *)

Fixpoint lookup (key : string) (entries : list (string * JSON)) : option JSON :=
  match entries with
  | [] => None
  | (k, v) :: rest => if String.eqb k key then Some v else lookup key rest
  end.

(** [body.url]: [None] is [undefined]. *)
Definition get_url (body : JSON) : Completion (option JSON) :=
  match body with
  | JNull => Throw (TypeError "Cannot read properties of null")
  | JObject entries => Normal (lookup "url" entries)
  | _ => Normal None
  end.

(** [!v] *)
Definition falsy (v : option JSON) : bool :=
  match v with
  | None => true
  | Some JNull => true
  | Some (JBool b) => negb b
  | Some (JNumber text) => String.eqb text "0"
  | Some (JString s) => is_empty s
  | Some _ => false
  end.

(** [normalizeUrl] on any value: what is not a string throws. *)
Definition normalizeUrl_value (v : option JSON) : Completion string :=
  match v with
  | Some (JString s) => normalizeUrl s
  | _ => Throw (Error "Invalid URL")
  end.

(** A value inside a template literal. *)
Definition template_of (v : option string) : string :=
  match v with Some s => s | None => "null" end.

Definition handleGenerateApi (now : string) (request : Request)
  : Async Response :=
  if negb (String.eqb (req_method request) "POST")
  then Resolve (createErrorResponse now "Method not allowed" 405)
  else
    lift (try_catch
      (body <- req_json request ;;
       targetUrl <- get_url body ;;
       if falsy targetUrl
       then Normal (createErrorResponse now "URL is required" 400)
       else
         targetUrl <- normalizeUrl_value targetUrl ;;
         match URL_parse targetUrl with
         | None => Normal (createErrorResponse now "Invalid URL format" 400)
         | Some parsedUrl =>
             if negb (array_includes ["http:"; "https:"] (protocol parsedUrl))
             then Normal (createErrorResponse now
                            "Only HTTP and HTTPS URLs are supported" 400)
             else if negb (isPublicUrl parsedUrl)
             then Normal (createErrorResponse now
                            "Private network URLs are not allowed" 403)
             else
               let proxySubdomain := convertUrlToSubdomain (hostname parsedUrl) in
               let originalUrl := req_url request in
               let proxyDomain :=
                 join "." (slice1 (split "." (hostname originalUrl))) in
               let proxyUrl :=
                 "https://" ++ template_of proxySubdomain ++ "." ++ proxyDomain
                 ++ pathname parsedUrl ++ search parsedUrl in
               Normal (mkResponse 200 ""
                         (Headers.of_object
                            [ ("Content-Type", "application/json; charset=utf-8");
                              ("Access-Control-Allow-Origin", "*") ])
                         (BJson (JObject [ ("success", JBool true);
                                           ("originalUrl", JString targetUrl);
                                           ("proxyUrl", JString proxyUrl) ])))
         end)%completion
      (fun _ => Normal (createErrorResponse now "Invalid request body" 400))).

Definition handleProxyPage (now : string) (request : Request) : Async Response :=
  let url := req_url request in
  if String.eqb (pathname url) "/api/generate"
  then handleGenerateApi now request
  else
    Resolve (mkResponse 200 ""
               (Headers.of_object
                  [ ("Content-Type", "text/html; charset=utf-8");
                    ("Cache-Control", "public, max-age=3600");
                    ("X-Content-Type-Options", "nosniff");
                    ("X-Frame-Options", "DENY");
                    ("X-XSS-Protection", "1; mode=block") ])
               (BPage (hostname url))).

(** *** Dispatcher *)

(** The landing-page branch returns its promise without awaiting it, so
    the [catch] of [handleRequest] guards the other branches only. *)
Definition handleRequest (now : string) (request : Request) : Async Response :=
  let url := req_url request in
  let hostname := hostname url in
  let hostParts := split "." hostname in
  if String.eqb (nth 0 hostParts "") "proxy" ||
     String.eqb (nth 0 hostParts "") "proxy--"
  then handleProxyPage now request
  else
    async_try
      (match extractSubdomain hostname with
       | None => Resolve (createErrorResponse now "Invalid subdomain format" 400)
       | Some subdomain =>
           if negb (array_includes ALLOWED_METHODS (req_method request))
           then Resolve (createErrorResponse now "Method not allowed" 405)
           else if String.eqb (req_method request) "OPTIONS"
           then Resolve (handleOptions request)
           else
             abind (lift (buildTargetUrl subdomain url))
                   (fun targetUrl => proxyRequest now request targetUrl)
       end)
      (fun error => Resolve (createErrorResponse now (exn_message error) 500)).

(** *** Content rewriter: single URLs and JSON documents *)

(** [.] of a pattern: any code unit but a line terminator. *)
Definition dot : regex := Cls (fun c => negb (is_line_terminator c)).

(** A pattern searched anywhere up to the end of the input, [/r$/]. *)
Definition ends_with_re (r : regex) : regex := Seq anything r.

(** The source writes the CDN patterns as [/\\.cloudflare\\.com$/] and so
    on: a backslash, any code unit, the name, a backslash, any code unit,
    the top-level label. *)
Definition cdn_pattern (name tld : string) : regex :=
  ends_with_re
    (Seq (Chr "\") (Seq dot (Seq (Lit name) (Seq (Chr "\") (Seq dot (Lit tld)))))).

Definition commonCdnPatterns : list regex :=
  [ cdn_pattern "cloudflare" "com"; cdn_pattern "googleapis" "com";
    cdn_pattern "gstatic" "com"; cdn_pattern "jsdelivr" "net";
    cdn_pattern "unpkg" "com" ].

Definition shouldProxyUrl (url targetUrl : URL) : bool :=
  if String.eqb (hostname url) (hostname targetUrl) then true
  else if endsWith (hostname url) ("." ++ hostname targetUrl) then true
  else if existsb (fun pattern => test pattern (hostname url)) commonCdnPatterns
  then false
  else false.

(** [s.replace(/\\./g, by)]: the pattern is a backslash followed by any
    code unit that is not a line terminator. *)
Fixpoint replace_backslash_pair (by_ : string) (s : string) : string :=
  match s with
  | String c1 ((String c2 rest) as tail) =>
      if Ascii.eqb c1 "\" && negb (is_line_terminator c2)
      then by_ ++ replace_backslash_pair by_ rest
      else String c1 (replace_backslash_pair by_ tail)
  | _ => s
  end.

Definition rewriteUrl (url : string) (targetUrl : URL) (proxyDomain : string)
  : string :=
  if is_empty url || startsWith url "data:" || startsWith url "blob:" ||
     startsWith url "#"
  then url
  else
    match URL_parse_base url (URL_origin targetUrl) with
    | None => url
    | Some absoluteUrl =>
        if shouldProxyUrl absoluteUrl targetUrl then
          let proxySubdomain := replace_backslash_pair "--" (hostname absoluteUrl) in
          let absoluteUrl :=
            URL_set_hostname absoluteUrl (proxySubdomain ++ "." ++ proxyDomain) in
          let absoluteUrl := URL_set_protocol absoluteUrl "https:" in
          URL_toString absoluteUrl
        else url
    end.

(** [result[key] = value] on a fresh object literal: the key [__proto__]
    reaches the prototype setter and adds no property. *)
Fixpoint assign (result : list (string * JSON)) (key : string) (value : JSON)
  : list (string * JSON) :=
  match result with
  | [] => [(key, value)]
  | (k, v) :: rest =>
      if String.eqb k key then (k, value) :: rest
      else (k, v) :: assign rest key value
  end.

Definition set_property (result : list (string * JSON)) (key : string)
  (value : JSON) : list (string * JSON) :=
  if String.eqb key "__proto__" then result else assign result key value.

(** [obj.hasOwnProperty(key)] inside the [for ... in] loop: a document
    with a key of that name shadows the method by a value that cannot be
    called. *)
Definition hasOwnProperty_call (entries : list (string * JSON)) : Completion bool :=
  match lookup "hasOwnProperty" entries with
  | Some _ => Throw (TypeError "obj.hasOwnProperty is not a function")
  | None => Normal true
  end.

Fixpoint rewriteJsonObject (targetUrl : URL) (proxyDomain : string) (obj : JSON)
  {struct obj} : Completion JSON :=
  match obj with
  | JString s =>
      if test re_has_http_scheme s
      then Normal (JString (rewriteUrl s targetUrl proxyDomain))
      else Normal obj
  | JArray items =>
      (items' <-
         (fix map_items (l : list JSON) : Completion (list JSON) :=
            match l with
            | [] => Normal []
            | item :: l' =>
                item' <- rewriteJsonObject targetUrl proxyDomain item ;;
                rest' <- map_items l' ;;
                Normal (item' :: rest')
            end) items ;;
       Normal (JArray items'))%completion
  | JObject entries =>
      (result <-
         (fix for_in (l : list (string * JSON)) (result : list (string * JSON))
            : Completion (list (string * JSON)) :=
            match l with
            | [] => Normal result
            | (key, value) :: l' =>
                own <- hasOwnProperty_call entries ;;
                if own : bool then
                  value' <- rewriteJsonObject targetUrl proxyDomain value ;;
                  for_in l' (set_property result key value')
                else for_in l' result
            end) entries [] ;;
       Normal (JObject result))%completion
  | _ => Normal obj
  end.

Definition rewriteJson (json : string) (targetUrl : URL) (proxyDomain : string)
  : Completion string :=
  try_catch
    (data <- JSON_parse json ;;
     rewrittenData <- rewriteJsonObject targetUrl proxyDomain data ;;
     JSON_stringify rewrittenData)%completion
    (fun _ => Normal json).

End Worker.

(* ------------------------------------------------------------------ *)
(** ** A reference URL parser

    [parse_url] reads the URLs the scenarios use: [http:] or [https:],
    two slashes, an ASCII host name, then optional path, query and
    fragment.  Anything else (credentials, ports, other schemes, relative
    references) is outside its domain and gives [None]. *)

Module RefUrl.

(** Cut [s] before the first code unit satisfying [p]. *)
Fixpoint break (p : ascii -> bool) (s : string) : string * string :=
  match s with
  | EmptyString => (EmptyString, EmptyString)
  | String c s' =>
      if p c then (EmptyString, s)
      else let (a, b) := break p s' in (String c a, b)
  end.

Definition is_one_of (cs : string) (c : ascii) : bool :=
  negb (forall_chars (fun x => negb (Ascii.eqb x c)) cs).

Definition parse_after_scheme (scheme rest : string) : option URL :=
  let (host, rest1) := break (is_one_of "/?#") rest in
  let (path, rest2) := break (is_one_of "?#") rest1 in
  let (query, fragment) := break (is_one_of "#") rest2 in
  if is_empty host || negb (forall_chars is_alnum_dot_hyphen host) then None
  else
    Some (mkURL scheme (toLowerCase host) ""
                (if is_empty path then "/" else path)
                (if String.eqb query "?" then "" else query)
                (if String.eqb fragment "#" then "" else fragment)).

Definition parse_url (s : string) : option URL :=
  let l := toLowerCase s in
  if String.prefix "https://" l then parse_after_scheme "https:" (drop 8 s)
  else if String.prefix "http://" l then parse_after_scheme "http:" (drop 7 s)
  else None.

(** [new URL(s, base)] where [s] is absolute or starts with one slash. *)
Definition parse_url_base (s base : string) : option URL :=
  match parse_url s with
  | Some u => Some u
  | None =>
      if String.prefix "/" s && negb (String.prefix "//" s)
      then parse_url (base ++ s) else None
  end.

End RefUrl.

(* ------------------------------------------------------------------ *)
(** ** Vocabulary of the specification *)

(** A label of a domain name as the specification describes it: it
    matches [[A-Za-z0-9-]+] and neither starts nor ends with a hyphen. *)
Definition valid_label (l : string) : bool :=
  test re_label l && negb (startsWith l "-") && negb (endsWith l "-").

(** A domain name with at least two such labels. *)
Definition valid_domain_name (d : string) : bool :=
  (2 <=? List.length (split "." d))%nat && forallb valid_label (split "." d).

(** No label holds two hyphens in a row. *)
Definition no_double_hyphen (d : string) : bool :=
  forallb (fun l => negb (includes l "--")) (split "." d).

(** The names of a header list all satisfy [P]. *)
Definition names_ok (P : string -> bool) (h : Headers.t) : Prop :=
  forall name value, In (name, value) h -> P name = true.

(** A header name outside the deny-list, whatever its case. *)
Definition not_blocked (name : string) : bool :=
  negb (array_includes BLOCKED_HEADERS (toLowerCase name)).

(** An IPv4 address [a.b.c.d] as a 32-bit number and as the dotted
    decimal text [URL.hostname] holds for it. *)
Definition ipv4_value (a b c d : N) : N :=
  (((a * 256 + b) * 256 + c) * 256 + d)%N.

Definition dotted_quad (a b c d : N) : string :=
  decimal a ++ "." ++ decimal b ++ "." ++ decimal c ++ "." ++ decimal d.

(** Membership of an address in the block [base/len]. *)
Definition in_cidr (ip base len : N) : bool :=
  N.eqb (N.shiftr ip (32 - len)) (N.shiftr base (32 - len)).

(** [10.0.0.0/8], [172.16.0.0/12], [192.168.0.0/16], [127.0.0.0/8] and
    [169.254.0.0/16]. *)
Definition private_blocks : list (N * N) :=
  [ (ipv4_value 10 0 0 0, 8%N); (ipv4_value 172 16 0 0, 12%N);
    (ipv4_value 192 168 0 0, 16%N); (ipv4_value 127 0 0 0, 8%N);
    (ipv4_value 169 254 0 0, 16%N) ].

Definition in_private_block (ip : N) : bool :=
  existsb (fun block => in_cidr ip (fst block) (snd block)) private_blocks.

(** What the facts about one octet are checked by. *)
Definition octet_ok (n : N) : bool :=
  test (Rep1to3 (Cls is_digit)) (decimal n) &&
  forall_chars is_digit (decimal n) &&
  match toNumber (decimal n) with Some v => N.eqb v n | None => false end.

(** The URL [https://host/]. *)
Definition url_of_host (host : string) : URL := mkURL "https:" host "" "/" "" "".

(** The response of an async computation that resolves without awaiting. *)
Definition response_of (m : Async Response) : option Response :=
  match m with
  | Resolve r => Some r
  | _ => None
  end.

(** A member of a JSON object sent as a body. *)
Definition json_field (b : Body) (key : string) : option JSON :=
  match b with
  | BJson (JObject entries) => lookup key entries
  | _ => None
  end.

(** A request without a body; [request.json()] rejects on it. *)
Definition bodiless (method : string) (url : URL) (h : Headers.t) : Request :=
  mkRequest method url h BNull
            (Throw (SyntaxError "Unexpected end of JSON input")).

(** The double quote, and an anchor element [<a href="url">]. *)
Definition dq : string := String (ascii_of_nat 34) "".
Definition anchor (url : string) : string := "<a href=" ++ dq ++ url ++ dq ++ ">".

(** The first label of a host name, [hostname.split('.')[0]]. *)
Definition first_label (hostname : string) : string :=
  nth 0 (split "." hostname) "".

(** The first upstream fetch of an async computation, and how it goes on
    once that fetch has settled. *)
Definition first_fetch {A : Type} (m : Async A) : option (string * RequestInit) :=
  match m with
  | Fetch url init _ => Some (url, init)
  | _ => None
  end.

Definition settle {A : Type} (m : Async A) (o : FetchOutcome) : Async A :=
  match m with
  | Fetch _ _ k => k o
  | _ => m
  end.

(* ------------------------------------------------------------------ *)
(** ** Further functions of the worker *)

Definition REWRITABLE_CONTENT_TYPES : list string :=
  [ "text/html"; "text/css"; "text/javascript"; "application/javascript";
    "application/x-javascript"; "application/json"; "text/xml";
    "application/xml"; "application/xhtml+xml" ].

Definition shouldRewriteContent (contentType : string) : bool :=
  if is_empty contentType then false
  else
    let lowerContentType := toLowerCase contentType in
    existsb (fun type => includes lowerContentType type)
            REWRITABLE_CONTENT_TYPES.

(** [escapeRegExp]: [string.replace(/[.*+?^${}()|[\\]\\\\]/g, '\\\\$&')].
    The class of the pattern ends at the first bracket that closes, so
    the pattern is one code unit out of [.*+?^${}()|[] and the backslash,
    then two backslashes, then a closing bracket; the replacement is two
    backslashes and the match. *)
Definition is_escape_class (c : ascii) : bool :=
  negb (forall_chars (fun x => negb (Ascii.eqb x c)) ".*+?^${}()|[\").

Fixpoint escapeRegExp (s : string) : string :=
  match s with
  | EmptyString => EmptyString
  | String c1 tail =>
      match tail with
      | String c2 (String c3 (String c4 rest)) =>
          if is_escape_class c1 && Ascii.eqb c2 "\" && Ascii.eqb c3 "\"
             && Ascii.eqb c4 "]"
          then "\\" ++ String c1 (String c2 (String c3 (String c4 (escapeRegExp rest))))
          else String c1 (escapeRegExp tail)
      | _ => String c1 (escapeRegExp tail)
      end
  end.


(** ** Further vocabulary *)

(** The names [addCorsHeaders] sets. *)
Definition CORS_HEADERS : list string :=
  [ "Access-Control-Allow-Origin"; "Access-Control-Allow-Methods";
    "Access-Control-Allow-Headers"; "Access-Control-Max-Age";
    "Access-Control-Expose-Headers" ].

(** A header name matches one of a list, whatever its case. *)
Definition name_among (names : list string) (name : string) : bool :=
  existsb (fun n => Headers.name_eq n name) names.

(** The gateway's base domain: the inbound host name without its first
    label, [hostname.split('.').slice(1).join('.')]. *)
Definition gateway_base (host : string) : string :=
  join "." (slice1 (split "." host)).

(** Every class of a pattern lies within the class [p]. *)
Fixpoint classes_within (p : ascii -> bool) (r : regex) : Prop :=
  match r with
  | Void | Eps => True
  | Cls q => forall c, q c = true -> p c = true
  | Seq r1 r2 | Alt r1 r2 => classes_within p r1 /\ classes_within p r2
  | Star r1 => classes_within p r1
  end.

(** Strings that are pairwise different. *)
Fixpoint distinct (l : list string) : bool :=
  match l with
  | [] => true
  | x :: l' => negb (array_includes l' x) && distinct l'
  end.

(** A JSON document the rewriter has nothing to do on: no string starts
    with [http://] or [https://], and the keys of every object are
    pairwise different and none is [hasOwnProperty] or [__proto__]. *)
Fixpoint json_plain (j : JSON) : bool :=
  match j with
  | JString s => negb (test re_has_http_scheme s)
  | JArray items => forallb json_plain items
  | JObject entries =>
      distinct (map fst entries) &&
      negb (array_includes (map fst entries) "hasOwnProperty") &&
      negb (array_includes (map fst entries) "__proto__") &&
      forallb (fun kv => json_plain (snd kv)) entries
  | _ => true
  end.

(** Induction over JSON documents, through arrays and objects. *)
Section JSON_induction.

Variable P : JSON -> Prop.
Hypothesis P_null : P JNull.
Hypothesis P_bool : forall b, P (JBool b).
Hypothesis P_number : forall text, P (JNumber text).
Hypothesis P_string : forall s, P (JString s).
Hypothesis P_array : forall items, Forall P items -> P (JArray items).
Hypothesis P_object :
  forall entries, Forall (fun kv => P (snd kv)) entries -> P (JObject entries).

Fixpoint JSON_induction (j : JSON) : P j :=
  match j with
  | JNull => P_null
  | JBool b => P_bool b
  | JNumber text => P_number text
  | JString s => P_string s
  | JArray items =>
      P_array
        ((fix all (l : list JSON) : Forall P l :=
            match l with
            | [] => Forall_nil P
            | x :: l' => Forall_cons x (JSON_induction x) (all l')
            end) items)
  | JObject entries =>
      P_object
        ((fix all (l : list (string * JSON)) : Forall (fun kv => P (snd kv)) l :=
            match l with
            | [] => Forall_nil _
            | kv :: l' =>
                Forall_cons kv
                  (match kv as p return P (snd p) with
                   | (_, v) => JSON_induction v
                   end)
                  (all l')
            end) entries)
  end.

End JSON_induction.

(** The header value stored for a name in a list of entries. *)
Fixpoint assoc (name : string) (entries : list (string * string)) : option string :=
  match entries with
  | [] => None
  | (k, v) :: rest => if String.eqb k name then Some v else assoc name rest
  end.

(* ================================================================== *)
(** * Properties *)
(* ================================================================== *)

Unset Implicit Arguments.

(** ** Strings *)

Section StringFacts.

Lemma append_nil_r (s : string) : s ++ "" = s.
Proof. induction s as [|c s IH]; simpl; [reflexivity | now rewrite IH]. Qed.

Lemma append_assoc (a b c : string) : (a ++ b) ++ c = a ++ (b ++ c).
Proof. induction a as [|x a IH]; simpl; [reflexivity | now rewrite IH]. Qed.

Lemma append_eq_nil (a b : string) : a ++ b = "" -> a = "" /\ b = "".
Proof. destruct a; simpl; [auto | discriminate]. Qed.

Lemma forall_chars_app (p : ascii -> bool) (a b : string) :
  forall_chars p (a ++ b) = forall_chars p a && forall_chars p b.
Proof.
  induction a as [|x a IH]; simpl; [reflexivity|].
  now rewrite IH, andb_assoc.
Qed.

Lemma forall_chars_impl (p q : ascii -> bool) (s : string) :
  (forall c, p c = true -> q c = true) ->
  forall_chars p s = true -> forall_chars q s = true.
Proof.
  intros Hpq. induction s as [|c s IH]; simpl; [reflexivity|].
  intros H. apply andb_true_iff in H as [Hc Hs].
  now rewrite (Hpq _ Hc), (IH Hs).
Qed.

Lemma is_empty_length (s : string) :
  (0 <? String.length s)%nat = negb (is_empty s).
Proof. destruct s; reflexivity. Qed.

End StringFacts.

(** ** The derivative matcher decides [Lang] *)

Section RegexFacts.

Lemma Lang_nullable (r : regex) : nullable r = true <-> Lang r "".
Proof.
  induction r as [| |p|r1 IH1 r2 IH2|r1 IH1 r2 IH2|r IH]; simpl.
  - split; [discriminate | intros H; inversion H].
  - split; [constructor | reflexivity].
  - split; [discriminate | intros H; inversion H].
  - rewrite andb_true_iff, IH1, IH2. split.
    + intros [H1 H2]. exact (LSeq H1 H2).
    + intros H. inversion H as [| |a b s1 s2 H1 H2 E1 E2| | | |]; subst.
      apply append_eq_nil in E2 as [-> ->]. now split.
  - rewrite orb_true_iff, IH1, IH2. split.
    + intros [H|H]; [now apply LAltL | now apply LAltR].
    + intros H. inversion H; subst; auto.
  - split; [constructor | reflexivity].
Qed.

Lemma Lang_star_cons (r : regex) (c : ascii) (s : string) :
  Lang (Star r) (String c s) ->
  exists s1 s2, s = s1 ++ s2 /\ Lang r (String c s1) /\ Lang (Star r) s2.
Proof.
  remember (Star r) as R eqn:ER. remember (String c s) as w eqn:Ew.
  intros H. revert s Ew.
  induction H as [| | | | | |r' s1 s2 H1 _ H2 IH2]; try discriminate.
  intros s Ew. injection ER as ->.
  destruct s1 as [|x s1]; simpl in Ew.
  - now apply IH2.
  - injection Ew as -> <-. now exists s1, s2.
Qed.

Lemma Lang_deriv (c : ascii) (r : regex) :
  forall s, Lang (deriv c r) s <-> Lang r (String c s).
Proof.
  induction r as [| |p|r1 IH1 r2 IH2|r1 IH1 r2 IH2|r IH]; intros s; simpl.
  - split; intros H; inversion H.
  - split; intros H; inversion H.
  - split; intros H.
    + destruct (p c) eqn:Hp; inversion H; subst. now constructor.
    + inversion H; subst. rewrite H2. constructor.
  - split.
    + intros H.
      assert (Hseq : forall w, Lang (Seq (deriv c r1) r2) w ->
                               Lang (Seq r1 r2) (String c w)).
      { intros w Hw. inversion Hw as [| |a b s1 s2 H1 H2 E1 E2| | | |]; subst.
        apply IH1 in H1. exact (LSeq H1 H2). }
      destruct (nullable r1) eqn:Hn.
      * inversion H as [| | |a b w Hl|a b w Hr| |]; subst.
        -- now apply Hseq.
        -- apply IH2 in Hr. apply Lang_nullable in Hn.
           exact (LSeq Hn Hr).
      * now apply Hseq.
    + intros H. inversion H as [| |a b s1 s2 H1 H2 E1 E2| | | |]; subst.
      destruct s1 as [|x s1]; simpl in E2.
      * subst s2. apply Lang_nullable in H1 as Hn. rewrite Hn.
        apply LAltR. now apply IH2.
      * injection E2 as -> <-. apply IH1 in H1.
        destruct (nullable r1); [apply LAltL|]; exact (LSeq H1 H2).
  - split; intros H.
    + inversion H; subst; [apply LAltL; now apply IH1 | apply LAltR; now apply IH2].
    + inversion H; subst; [apply LAltL; now apply IH1 | apply LAltR; now apply IH2].
  - split; intros H.
    + inversion H as [| |a b s1 s2 H1 H2 E1 E2| | | |]; subst.
      apply IH in H1. exact (LStarS H1 H2).
    + apply Lang_star_cons in H as (s1 & s2 & -> & H1 & H2).
      apply IH in H1. exact (LSeq H1 H2).
Qed.

Theorem test_Lang (r : regex) (s : string) : test r s = true <-> Lang r s.
Proof.
  revert r. induction s as [|c s IH]; intros r; simpl.
  - apply Lang_nullable.
  - rewrite IH. apply Lang_deriv.
Qed.

Lemma Lang_star_cls (p : ascii -> bool) (s : string) :
  Lang (Star (Cls p)) s <-> forall_chars p s = true.
Proof.
  split.
  - remember (Star (Cls p)) as R eqn:ER. intros H.
    induction H as [| | | | | |r s1 s2 H1 _ H2 IH2]; try discriminate.
    + reflexivity.
    + injection ER as ->. inversion H1; subst. simpl.
      rewrite H0. now apply IH2.
  - induction s as [|c s IH]; simpl; intros H.
    + constructor.
    + apply andb_true_iff in H as [Hc Hs].
      exact (LStarS (LCls p c Hc) (IH Hs)).
Qed.

(** [/^[class]+$/]: a non-empty string of code units of the class. *)
Lemma test_plus_cls (p : ascii -> bool) (s : string) :
  test (Plus (Cls p)) s = negb (is_empty s) && forall_chars p s.
Proof.
  apply eq_true_iff_eq. rewrite test_Lang. unfold Plus. split.
  - intros H. inversion H as [| |a b s1 s2 H1 H2 E1 E2| | | |]; subst.
    inversion H1; subst. apply Lang_star_cls in H2. simpl.
    now rewrite H3, H2.
  - destruct s as [|c s]; simpl; [discriminate|].
    intros H. apply andb_true_iff in H as [Hc Hs].
    exact (LSeq (LCls p c Hc) (proj2 (Lang_star_cls p s) Hs)).
Qed.

End RegexFacts.

(** ** [split] and [join] *)

Section SplitFacts.

Lemma prefix_cons (a b : ascii) (p s : string) :
  String.prefix (String a p) (String b s) = Ascii.eqb a b && String.prefix p s.
Proof.
  simpl. destruct (ascii_dec a b) as [->|Hne].
  - now rewrite Ascii.eqb_refl.
  - apply Ascii.eqb_neq in Hne. now rewrite Hne.
Qed.

Lemma prefix_nil (s : string) : String.prefix "" s = true.
Proof. destruct s; reflexivity. Qed.

Lemma prefix_drop (p s : string) :
  String.prefix p s = true -> p ++ drop (String.length p) s = s.
Proof.
  revert s. induction p as [|a p IH]; intros s H.
  - reflexivity.
  - destruct s as [|b s]; [discriminate|].
    rewrite prefix_cons in H. apply andb_true_iff in H as [Hab Hp].
    apply Ascii.eqb_eq in Hab as ->. simpl. now rewrite (IH _ Hp).
Qed.

Lemma split_from_nonempty (sep : string) (s : string) :
  forall k, split_from sep k s <> [].
Proof.
  induction s as [|c s IH]; intros k; cbn [split_from]; [discriminate|].
  destruct k; [|apply IH].
  destruct (String.prefix sep (String c s)); [discriminate|].
  specialize (IH 0%nat). destruct (split_from sep 0 s); [contradiction|discriminate].
Qed.

Lemma join_cons (sep p : string) (l : list string) :
  l <> [] -> join sep (p :: l) = p ++ sep ++ join sep l.
Proof. destruct l; [contradiction | reflexivity]. Qed.

Lemma join_cons_first (sep : string) (c : ascii) (l : list string) :
  l <> [] -> join sep (cons_first c l) = String c (join sep l).
Proof.
  destruct l as [|p l]; [contradiction|]. intros _.
  destruct l; reflexivity.
Qed.

Lemma join_split_from (sep : string) (s : string) :
  sep <> "" ->
  forall k, join sep (split_from sep k s) = drop k s.
Proof.
  intros Hsep. induction s as [|c s IH]; intros k.
  - destruct k; reflexivity.
  - destruct k as [|k]; [|exact (IH k)].
    change (split_from sep 0 (String c s))
      with (if String.prefix sep (String c s)
            then "" :: split_from sep (String.length sep - 1) s
            else cons_first c (split_from sep 0 s)).
    destruct (String.prefix sep (String c s)) eqn:Hp.
    + rewrite join_cons by apply split_from_nonempty.
      rewrite IH. apply prefix_drop in Hp.
      destruct sep as [|a sep]; [contradiction|].
      simpl in Hp |- *. rewrite Nat.sub_0_r. exact Hp.
    + rewrite join_cons_first by apply split_from_nonempty.
      now rewrite IH.
Qed.

(** [s.split(sep).join(sep)] gives [s] back. *)
Lemma join_split (sep s : string) : sep <> "" -> join sep (split sep s) = s.
Proof.
  intros Hsep. unfold split.
  destruct sep; [contradiction|]. simpl is_empty. cbv iota.
  now rewrite join_split_from.
Qed.

Lemma split_nonempty (sep s : string) : sep <> "" -> split sep s <> [].
Proof.
  intros Hsep. unfold split. destruct sep; [contradiction|].
  apply split_from_nonempty.
Qed.

Lemma In_cons_first (c : ascii) (l : list string) (part : string) :
  In part (cons_first c l) ->
  (exists p, part = String c p /\ (l = [] /\ p = "" \/ In p l)) \/ In part l.
Proof.
  destruct l as [|p l]; simpl.
  - intros [<-|[]]. left. exists "". auto.
  - intros [<-|H]; [left; exists p; auto | right; auto].
Qed.

(** The parts of a string keep its code units. *)
Lemma split_from_forall_chars (p : ascii -> bool) (sep : string) (s : string) :
  forall_chars p s = true ->
  forall k part, In part (split_from sep k s) -> forall_chars p part = true.
Proof.
  induction s as [|c s IH]; intros Hs k part Hin.
  - destruct k; simpl in Hin; destruct Hin as [<-|[]]; reflexivity.
  - simpl in Hs. apply andb_true_iff in Hs as [Hc Hs].
    destruct k as [|k]; cbn [split_from] in Hin; [|exact (IH Hs _ _ Hin)].
    match type of Hin with In _ (if ?b then _ else _) => destruct b end.
    + destruct Hin as [<-|Hin]; [reflexivity | exact (IH Hs _ _ Hin)].
    + apply In_cons_first in Hin as [(q & -> & [[_ ->]|Hq])|Hin].
      * simpl. now rewrite Hc.
      * simpl. now rewrite Hc, (IH Hs _ _ Hq).
      * exact (IH Hs _ _ Hin).
Qed.

Lemma split_forall_chars (p : ascii -> bool) (sep s part : string) :
  sep <> "" -> forall_chars p s = true ->
  In part (split sep s) -> forall_chars p part = true.
Proof.
  intros Hsep Hs. unfold split. destruct sep; [contradiction|].
  apply split_from_forall_chars; assumption.
Qed.

Lemma forall_chars_join (p : ascii -> bool) (sep : string) (l : list string) :
  forall_chars p sep = true ->
  (forall part, In part l -> forall_chars p part = true) ->
  forall_chars p (join sep l) = true.
Proof.
  intros Hsep. induction l as [|x l IH]; intros Hl; [reflexivity|].
  destruct l as [|y l].
  - apply Hl. now left.
  - rewrite join_cons by discriminate.
    rewrite !forall_chars_app, Hsep, (Hl x) by now left.
    simpl. apply IH. intros part Hin. apply Hl. now right.
Qed.

End SplitFacts.

(** ** Code-unit classes *)

Section ClassFacts.

Ltac by_cases_on_ascii c :=
  destruct c as [[] [] [] [] [] [] [] []]; vm_compute; congruence.

Lemma alnum_hyphen_not_whitespace (c : ascii) :
  is_alnum_hyphen c = true -> negb (is_whitespace c) = true.
Proof. by_cases_on_ascii c. Qed.

Lemma alnum_hyphen_not_dot (c : ascii) :
  is_alnum_hyphen c = true -> negb (Ascii.eqb c ".") = true.
Proof. by_cases_on_ascii c. Qed.

Lemma alnum_hyphen_is_hostname_char (c : ascii) :
  is_alnum_hyphen c = true -> is_alnum_dot_hyphen c = true.
Proof. by_cases_on_ascii c. Qed.

Lemma digit_or_dot_lower (c : ascii) :
  is_digit c || Ascii.eqb c "." = true -> lower_char c = c.
Proof. by_cases_on_ascii c. Qed.

Lemma digit_not_dot (c : ascii) :
  is_digit c = true -> negb (Ascii.eqb c ".") = true.
Proof. by_cases_on_ascii c. Qed.

End ClassFacts.

(** ** Trimming and replacing *)

Section TrimFacts.

Lemma trimEnd_id (s : string) :
  forall_chars (fun c => negb (is_whitespace c)) s = true -> trimEnd s = s.
Proof.
  induction s as [|c s IH]; simpl; [reflexivity|].
  intros H. apply andb_true_iff in H as [Hc Hs].
  rewrite (IH Hs). apply negb_true_iff in Hc. rewrite Hc.
  destruct s; reflexivity.
Qed.

Lemma trim_id (s : string) :
  forall_chars (fun c => negb (is_whitespace c)) s = true -> trim s = s.
Proof.
  intros H. unfold trim.
  assert (Hs : trimStart s = s).
  { destruct s as [|c s]; [reflexivity|]. simpl in H |- *.
    apply andb_true_iff in H as [Hc _]. apply negb_true_iff in Hc.
    now rewrite Hc. }
  rewrite Hs. now apply trimEnd_id.
Qed.

Lemma test_re_label (s : string) :
  test re_label s = negb (is_empty s) && forall_chars is_alnum_hyphen s.
Proof. apply test_plus_cls. Qed.

Lemma test_re_hostname (s : string) :
  test re_hostname s = negb (is_empty s) && forall_chars is_alnum_dot_hyphen s.
Proof. apply test_plus_cls. Qed.

Lemma label_trim (s : string) : test re_label s = true -> trim s = s.
Proof.
  rewrite test_re_label. intros H. apply andb_true_iff in H as [_ H].
  apply trim_id. revert H. apply forall_chars_impl.
  exact alnum_hyphen_not_whitespace.
Qed.

Lemma replace_char_app (c : ascii) (by_ a b : string) :
  replace_char c by_ (a ++ b) = replace_char c by_ a ++ replace_char c by_ b.
Proof.
  induction a as [|x a IH]; simpl; [reflexivity|].
  destruct (Ascii.eqb x c); rewrite IH; [now rewrite append_assoc | reflexivity].
Qed.

Lemma replace_char_absent (c : ascii) (by_ s : string) :
  forall_chars (fun x => negb (Ascii.eqb x c)) s = true ->
  replace_char c by_ s = s.
Proof.
  induction s as [|x s IH]; simpl; [reflexivity|].
  intros H. apply andb_true_iff in H as [Hx Hs].
  apply negb_true_iff in Hx. now rewrite Hx, (IH Hs).
Qed.

(** Replacing the dots of a dotted name by another separator. *)
Lemma replace_dot_join (by_ : string) (l : list string) :
  (forall part, In part l ->
     forall_chars (fun x => negb (Ascii.eqb x ".")) part = true) ->
  replace_char "." by_ (join "." l) = join by_ l.
Proof.
  induction l as [|x l IH]; intros Hl; [reflexivity|].
  destruct l as [|y l].
  - apply replace_char_absent. apply Hl. now left.
  - rewrite !join_cons by discriminate.
    rewrite !replace_char_app, replace_char_absent by (apply Hl; now left).
    rewrite IH by (intros part Hin; apply Hl; now right).
    assert (E : replace_char "." by_ "." = by_) by (simpl; apply append_nil_r).
    rewrite E. symmetry. apply join_cons. discriminate.
Qed.

End TrimFacts.

(** ** Subdomain codec *)

Section CodecFacts.

Lemma split_dd_cons (c : ascii) (t : string) :
  split "--" (String c t) =
  if String.prefix "--" (String c t)
  then "" :: split "--" (drop 1 t)
  else cons_first c (split "--" t).
Proof.
  unfold split. simpl is_empty. cbv iota. cbn [split_from].
  destruct (String.prefix "--" (String c t)); [|reflexivity].
  f_equal. destruct t; reflexivity.
Qed.

Lemma endsWith_cons (c : ascii) (s p : string) :
  endsWith (String c s) p = String.eqb (String c s) p || endsWith s p.
Proof. reflexivity. Qed.

Lemma includes_cons (c : ascii) (s p : string) :
  includes (String c s) p = String.prefix p (String c s) || includes s p.
Proof. reflexivity. Qed.

Lemma no_hyphen_pair_ahead (c : ascii) (l rest : string) :
  String.prefix "--" (String c l) = false ->
  endsWith (String c l) "-" = false ->
  String.prefix "--" (String c (l ++ "--" ++ rest)) = false.
Proof.
  intros Hpre Hend. rewrite prefix_cons in *.
  destruct l as [|c2 l].
  - rewrite endsWith_cons in Hend. apply orb_false_iff in Hend as [Hc _].
    simpl in Hc. destruct (Ascii.eqb c "-") eqn:E.
    + discriminate.
    + rewrite Ascii.eqb_sym, E. reflexivity.
  - simpl append. rewrite prefix_cons, prefix_nil in *. exact Hpre.
Qed.

(** A part without a hyphen pair and without a final hyphen is cut off
    exactly at the delimiter that follows it. *)
Lemma split_dd_part (l rest : string) :
  includes l "--" = false -> endsWith l "-" = false ->
  split "--" (l ++ "--" ++ rest) = l :: split "--" rest.
Proof.
  induction l as [|c l IH]; intros Hinc Hend.
  - change ("" ++ "--" ++ rest) with (String "-" (String "-" rest)).
    rewrite split_dd_cons, !prefix_cons, prefix_nil. reflexivity.
  - rewrite includes_cons in Hinc. apply orb_false_iff in Hinc as [Hpre Hinc].
    assert (Hend' : endsWith l "-" = false).
    { rewrite endsWith_cons in Hend. now apply orb_false_iff in Hend as [_ ?]. }
    change (String c l ++ "--" ++ rest) with (String c (l ++ "--" ++ rest)).
    rewrite split_dd_cons, (no_hyphen_pair_ahead _ _ rest Hpre Hend).
    now rewrite (IH Hinc Hend').
Qed.

Lemma split_dd_single (l : string) :
  includes l "--" = false -> split "--" l = [l].
Proof.
  induction l as [|c l IH]; intros Hinc; [reflexivity|].
  rewrite includes_cons in Hinc. apply orb_false_iff in Hinc as [Hpre Hinc].
  now rewrite split_dd_cons, Hpre, (IH Hinc).
Qed.

Lemma split_join_dd (labels : list string) :
  labels <> [] ->
  (forall l, In l labels -> includes l "--" = false /\ endsWith l "-" = false) ->
  split "--" (join "--" labels) = labels.
Proof.
  induction labels as [|l labels IH]; intros Hne Hall; [contradiction|].
  destruct (Hall l (or_introl eq_refl)) as [Hinc Hend].
  destruct labels as [|l2 labels].
  - now apply split_dd_single.
  - rewrite join_cons by discriminate.
    rewrite (split_dd_part _ _ Hinc Hend). f_equal.
    apply IH; [discriminate|]. intros x Hx. apply Hall. now right.
Qed.

Lemma join_two_nonempty (sep : string) (l : list string) :
  sep <> "" -> (List.length l <? 2)%nat = false -> is_empty (join sep l) = false.
Proof.
  intros Hsep Hlen. destruct l as [|a [|b l]]; try discriminate.
  rewrite join_cons by discriminate.
  destruct a; [|reflexivity]. destruct sep; [contradiction|reflexivity].
Qed.

Lemma existsb_none (A : Type) (P Q : A -> bool) (l : list A) :
  forallb P l = true -> (forall x, P x = true -> Q x = false) ->
  existsb Q l = false.
Proof.
  intros Hall Hpq. induction l as [|x l IH]; [reflexivity|].
  simpl in *. apply andb_true_iff in Hall as [Hx Hl].
  now rewrite (Hpq _ Hx), (IH Hl).
Qed.

(** What [convertSubdomainToUrl] accepts, [convertUrlToSubdomain] maps
    back to the trimmed input. *)
Lemma decode_then_encode (s d : string) :
  convertSubdomainToUrl s = Some d -> convertUrlToSubdomain d = Some (trim s).
Proof.
  unfold convertSubdomainToUrl.
  destruct (is_empty s); [discriminate|].
  destruct (test re_label (trim s)) eqn:Ht; [|discriminate]. cbn [negb].
  destruct (List.length (split "--" (trim s)) <? 2)%nat eqn:Hlen; [discriminate|].
  destruct (existsb _ _); [discriminate|].
  intros [= <-].
  rewrite test_re_label in Ht. apply andb_true_iff in Ht as [_ Hchars].
  assert (Hparts : forall part, In part (split "--" (trim s)) ->
                     forall_chars is_alnum_hyphen part = true).
  { intros part. now apply split_forall_chars. }
  unfold convertUrlToSubdomain.
  rewrite join_two_nonempty by (assumption || discriminate).
  rewrite test_re_hostname, join_two_nonempty by (assumption || discriminate).
  rewrite forall_chars_join.
  - cbn [negb andb]. f_equal. rewrite replace_dot_join.
    + now apply join_split.
    + intros part Hin. apply (forall_chars_impl _ _ _ alnum_hyphen_not_dot).
      now apply Hparts.
  - reflexivity.
  - intros part Hin.
    apply (forall_chars_impl _ _ _ alnum_hyphen_is_hostname_char).
    now apply Hparts.
Qed.

(** The gate's validation implies the decoder's. *)
Lemma valid_format_decodes (s : string) :
  isValidSubdomainFormat s = true ->
  test re_label s = true /\
  convertSubdomainToUrl s = Some (join "." (split "--" s)).
Proof.
  unfold isValidSubdomainFormat.
  destruct (startsWith s "-" || endsWith s "-"); [discriminate|].
  destruct (List.length (split "--" s) <? 2)%nat eqn:Hlen; [discriminate|].
  intros Hall.
  assert (Hparts : forall part, In part (split "--" s) ->
                     forall_chars is_alnum_hyphen part = true).
  { intros part Hin. rewrite forallb_forall in Hall. specialize (Hall _ Hin).
    rewrite test_re_label in Hall.
    apply andb_true_iff in Hall as [Hall _].
    apply andb_true_iff in Hall as [Hall _].
    apply andb_true_iff in Hall as [_ Hall].
    now apply andb_true_iff in Hall as [_ Hall]. }
  assert (Hs : join "--" (split "--" s) = s) by now apply join_split.
  assert (Hne : is_empty s = false).
  { rewrite <- Hs. apply join_two_nonempty; [discriminate | assumption]. }
  assert (Hlabel : test re_label s = true).
  { rewrite test_re_label, Hne. cbn [negb andb]. rewrite <- Hs.
    apply forall_chars_join; [reflexivity | assumption]. }
  split; [assumption|].
  unfold convertSubdomainToUrl.
  rewrite Hne, (label_trim _ Hlabel), Hlabel, Hlen. cbn [negb].
  rewrite (existsb_none _ _ _ _ Hall); [reflexivity|].
  intros part Hp.
  apply andb_true_iff in Hp as [Hp _]. apply andb_true_iff in Hp as [Hp _].
  apply andb_true_iff in Hp as [Hp _]. rewrite is_empty_length in Hp.
  apply negb_true_iff in Hp. rewrite Hp. cbn [orb].
  destruct part; [discriminate | reflexivity].
Qed.

Lemma extractSubdomain_Some (hostname s : string) :
  extractSubdomain hostname = Some s ->
  s = first_label hostname /\ isValidSubdomainFormat s = true.
Proof.
  unfold extractSubdomain, first_label.
  destruct (List.length (split "." hostname) <? 2)%nat; [discriminate|].
  destruct (test re_label _); [|discriminate]. cbn [negb].
  destruct (isValidSubdomainFormat _) eqn:Hv; [|discriminate].
  intros [= <-]. now split.
Qed.

End CodecFacts.

(** ** Claims about the codec *)

(** C2, as the specification states it, fails: [xn--p1ai.com] is a domain
    name of two labels, each matching [[A-Za-z0-9-]+] and neither starting
    nor ending with a hyphen, yet its encoding decodes to
    [xn.p1ai.com]. *)
Lemma codec_round_trip_counterexample :
  valid_domain_name "xn--p1ai.com" = true /\
  convertUrlToSubdomain "xn--p1ai.com" = Some "xn--p1ai--com" /\
  convertSubdomainToUrl "xn--p1ai--com" = Some "xn.p1ai.com" /\
  Some "xn.p1ai.com" <> Some "xn--p1ai.com".
Proof. repeat split; try (vm_compute; reflexivity). discriminate. Qed.

(** C2 (amended): for every domain name [d] with at least two labels,
    each matching [[A-Za-z0-9-]+], none starting or ending with a hyphen
    and none holding two hyphens in a row, decoding the encoding of [d]
    gives [d]; and for every [s] accepted by [isValidSubdomainFormat],
    encoding the decoding of [s] gives [s]. *)
Theorem codec_round_trip (d s : string) :
  valid_domain_name d = true ->
  no_double_hyphen d = true ->
  isValidSubdomainFormat s = true ->
  (exists e, convertUrlToSubdomain d = Some e /\
             convertSubdomainToUrl e = Some d) /\
  (exists d', convertSubdomainToUrl s = Some d' /\
              convertUrlToSubdomain d' = Some s).
Proof.
  intros Hvalid Hnodd Hs. split.
  - unfold valid_domain_name in Hvalid. unfold no_double_hyphen in Hnodd.
    apply andb_true_iff in Hvalid as [Hlen Hall].
    assert (Hlen' : (List.length (split "." d) <? 2)%nat = false).
    { apply Nat.ltb_ge. now apply Nat.leb_le. }
    assert (Hd : join "." (split "." d) = d) by now apply join_split.
    rewrite forallb_forall in Hall, Hnodd.
    assert (Hchars : forall l, In l (split "." d) ->
                       forall_chars is_alnum_hyphen l = true).
    { intros l Hin. specialize (Hall _ Hin). unfold valid_label in Hall.
      rewrite test_re_label in Hall.
      apply andb_true_iff in Hall as [Hall _].
      apply andb_true_iff in Hall as [Hall _].
      now apply andb_true_iff in Hall as [_ Hall]. }
    assert (Hne : is_empty d = false).
    { rewrite <- Hd. apply join_two_nonempty; [discriminate | assumption]. }
    assert (He : replace_char "." "--" d = join "--" (split "." d)).
    { rewrite <- Hd at 1. apply replace_dot_join. intros l Hin.
      apply (forall_chars_impl _ _ _ alnum_hyphen_not_dot). now apply Hchars. }
    exists (join "--" (split "." d)). split.
    + unfold convertUrlToSubdomain. rewrite Hne, test_re_hostname, Hne.
      rewrite <- Hd at 1. rewrite forall_chars_join.
      * cbn [negb andb]. now rewrite He.
      * reflexivity.
      * intros l Hin.
        apply (forall_chars_impl _ _ _ alnum_hyphen_is_hostname_char).
        now apply Hchars.
    + assert (Hlabel : test re_label (join "--" (split "." d)) = true).
      { rewrite test_re_label, join_two_nonempty by (assumption || discriminate).
        apply forall_chars_join; [reflexivity | assumption]. }
      assert (Hsplit : split "--" (join "--" (split "." d)) = split "." d).
      { apply split_join_dd; [now apply split_nonempty|].
        intros l Hin. split.
        - specialize (Hnodd _ Hin). now apply negb_true_iff in Hnodd.
        - specialize (Hall _ Hin). unfold valid_label in Hall.
          apply andb_true_iff in Hall as [_ Hall].
          now apply negb_true_iff in Hall. }
      unfold convertSubdomainToUrl.
      rewrite join_two_nonempty by (assumption || discriminate).
      rewrite (label_trim _ Hlabel), Hlabel, Hsplit, Hlen'. cbn [negb].
      rewrite (existsb_none _ valid_label _ _ (proj2 (forallb_forall _ _) Hall)).
      * now rewrite Hd.
      * intros l Hl. unfold valid_label in Hl. rewrite test_re_label in Hl.
        apply andb_true_iff in Hl as [Hl _].
        apply andb_true_iff in Hl as [Hl _].
        apply andb_true_iff in Hl as [Hl _]. apply negb_true_iff in Hl.
        rewrite Hl. destruct l; [discriminate | reflexivity].
  - destruct (valid_format_decodes _ Hs) as [Hlabel Hdec].
    eexists. split; [exact Hdec|].
    rewrite (decode_then_encode _ _ Hdec). f_equal. now apply label_trim.
Qed.

Lemma codec_round_trip_witness :
  (exists e, convertUrlToSubdomain "api.git-hub.com" = Some e /\
             convertSubdomainToUrl e = Some "api.git-hub.com") /\
  (exists d', convertSubdomainToUrl "youtube--com" = Some d' /\
              convertUrlToSubdomain d' = Some "youtube--com").
Proof.
  apply (codec_round_trip "api.git-hub.com" "youtube--com");
    vm_compute; reflexivity.
Defined.

(** C10: whenever [extractSubdomain] returns a subdomain [s],
    [convertSubdomainToUrl s] returns a domain as well, so [buildTargetUrl]
    never throws its [Invalid subdomain format] error on a subdomain that
    passed the gate. *)
Theorem gate_implies_decoder (URL_parse : string -> option URL)
  (hostname s : string) (originalUrl : URL) :
  extractSubdomain hostname = Some s ->
  (exists d, convertSubdomainToUrl s = Some d) /\
  buildTargetUrl URL_parse s originalUrl
    <> Throw (Error "Invalid subdomain format").
Proof.
  intros H. apply extractSubdomain_Some in H as [_ Hvalid].
  destruct (valid_format_decodes _ Hvalid) as [_ Hdec]. split.
  - eexists. exact Hdec.
  - unfold buildTargetUrl, new_URL. rewrite Hdec.
    destruct (URL_parse _); simpl; discriminate.
Qed.

Lemma gate_implies_decoder_witness :
  extractSubdomain "youtube--com.gw.tld" = Some "youtube--com" /\
  (exists d, convertSubdomainToUrl "youtube--com" = Some d) /\
  buildTargetUrl RefUrl.parse_url "youtube--com"
                 (mkURL "https:" "youtube--com.gw.tld" "" "/watch" "?v=1" "")
    <> Throw (Error "Invalid subdomain format").
Proof.
  split; [vm_compute; reflexivity|].
  apply (gate_implies_decoder RefUrl.parse_url "youtube--com.gw.tld").
  vm_compute; reflexivity.
Defined.

Lemma forallb_false_in (A : Type) (P : A -> bool) (l : list A) (x : A) :
  In x l -> P x = false -> forallb P l = false.
Proof.
  intros Hin Hx. destruct (forallb P l) eqn:E; [|reflexivity].
  rewrite forallb_forall in E. now rewrite (E _ Hin) in Hx.
Qed.

Lemma malformed_label_invalid (label : string) :
  (List.length (split "--" label) < 2)%nat \/
  In "" (split "--" label) \/
  (exists part, In part (split "--" label) /\
                (startsWith part "-" = true \/ endsWith part "-" = true)) ->
  isValidSubdomainFormat label = false.
Proof.
  intros H. unfold isValidSubdomainFormat.
  destruct (startsWith label "-" || endsWith label "-"); [reflexivity|].
  destruct (List.length (split "--" label) <? 2)%nat eqn:Hlen; [reflexivity|].
  destruct H as [H|[H|(part & Hin & H)]].
  - apply Nat.ltb_ge in Hlen. lia.
  - now apply (forallb_false_in _ _ _ "" H).
  - apply (forallb_false_in _ _ _ part Hin).
    destruct H as [H|H]; rewrite H;
      destruct (0 <? String.length part)%nat, (test re_label part);
      try destruct (startsWith part "-"); reflexivity.
Qed.

(** C4: for every host name whose first label splits on the double hyphen
    into fewer than two parts, or has an empty part, or has a part that
    starts or ends with a hyphen, [extractSubdomain] returns [null]; and
    where the dispatcher consults it (the first label is not the reserved
    landing label) the request is answered by the 400 error response
    without any upstream fetch. *)
Theorem malformed_first_label_rejected (URL_parse : string -> option URL)
  (host : string) :
  ((List.length (split "--" (first_label host)) < 2)%nat \/
   In "" (split "--" (first_label host)) \/
   (exists part, In part (split "--" (first_label host)) /\
                 (startsWith part "-" = true \/ endsWith part "-" = true))) ->
  extractSubdomain host = None /\
  (first_label host <> "proxy" -> first_label host <> "proxy--" ->
   forall (now : string) (request : Request),
     hostname (req_url request) = host ->
     handleRequest URL_parse now request
     = Resolve (createErrorResponse now "Invalid subdomain format" 400) /\
     forall upstream,
       run upstream (handleRequest URL_parse now request)
       = (Normal (createErrorResponse now "Invalid subdomain format" 400), 0%nat)).
Proof.
  intros H. apply malformed_label_invalid in H.
  assert (Hext : extractSubdomain host = None).
  { unfold extractSubdomain. unfold first_label in H. rewrite H.
    destruct (List.length (split "." host) <? 2)%nat; [reflexivity|].
    destruct (test re_label _); reflexivity. }
  split; [exact Hext|].
  intros Hp1 Hp2 now request Hhost.
  assert (Hres : handleRequest URL_parse now request
                 = Resolve (createErrorResponse now "Invalid subdomain format" 400)).
  { unfold handleRequest. cbv zeta. rewrite Hhost. fold (first_label host).
    apply String.eqb_neq in Hp1, Hp2. rewrite Hp1, Hp2, Hext. reflexivity. }
  split; [exact Hres|]. intros upstream. now rewrite Hres.
Qed.

Lemma malformed_first_label_rejected_witness :
  let request := bodiless "GET" (url_of_host "a--b-.gw.tld") [] in
  let now := "2024-01-01T00:00:00.000Z" in
  extractSubdomain "a--b-.gw.tld" = None /\
  handleRequest RefUrl.parse_url now request
  = Resolve (createErrorResponse now "Invalid subdomain format" 400) /\
  forall upstream,
    run upstream (handleRequest RefUrl.parse_url now request)
    = (Normal (createErrorResponse now "Invalid subdomain format" 400), 0%nat).
Proof.
  intros request now.
  destruct (malformed_first_label_rejected RefUrl.parse_url "a--b-.gw.tld")
    as [Hnone Hreject].
  - right. right. exists "b-". split; [vm_compute; auto | right; reflexivity].
  - split; [exact Hnone|].
    apply Hreject; [vm_compute; discriminate | vm_compute; discriminate | reflexivity].
Defined.

(** ** Header lists *)

Section HeaderFacts.

Import Headers.

Lemma name_eq_refl (n : string) : name_eq n n = true.
Proof. apply String.eqb_refl. Qed.

Lemma name_eq_trans_false (k n m : string) :
  name_eq k n = true -> name_eq n m = false -> name_eq k m = false.
Proof.
  unfold name_eq. intros Hkn Hnm. apply String.eqb_eq in Hkn. now rewrite Hkn.
Qed.

Lemma values_delete_same (h : t) (n : string) : values (delete h n) n = [].
Proof.
  unfold values, delete. induction h as [|[k v] h IH]; [reflexivity|].
  simpl. destruct (name_eq k n) eqn:E; simpl; [exact IH|].
  now rewrite E.
Qed.

Lemma values_delete_other (h : t) (n m : string) :
  name_eq n m = false -> values (delete h n) m = values h m.
Proof.
  intros Hnm. unfold values, delete.
  induction h as [|[k v] h IH]; [reflexivity|].
  simpl. destruct (name_eq k n) eqn:E; simpl.
  - now rewrite (name_eq_trans_false _ _ _ E Hnm).
  - destruct (name_eq k m); simpl; now rewrite IH.
Qed.

Lemma values_set_same (h : t) (n v : string) : values (set h n v) n = [v].
Proof.
  induction h as [|[k x] h IH]; simpl.
  - unfold values. simpl. now rewrite name_eq_refl.
  - destruct (name_eq k n) eqn:E.
    + unfold values. simpl. rewrite E. simpl. f_equal.
      apply values_delete_same.
    + unfold values in *. simpl. now rewrite E.
Qed.

Lemma values_set_other (h : t) (n v m : string) :
  name_eq n m = false -> values (set h n v) m = values h m.
Proof.
  intros Hnm. induction h as [|[k x] h IH]; simpl.
  - unfold values. simpl. now rewrite Hnm.
  - destruct (name_eq k n) eqn:E.
    + unfold values. simpl. rewrite (name_eq_trans_false _ _ _ E Hnm).
      now apply values_delete_other.
    + unfold values in *. simpl. destruct (name_eq k m); simpl; now rewrite IH.
Qed.

(** [get] after [set] of the same name, and of another name. *)
Lemma get_set_same (h : t) (n v : string) : get (set h n v) n = Some v.
Proof. unfold get. now rewrite values_set_same. Qed.

Lemma get_set_other (h : t) (n v m : string) :
  name_eq n m = false -> get (set h n v) m = get h m.
Proof. intros H. unfold get. now rewrite values_set_other. Qed.

Lemma get_delete_other (h : t) (n m : string) :
  name_eq n m = false -> get (delete h n) m = get h m.
Proof. intros H. unfold get. now rewrite values_delete_other. Qed.

Lemma get_set_if_absent_other (h : t) (n v m : string) :
  name_eq n m = false -> get (set_if_absent h n v) m = get h m.
Proof.
  intros H. unfold set_if_absent.
  destruct (negb (has h n)); [now apply get_set_other | reflexivity].
Qed.

Lemma names_ok_delete (P : string -> bool) (h : t) (n : string) :
  names_ok P h -> names_ok P (delete h n).
Proof.
  intros Hh name value Hin. unfold delete in Hin.
  apply filter_In in Hin as [Hin _]. exact (Hh _ _ Hin).
Qed.

Lemma names_ok_set (P : string -> bool) (h : t) (n v : string) :
  P n = true -> names_ok P h -> names_ok P (set h n v).
Proof.
  intros Hn. induction h as [|[k x] h IH]; intros Hh name value Hin; simpl in Hin.
  - destruct Hin as [[= <- <-]|[]]. exact Hn.
  - assert (Hk : P k = true) by (apply (Hh k x); now left).
    assert (Hh' : names_ok P h) by (intros a b Hab; apply (Hh a b); now right).
    destruct (name_eq k n).
    + destruct Hin as [[= <- <-]|Hin]; [exact Hk|].
      exact (names_ok_delete _ _ _ Hh' _ _ Hin).
    + destruct Hin as [[= <- <-]|Hin]; [exact Hk|].
      exact (IH Hh' _ _ Hin).
Qed.

Lemma names_ok_set_if_absent (P : string -> bool) (h : t) (n v : string) :
  P n = true -> names_ok P h -> names_ok P (set_if_absent h n v).
Proof.
  intros Hn Hh. unfold set_if_absent.
  destruct (negb (has h n)); [now apply names_ok_set | exact Hh].
Qed.

End HeaderFacts.

(** ** Header sanitizer *)

Section SanitizerFacts.

Variable URL_parse : string -> option URL.

Lemma copy_allowed_ok (l : list (string * string)) :
  forall h, names_ok not_blocked h ->
            names_ok not_blocked (fold_left copy_allowed l h).
Proof.
  induction l as [|[key value] l IH]; intros h Hh; [exact Hh|].
  cbn [fold_left]. apply IH. unfold copy_allowed.
  destruct (negb (array_includes BLOCKED_HEADERS (toLowerCase key))) eqn:E.
  - now apply names_ok_set.
  - exact Hh.
Qed.

Lemma cleanRequestHeaders_names (originalHeaders : Headers.t) (targetUrl : URL) :
  names_ok not_blocked (cleanRequestHeaders URL_parse originalHeaders targetUrl).
Proof.
  unfold cleanRequestHeaders. cbv zeta.
  set (h0 := fold_left copy_allowed _ _).
  assert (H0 : names_ok not_blocked h0).
  { apply copy_allowed_ok. intros name value []. }
  set (h1 := Headers.set h0 "Host" _).
  assert (H1 : names_ok not_blocked h1) by now apply names_ok_set.
  set (h2 := if Headers.has originalHeaders "Origin" then _ else _).
  assert (H2 : names_ok not_blocked h2).
  { subst h2. destruct (Headers.has originalHeaders "Origin");
      [now apply names_ok_set | exact H1]. }
  set (h3 := if Headers.has originalHeaders "Referer" then _ else _).
  assert (H3 : names_ok not_blocked h3).
  { subst h3. destruct (Headers.has originalHeaders "Referer"); [|exact H2].
    unfold new_URL.
    destruct (Headers.get originalHeaders "Referer"); simpl;
      destruct (URL_parse _); simpl;
      (now apply names_ok_set) || (now apply names_ok_delete). }
  repeat apply names_ok_set_if_absent; (reflexivity || exact H3).
Qed.

Lemma cleanRequestHeaders_host (originalHeaders : Headers.t) (targetUrl : URL) :
  Headers.get (cleanRequestHeaders URL_parse originalHeaders targetUrl) "Host"
  = Some (hostname targetUrl).
Proof.
  unfold cleanRequestHeaders. cbv zeta.
  rewrite !get_set_if_absent_other by reflexivity.
  set (h0 := fold_left copy_allowed _ _).
  set (h1 := Headers.set h0 "Host" _).
  assert (H1 : Headers.get h1 "Host" = Some (hostname targetUrl))
    by apply get_set_same.
  set (h2 := if Headers.has originalHeaders "Origin" then _ else _).
  assert (H2 : Headers.get h2 "Host" = Some (hostname targetUrl)).
  { subst h2. destruct (Headers.has originalHeaders "Origin"); [|exact H1].
    now rewrite get_set_other by reflexivity. }
  destruct (Headers.has originalHeaders "Referer"); [|exact H2].
  unfold new_URL.
  destruct (Headers.get originalHeaders "Referer"); simpl;
    destruct (URL_parse _); simpl;
    (rewrite get_set_other by reflexivity) ||
    (rewrite get_delete_other by reflexivity); exact H2.
Qed.

(** C3: for every inbound header list and every target URL, no header of
    [cleanRequestHeaders]'s result has a name whose lower-cased form is
    on the deny-list, and its [Host] header is the target's host name. *)
Theorem sanitized_request_headers (originalHeaders : Headers.t) (targetUrl : URL) :
  (forall name value,
     In (name, value) (cleanRequestHeaders URL_parse originalHeaders targetUrl) ->
     array_includes BLOCKED_HEADERS (toLowerCase name) = false) /\
  Headers.get (cleanRequestHeaders URL_parse originalHeaders targetUrl) "Host"
  = Some (hostname targetUrl).
Proof.
  split.
  - intros name value Hin.
    apply (cleanRequestHeaders_names originalHeaders targetUrl) in Hin.
    unfold not_blocked in Hin. now apply negb_true_iff in Hin.
  - apply cleanRequestHeaders_host.
Qed.

End SanitizerFacts.

(** The deny-list at work on names of mixed case. *)
Example sanitizer_drops_mixed_case :
  cleanRequestHeaders RefUrl.parse_url
    [ ("X-Forwarded-For", "203.0.113.7"); ("CF-Connecting-IP", "203.0.113.7");
      ("Via", "1.1 edge"); ("Accept", "text/html"); ("Cookie", "k=v") ]
    (url_of_host "youtube.com")
  = [ ("accept", "text/html"); ("cookie", "k=v"); ("Host", "youtube.com");
      ("User-Agent", "Mozilla/5.0 (Windows NT 10.0; Win64; x64) AppleWebKit/537.36 (KHTML, like Gecko) Chrome/120.0.0.0 Safari/537.36");
      ("Accept-Language", "en-US,en;q=0.5");
      ("Accept-Encoding", "gzip, deflate, br") ].
Proof. vm_compute. reflexivity. Qed.

(** ** URL safety classifier *)

Section ClassifierFacts.

Lemma all_octets_ok : forallb octet_ok (map N.of_nat (seq 0 256)) = true.
Proof. vm_compute. reflexivity. Qed.

Lemma octet_facts (n : N) :
  (n <= 255)%N ->
  Lang (Rep1to3 (Cls is_digit)) (decimal n) /\
  forall_chars is_digit (decimal n) = true /\
  toNumber (decimal n) = Some n.
Proof.
  intros Hn.
  assert (Hin : In n (map N.of_nat (seq 0 256))).
  { rewrite <- (N2Nat.id n). apply in_map. apply in_seq. lia. }
  pose proof (proj1 (forallb_forall _ _) all_octets_ok _ Hin) as H.
  unfold octet_ok in H.
  apply andb_true_iff in H as [H H3]. apply andb_true_iff in H as [H1 H2].
  repeat split.
  - now apply test_Lang.
  - exact H2.
  - destruct (toNumber (decimal n)); [|discriminate].
    apply N.eqb_eq in H3. now subst.
Qed.

Lemma split_dot_cons (c : ascii) (t : string) :
  split "." (String c t) =
  if Ascii.eqb c "." then "" :: split "." t else cons_first c (split "." t).
Proof.
  unfold split. simpl is_empty. cbv iota. cbn [split_from].
  rewrite prefix_cons, prefix_nil, andb_true_r, Ascii.eqb_sym.
  destruct (Ascii.eqb c "."); reflexivity.
Qed.

Lemma split_dot_single (l : string) :
  forall_chars (fun x => negb (Ascii.eqb x ".")) l = true ->
  split "." l = [l].
Proof.
  induction l as [|c l IH]; simpl forall_chars; intros H; [reflexivity|].
  apply andb_true_iff in H as [Hc Hl]. apply negb_true_iff in Hc.
  now rewrite split_dot_cons, Hc, (IH Hl).
Qed.

Lemma split_dot_part (l rest : string) :
  forall_chars (fun x => negb (Ascii.eqb x ".")) l = true ->
  split "." (l ++ "." ++ rest) = l :: split "." rest.
Proof.
  induction l as [|c l IH]; simpl forall_chars; intros H.
  - change ("" ++ "." ++ rest) with (String "." rest).
    now rewrite split_dot_cons.
  - apply andb_true_iff in H as [Hc Hl]. apply negb_true_iff in Hc.
    change (String c l ++ "." ++ rest) with (String c (l ++ "." ++ rest)).
    now rewrite split_dot_cons, Hc, (IH Hl).
Qed.

Lemma toLowerCase_id (s : string) :
  forall_chars (fun c => is_digit c || Ascii.eqb c ".") s = true ->
  toLowerCase s = s.
Proof.
  induction s as [|c s IH]; simpl; [reflexivity|].
  intros H. apply andb_true_iff in H as [Hc Hs].
  now rewrite (digit_or_dot_lower _ Hc), (IH Hs).
Qed.

Lemma digits_dot_free (s : string) :
  forall_chars is_digit s = true ->
  forall_chars (fun x => negb (Ascii.eqb x ".")) s = true.
Proof. apply forall_chars_impl. exact digit_not_dot. Qed.

Lemma digits_or_dot (s : string) :
  forall_chars is_digit s = true ->
  forall_chars (fun c => is_digit c || Ascii.eqb c ".") s = true.
Proof. apply forall_chars_impl. intros c ->. reflexivity. Qed.

(** The three shifts the private blocks use. *)
Lemma shift_24 (a b c d : N) :
  (b <= 255 -> c <= 255 -> d <= 255 ->
   N.shiftr (ipv4_value a b c d) 24 = a)%N.
Proof.
  intros Hb Hc Hd. rewrite N.shiftr_div_pow2. unfold ipv4_value.
  change (2 ^ 24)%N with 16777216%N. symmetry.
  apply N.div_unique with (r := ((b * 256 + c) * 256 + d)%N); lia.
Qed.

Lemma shift_16 (a b c d : N) :
  (c <= 255 -> d <= 255 ->
   N.shiftr (ipv4_value a b c d) 16 = a * 256 + b)%N.
Proof.
  intros Hc Hd. rewrite N.shiftr_div_pow2. unfold ipv4_value.
  change (2 ^ 16)%N with 65536%N. symmetry.
  apply N.div_unique with (r := (c * 256 + d)%N); lia.
Qed.

Lemma shift_20 (a b c d : N) :
  (c <= 255 -> d <= 255 ->
   N.shiftr (ipv4_value a b c d) 20 = a * 16 + b / 16)%N.
Proof.
  intros Hc Hd. rewrite N.shiftr_div_pow2. unfold ipv4_value.
  change (2 ^ 20)%N with 1048576%N. symmetry.
  pose proof (N.div_mod' b 16) as Hb.
  pose proof (N.mod_lt b 16 ltac:(discriminate)) as Hr.
  apply N.div_unique with (r := ((b mod 16) * 65536 + c * 256 + d)%N);
    generalize dependent (b / 16)%N; generalize dependent (b mod 16)%N;
    intros; lia.
Qed.

(** Membership in a private block, read on the first two octets. *)
Lemma in_private_block_octets (a b c d : N) :
  (a <= 255 -> b <= 255 -> c <= 255 -> d <= 255 ->
   in_private_block (ipv4_value a b c d) = true ->
   a = 10 \/ (a = 172 /\ 16 <= b <= 31) \/ (a = 192 /\ b = 168) \/
   a = 127 \/ (a = 169 /\ b = 254))%N.
Proof.
  intros Ha Hb Hc Hd H. unfold in_private_block, private_blocks in H.
  cbn [existsb fst snd] in H. unfold in_cidr in H.
  change (32 - 8)%N with 24%N in H. change (32 - 12)%N with 20%N in H.
  change (32 - 16)%N with 16%N in H.
  rewrite !shift_24, !shift_20, !shift_16 in H by lia.
  pose proof (N.div_mod' b 16) as Hdiv.
  pose proof (N.mod_lt b 16 ltac:(discriminate)) as Hr.
  change (16 / 16)%N with 1%N in H. change (0 / 16)%N with 0%N in H.
  repeat rewrite orb_true_iff in H. rewrite !N.eqb_eq in H.
  generalize dependent (b / 16)%N. generalize dependent (b mod 16)%N.
  intros.
  repeat match goal with Hor : _ \/ _ |- _ => destruct Hor end;
    try discriminate; lia.
Qed.

End ClassifierFacts.

Section ClassifierClaim.

Lemma dotted_quad_matches (a b c d : N) :
  (a <= 255 -> b <= 255 -> c <= 255 -> d <= 255 ->
   test ipv4Regex (dotted_quad a b c d) = true)%N.
Proof.
  intros Ha Hb Hc Hd.
  destruct (octet_facts a Ha) as (La & _ & _).
  destruct (octet_facts b Hb) as (Lb & _ & _).
  destruct (octet_facts c Hc) as (Lc & _ & _).
  destruct (octet_facts d Hd) as (Ld & _ & _).
  assert (Ldot : Lang (Chr ".") ".") by (apply LCls; reflexivity).
  apply test_Lang.
  assert (E : dotted_quad a b c d =
              ((decimal a ++ ".") ++ ((decimal b ++ ".") ++ (decimal c ++ ".")))
              ++ decimal d).
  { unfold dotted_quad. now rewrite !append_assoc. }
  rewrite E. unfold ipv4Regex, Rep3.
  exact (LSeq (LSeq (LSeq La Ldot) (LSeq (LSeq Lb Ldot) (LSeq Lc Ldot))) Ld).
Qed.

Lemma dotted_quad_split (a b c d : N) :
  (a <= 255 -> b <= 255 -> c <= 255 -> d <= 255 ->
   split "." (dotted_quad a b c d) = [decimal a; decimal b; decimal c; decimal d])%N.
Proof.
  intros Ha Hb Hc Hd.
  destruct (octet_facts a Ha) as (_ & Da & _).
  destruct (octet_facts b Hb) as (_ & Db & _).
  destruct (octet_facts c Hc) as (_ & Dc & _).
  destruct (octet_facts d Hd) as (_ & Dd & _).
  unfold dotted_quad.
  rewrite !split_dot_part by now apply digits_dot_free.
  now rewrite split_dot_single by now apply digits_dot_free.
Qed.

Lemma dotted_quad_lower (a b c d : N) :
  (a <= 255 -> b <= 255 -> c <= 255 -> d <= 255 ->
   toLowerCase (dotted_quad a b c d) = dotted_quad a b c d)%N.
Proof.
  intros Ha Hb Hc Hd.
  destruct (octet_facts a Ha) as (_ & Da & _).
  destruct (octet_facts b Hb) as (_ & Db & _).
  destruct (octet_facts c Hc) as (_ & Dc & _).
  destruct (octet_facts d Hd) as (_ & Dd & _).
  apply toLowerCase_id. unfold dotted_quad.
  rewrite !forall_chars_app.
  now rewrite (digits_or_dot _ Da), (digits_or_dot _ Db),
    (digits_or_dot _ Dc), (digits_or_dot _ Dd).
Qed.

(** C5: every URL whose host name is the dotted decimal form of an IPv4
    address inside [10.0.0.0/8], [172.16.0.0/12], [192.168.0.0/16],
    [127.0.0.0/8] or [169.254.0.0/16] is refused by [isPublicUrl]; so are
    the hosts [10.1.2.3], [172.16.0.5], [192.168.1.1], [127.0.0.1],
    [169.254.1.1] and [localhost], while [93.184.216.34] and [example.com]
    are accepted. *)
Theorem private_addresses_rejected (a b c d : N) (u : URL) :
  (a <= 255)%N -> (b <= 255)%N -> (c <= 255)%N -> (d <= 255)%N ->
  in_private_block (ipv4_value a b c d) = true ->
  hostname u = dotted_quad a b c d ->
  isPublicUrl u = false /\
  map (fun host => isPublicUrl (url_of_host host))
      [ "10.1.2.3"; "172.16.0.5"; "192.168.1.1"; "127.0.0.1"; "169.254.1.1";
        "localhost"; "93.184.216.34"; "example.com" ]
  = [ false; false; false; false; false; false; true; true ].
Proof.
  intros Ha Hb Hc Hd Hin Hhost. split; [|vm_compute; reflexivity].
  unfold isPublicUrl. rewrite Hhost, dotted_quad_lower by assumption.
  rewrite dotted_quad_matches, dotted_quad_split by assumption.
  cbn [map nth].
  destruct (octet_facts a Ha) as (_ & _ & ->).
  destruct (octet_facts b Hb) as (_ & _ & ->).
  cbn [num_eq num_ge num_le].
  assert (Hcond :
    ((a =? 10) || ((a =? 172) && (16 <=? b) && (b <=? 31)) ||
     ((a =? 192) && (b =? 168)) || (a =? 127) ||
     ((a =? 169) && (b =? 254)))%N = true).
  { destruct (in_private_block_octets a b c d Ha Hb Hc Hd Hin)
      as [->|[[-> [H1 H2]]|[[-> ->]|[->|[-> ->]]]]]; try reflexivity.
    apply N.leb_le in H1, H2. now rewrite H1, H2. }
  now rewrite Hcond.
Qed.

Lemma private_addresses_rejected_witness :
  isPublicUrl (url_of_host "172.31.255.7") = false /\
  map (fun host => isPublicUrl (url_of_host host))
      [ "10.1.2.3"; "172.16.0.5"; "192.168.1.1"; "127.0.0.1"; "169.254.1.1";
        "localhost"; "93.184.216.34"; "example.com" ]
  = [ false; false; false; false; false; false; true; true ].
Proof.
  apply (private_addresses_rejected 172 31 255 7 (url_of_host "172.31.255.7"));
    vm_compute; (reflexivity || discriminate).
Defined.

End ClassifierClaim.

(** ** Dispatcher: preflight and link generation *)

Section DispatchFacts.

Variable URL_parse : string -> option URL.

Lemma get_addCorsHeaders_other (h : Headers.t) (m : string) :
  Headers.name_eq "Access-Control-Allow-Origin" m = false ->
  Headers.name_eq "Access-Control-Allow-Methods" m = false ->
  Headers.name_eq "Access-Control-Allow-Headers" m = false ->
  Headers.name_eq "Access-Control-Max-Age" m = false ->
  Headers.name_eq "Access-Control-Expose-Headers" m = false ->
  Headers.get (addCorsHeaders h) m = Headers.get h m.
Proof.
  intros H1 H2 H3 H4 H5. unfold addCorsHeaders. cbv zeta.
  now rewrite !get_set_other by assumption.
Qed.

Lemma get_addCorsHeaders_origin (h : Headers.t) :
  Headers.get (addCorsHeaders h) "Access-Control-Allow-Origin" = Some "*".
Proof.
  unfold addCorsHeaders. cbv zeta.
  rewrite !get_set_other by reflexivity. apply get_set_same.
Qed.

Lemma handleOptions_origin (request : Request) :
  status (handleOptions request) = 204%Z /\
  Headers.get (headers (handleOptions request)) "Access-Control-Allow-Origin"
  = Some "*".
Proof.
  split; [reflexivity|].
  unfold handleOptions. cbv zeta. cbn [headers].
  set (h0 := addCorsHeaders []).
  assert (H0 : Headers.get h0 "Access-Control-Allow-Origin" = Some "*")
    by apply get_addCorsHeaders_origin.
  set (h1 := match Headers.get (req_headers request) "Access-Control-Request-Headers"
             with Some _ => _ | None => _ end).
  assert (H1 : Headers.get h1 "Access-Control-Allow-Origin" = Some "*").
  { subst h1. destruct (Headers.get _ "Access-Control-Request-Headers") as [rh|];
      [|exact H0].
    destruct (is_empty rh); [exact H0|].
    now rewrite get_set_other by reflexivity. }
  destruct (Headers.get _ "Access-Control-Request-Method") as [rm|]; [|exact H1].
  destruct (negb (is_empty rm) && array_includes ALLOWED_METHODS rm); [|exact H1].
  now rewrite get_set_other by reflexivity.
Qed.

Lemma gate_excludes_landing_labels (host s : string) :
  extractSubdomain host = Some s ->
  String.eqb (first_label host) "proxy" = false /\
  String.eqb (first_label host) "proxy--" = false.
Proof.
  intros H. apply extractSubdomain_Some in H as [-> Hvalid].
  split; apply String.eqb_neq; intros E; rewrite E in Hvalid;
    vm_compute in Hvalid; discriminate.
Qed.

(** C7, as the specification states it, fails: an [OPTIONS] request to the
    landing host is answered by the landing page (status 200, no
    [Access-Control-Allow-Origin]), and one to a host whose first label is
    not an encoded target is answered with status 400. *)
Lemma options_counterexample :
  let landing :=
    handleRequest RefUrl.parse_url "2024-01-01T00:00:00.000Z"
      (bodiless "OPTIONS" (url_of_host "proxy.gw.tld") []) in
  let stray :=
    handleRequest RefUrl.parse_url "2024-01-01T00:00:00.000Z"
      (bodiless "OPTIONS" (url_of_host "www.gw.tld") []) in
  option_map status (response_of landing) = Some 200%Z /\
  option_map (fun r => Headers.get (headers r) "Access-Control-Allow-Origin")
             (response_of landing) = Some None /\
  option_map status (response_of stray) = Some 400%Z /\
  Some 200%Z <> Some 204%Z /\ Some 400%Z <> Some 204%Z.
Proof. repeat split; try (vm_compute; reflexivity); discriminate. Qed.

(** C7 (amended): every inbound [OPTIONS] request whose host name passes
    [extractSubdomain] (its first label is a well-formed encoded target,
    hence not the landing label) receives a response with status 204
    carrying [Access-Control-Allow-Origin: *], and no upstream fetch is
    made. *)
Theorem options_preflight (now : string) (request : Request) (s : string) :
  req_method request = "OPTIONS" ->
  extractSubdomain (hostname (req_url request)) = Some s ->
  exists r,
    handleRequest URL_parse now request = Resolve r /\
    status r = 204%Z /\
    Headers.get (headers r) "Access-Control-Allow-Origin" = Some "*".
Proof.
  intros Hm Hext. exists (handleOptions request).
  split; [|apply handleOptions_origin].
  destruct (gate_excludes_landing_labels _ _ Hext) as [Hp1 Hp2].
  unfold handleRequest. cbv zeta.
  fold (first_label (hostname (req_url request))).
  rewrite Hp1, Hp2, Hext, Hm. reflexivity.
Qed.

End DispatchFacts.

Lemma options_preflight_witness :
  exists r,
    handleRequest RefUrl.parse_url "2024-01-01T00:00:00.000Z"
      (bodiless "OPTIONS" (url_of_host "youtube--com.gw.tld") []) = Resolve r /\
    status r = 204%Z /\
    Headers.get (headers r) "Access-Control-Allow-Origin" = Some "*".
Proof.
  apply (options_preflight RefUrl.parse_url "2024-01-01T00:00:00.000Z"
           (bodiless "OPTIONS" (url_of_host "youtube--com.gw.tld") [])
           "youtube--com");
    vm_compute; reflexivity.
Defined.

(** ** Link generation *)

Section GenerateFacts.

Variable URL_parse : string -> option URL.

(** C8, as the specification states it, fails: the [proxyUrl] of the
    answer to [POST /api/generate {url: github.com}] on [proxy.gw.tld]
    ends with the path of the parsed URL, a slash. *)
Lemma generate_counterexample :
  let request :=
    mkRequest "POST" (mkURL "https:" "proxy.gw.tld" "" "/api/generate" "" "")
              [("Content-Type", "application/json")]
              (BJson (JObject [("url", JString "github.com")]))
              (Normal (JObject [("url", JString "github.com")])) in
  option_map (fun r => json_field (body r) "proxyUrl")
    (response_of
       (handleRequest RefUrl.parse_url "2024-01-01T00:00:00.000Z" request))
  = Some (Some (JString "https://github--com.gw.tld/")) /\
  JString "https://github--com.gw.tld/" <> JString "https://github--com.gw.tld".
Proof. split; [vm_compute; reflexivity | discriminate]. Qed.

(** C8 (amended): a [POST] to [/api/generate] with body
    [{url: github.com}] received on [proxy.gw.tld] returns the success
    JSON response whose [originalUrl] is [https://github.com] and whose
    [proxyUrl] is [https://github--com.gw.tld/], the encoded host followed
    by the path of the parsed URL. *)
Theorem generate_link (now : string) (request : Request) :
  req_method request = "POST" ->
  hostname (req_url request) = "proxy.gw.tld" ->
  pathname (req_url request) = "/api/generate" ->
  req_json request = Normal (JObject [("url", JString "github.com")]) ->
  URL_parse "https://github.com"
  = Some (mkURL "https:" "github.com" "" "/" "" "") ->
  handleRequest URL_parse now request
  = Resolve
      (mkResponse 200 ""
         (Headers.of_object
            [ ("Content-Type", "application/json; charset=utf-8");
              ("Access-Control-Allow-Origin", "*") ])
         (BJson (JObject [ ("success", JBool true);
                           ("originalUrl", JString "https://github.com");
                           ("proxyUrl", JString "https://github--com.gw.tld/") ]))).
Proof.
  intros Hm Hhost Hpath Hjson Hparse.
  unfold handleRequest. cbv zeta. rewrite Hhost.
  change (split "." "proxy.gw.tld") with ["proxy"; "gw"; "tld"].
  cbn [nth]. rewrite String.eqb_refl. cbn [orb].
  unfold handleProxyPage. cbv zeta. rewrite Hpath, String.eqb_refl.
  unfold handleGenerateApi. rewrite Hm, String.eqb_refl. cbn [negb].
  rewrite Hjson. cbn [cbind get_url lookup String.eqb Ascii.eqb Bool.eqb falsy is_empty normalizeUrl_value].
  change (normalizeUrl "github.com") with (Normal "https://github.com").
  cbn [cbind]. rewrite Hparse, Hhost.
  reflexivity.
Qed.

End GenerateFacts.

Lemma generate_link_witness :
  handleRequest RefUrl.parse_url "2024-01-01T00:00:00.000Z"
    (mkRequest "POST" (mkURL "https:" "proxy.gw.tld" "" "/api/generate" "" "")
       [] (BJson (JObject [("url", JString "github.com")]))
       (Normal (JObject [("url", JString "github.com")])))
  = Resolve
      (mkResponse 200 ""
         (Headers.of_object
            [ ("Content-Type", "application/json; charset=utf-8");
              ("Access-Control-Allow-Origin", "*") ])
         (BJson (JObject [ ("success", JBool true);
                           ("originalUrl", JString "https://github.com");
                           ("proxyUrl", JString "https://github--com.gw.tld/") ]))).
Proof.
  apply (generate_link RefUrl.parse_url); reflexivity.
Defined.

(** ** Upstream request, redirects and bodies *)

Section ProxyFacts.

Variable URL_parse : string -> option URL.

(** A request that passes the gate, with a method other than [OPTIONS],
    reaches [proxyRequest] on the decoded target. *)
Lemma handleRequest_dispatch (now : string) (request : Request)
  (s d : string) (target : URL) :
  extractSubdomain (hostname (req_url request)) = Some s ->
  array_includes ALLOWED_METHODS (req_method request) = true ->
  req_method request <> "OPTIONS" ->
  convertSubdomainToUrl s = Some d ->
  URL_parse ("https://" ++ d) = Some target ->
  handleRequest URL_parse now request
  = async_try
      (proxyRequest URL_parse now request
         (URL_set_search
            (URL_set_pathname target (pathname (req_url request)))
            (search (req_url request))))
      (fun error => Resolve (createErrorResponse now (exn_message error) 500)).
Proof.
  intros Hext Hallowed Hopt Hdec Hparse.
  destruct (gate_excludes_landing_labels _ _ Hext) as [Hp1 Hp2].
  apply String.eqb_neq in Hopt.
  unfold handleRequest. cbv zeta.
  fold (first_label (hostname (req_url request))).
  rewrite Hp1, Hp2, Hext, Hallowed, Hopt. cbn [orb negb].
  unfold buildTargetUrl, new_URL. rewrite Hdec, Hparse. reflexivity.
Qed.

(** What [proxyRequest] does once the upstream has answered. *)
Lemma proxyRequest_settle (now : string) (request : Request) (target : URL)
  (response : Response) :
  settle
    (async_try (proxyRequest URL_parse now request target)
       (fun error => Resolve (createErrorResponse now (exn_message error) 500)))
    (Fulfilled response)
  = if (300 <=? status response)%Z && (status response <? 400)%Z
    then Resolve (handleRedirect URL_parse response request)
    else Resolve (createProxyResponse response).
Proof.
  unfold proxyRequest. cbv zeta.
  cbn [await_fetch abind async_try settle].
  destruct ((300 <=? status response)%Z && (status response <? 400)%Z);
    reflexivity.
Qed.

Lemma proxyRequest_first_fetch (now : string) (request : Request) (target : URL) :
  first_fetch
    (async_try (proxyRequest URL_parse now request target)
       (fun error => Resolve (createErrorResponse now (exn_message error) 500)))
  = Some (URL_toString target,
          mkRequestInit
            (req_method request)
            (cleanRequestHeaders URL_parse (req_headers request) target)
            "manual" REQUEST_TIMEOUT
            (if negb (array_includes ["GET"; "HEAD"] (req_method request))
             then Some (req_body request) else None)).
Proof. reflexivity. Qed.

(** C6: given inbound host [a--b--com.gw.tld] and an upstream 3xx response
    carrying [Location: https://x.b.com/path], the response returned to
    the client keeps the status and carries the [Location]
    [https://x--b--com.gw.tld/path], whose host is [x--b--com.gw.tld]:
    the encoded redirect host followed by the inbound host name without
    its first label. *)
Theorem redirect_location_rewritten (now : string) (request : Request)
  (target : URL) (response : Response) :
  hostname (req_url request) = "a--b--com.gw.tld" ->
  array_includes ALLOWED_METHODS (req_method request) = true ->
  req_method request <> "OPTIONS" ->
  URL_parse "https://a.b.com" = Some target ->
  URL_parse "https://x.b.com/path"
  = Some (mkURL "https:" "x.b.com" "" "/path" "" "") ->
  (300 <= status response < 400)%Z ->
  Headers.get (headers response) "Location" = Some "https://x.b.com/path" ->
  exists r,
    first_fetch (handleRequest URL_parse now request)
    = Some (URL_toString
              (URL_set_search
                 (URL_set_pathname target (pathname (req_url request)))
                 (search (req_url request))),
            mkRequestInit
              (req_method request)
              (cleanRequestHeaders URL_parse (req_headers request)
                 (URL_set_search
                    (URL_set_pathname target (pathname (req_url request)))
                    (search (req_url request))))
              "manual" REQUEST_TIMEOUT
              (if negb (array_includes ["GET"; "HEAD"] (req_method request))
               then Some (req_body request) else None)) /\
    settle (handleRequest URL_parse now request) (Fulfilled response) = Resolve r /\
    status r = status response /\
    Headers.get (headers r) "Location"
    = Some (URL_toString (mkURL "https:" "x--b--com.gw.tld" "" "/path" "" "")) /\
    URL_toString (mkURL "https:" "x--b--com.gw.tld" "" "/path" "" "")
    = "https://x--b--com.gw.tld/path" /\
    join "." (slice1 (split "." (hostname (req_url request)))) = "gw.tld".
Proof.
  intros Hhost Hallowed Hopt Htarget Hloc [Hlo Hhi] Hget.
  assert (Hext : extractSubdomain (hostname (req_url request)) = Some "a--b--com")
    by (rewrite Hhost; vm_compute; reflexivity).
  assert (Hdec : convertSubdomainToUrl "a--b--com" = Some "a.b.com")
    by (vm_compute; reflexivity).
  rewrite (handleRequest_dispatch now request "a--b--com" "a.b.com" target
             Hext Hallowed Hopt Hdec Htarget).
  rewrite proxyRequest_settle, proxyRequest_first_fetch.
  apply Z.leb_le in Hlo. apply Z.ltb_lt in Hhi. rewrite Hlo, Hhi. cbn [andb].
  eexists. split; [reflexivity|]. split; [reflexivity|].
  unfold handleRedirect. rewrite Hget. cbn [is_empty]. rewrite Hloc.
  cbv zeta. cbn [hostname].
  change (isStandardDomain "x.b.com") with true. cbv iota.
  change (convertUrlToSubdomain "x.b.com") with (Some "x--b--com"). cbv iota.
  rewrite Hhost.
  change (join "." (slice1 (split "." "a--b--com.gw.tld"))) with "gw.tld".
  cbn [status headers].
  repeat split.
  rewrite get_addCorsHeaders_other by reflexivity.
  apply get_set_same.
Qed.

End ProxyFacts.

Lemma redirect_location_rewritten_witness :
  let request := bodiless "GET" (mkURL "https:" "a--b--com.gw.tld" "" "/start" "" "") [] in
  let response :=
    mkResponse 302 "Found" [("Location", "https://x.b.com/path")] BNull in
  exists r,
    first_fetch (handleRequest RefUrl.parse_url "2024-01-01T00:00:00.000Z" request)
    = Some ("https://a.b.com/start",
            mkRequestInit "GET"
              (cleanRequestHeaders RefUrl.parse_url []
                 (mkURL "https:" "a.b.com" "" "/start" "" ""))
              "manual" REQUEST_TIMEOUT None) /\
    settle (handleRequest RefUrl.parse_url "2024-01-01T00:00:00.000Z" request)
           (Fulfilled response) = Resolve r /\
    status r = status response /\
    Headers.get (headers r) "Location"
    = Some (URL_toString (mkURL "https:" "x--b--com.gw.tld" "" "/path" "" "")) /\
    URL_toString (mkURL "https:" "x--b--com.gw.tld" "" "/path" "" "")
    = "https://x--b--com.gw.tld/path" /\
    join "." (slice1 (split "." (hostname (req_url request)))) = "gw.tld".
Proof.
  apply (redirect_location_rewritten RefUrl.parse_url "2024-01-01T00:00:00.000Z"
           (bodiless "GET" (mkURL "https:" "a--b--com.gw.tld" "" "/start" "" "") [])
           (mkURL "https:" "a.b.com" "" "/" "" "")
           (mkResponse 302 "Found" [("Location", "https://x.b.com/path")] BNull));
    try (vm_compute; reflexivity).
  - vm_compute. discriminate.
  - cbn [status]. lia.
Defined.

Section BodyFacts.

Variable URL_parse : string -> option URL.


End BodyFacts.

(** C1 fails on the code.  For the request [GET
    https://youtube--com.gw.tld/watch?v=1] the worker fetches
    [https://youtube.com/watch?v=1] with [Host: youtube.com]; when the
    upstream answers 200 with [Content-Type: text/html] and the body
    [<a href="https://youtube.com/next">], the body delivered to the client
    is that same text, not the anchor on [https://youtube--com.gw.tld/next]. *)
Theorem proxied_html_is_not_rewritten :
  let request :=
    bodiless "GET" (mkURL "https:" "youtube--com.gw.tld" "" "/watch" "?v=1" "") [] in
  let upstream :=
    mkResponse 200 "OK" [("Content-Type", "text/html")]
               (BText (anchor "https://youtube.com/next")) in
  let handled := handleRequest RefUrl.parse_url "2024-01-01T00:00:00.000Z" request in
  option_map fst (first_fetch handled) = Some "https://youtube.com/watch?v=1" /\
  option_map (fun call => Headers.get (init_headers (snd call)) "Host")
             (first_fetch handled) = Some (Some "youtube.com") /\
  option_map body (response_of (settle handled (Fulfilled upstream)))
  = Some (BText (anchor "https://youtube.com/next")) /\
  fst (run (fun _ _ => Fulfilled upstream) handled)
  = Normal (createProxyResponse upstream) /\
  BText (anchor "https://youtube.com/next")
  <> BText (anchor "https://youtube--com.gw.tld/next").
Proof. repeat split; try (vm_compute; reflexivity). vm_compute. discriminate. Qed.

(** The rewriter that the shadowed declaration of [proxyRequest] would
    have reached does not produce the gateway form either: its pattern
    [/\\./g] finds no dot, so the host keeps its dots. *)
Lemma rewriteUrl_keeps_dots :
  rewriteUrl RefUrl.parse_url_base "https://youtube.com/next"
             (mkURL "https:" "youtube.com" "" "/watch" "?v=1" "") "gw.tld"
  = "https://youtube.com.gw.tld/next".
Proof. vm_compute. reflexivity. Qed.

(** ** JSON rewriter *)

Section JsonFacts.

Variable URL_parse_base : string -> string -> option URL.
Variable JSON_parse : string -> Completion JSON.
Variable JSON_stringify : JSON -> Completion string.

(** A document with a member named [hasOwnProperty] makes the walk throw. *)
Lemma rewriteJsonObject_shadowed_method (targetUrl : URL) (proxyDomain : string) :
  rewriteJsonObject URL_parse_base targetUrl proxyDomain
    (JObject [("hasOwnProperty", JNumber "1")])
  = Throw (TypeError "obj.hasOwnProperty is not a function").
Proof. reflexivity. Qed.

(** Whatever the walk or the serializer throws is caught. *)
Lemma rewriteJson_catches (json : string) (targetUrl : URL) (proxyDomain : string)
  (data : JSON) (e : Exn) :
  JSON_parse json = Normal data ->
  rewriteJsonObject URL_parse_base targetUrl proxyDomain data = Throw e ->
  rewriteJson URL_parse_base JSON_parse JSON_stringify json targetUrl proxyDomain
  = Normal json.
Proof. intros Hp Hw. unfold rewriteJson. now rewrite Hp; cbn; rewrite Hw. Qed.

(** C9: for every input string [rewriteJson] returns normally, and when
    the input does not parse as JSON it returns the input unchanged. *)
Theorem rewriteJson_never_throws (json : string) (targetUrl : URL)
  (proxyDomain : string) :
  (exists out,
     rewriteJson URL_parse_base JSON_parse JSON_stringify json targetUrl proxyDomain
     = Normal out) /\
  ((exists e, JSON_parse json = Throw e) ->
   rewriteJson URL_parse_base JSON_parse JSON_stringify json targetUrl proxyDomain
   = Normal json).
Proof.
  unfold rewriteJson.
  destruct (JSON_parse json) as [data|e]; cbn [cbind try_catch].
  - split; [|intros [e He]; discriminate].
    destruct (rewriteJsonObject _ _ _ data) as [data'|e]; cbn [cbind try_catch].
    + destruct (JSON_stringify data') as [out|e]; cbn [try_catch]; eauto.
    + eauto.
  - split; eauto.
Qed.

End JsonFacts.

Lemma rewriteJson_never_throws_witness :
  let JSON_parse := fun _ : string => Throw (SyntaxError "Unexpected token") in
  let JSON_stringify := fun _ : JSON => Normal "null" in
  let target := url_of_host "youtube.com" in
  (exists out,
     rewriteJson RefUrl.parse_url_base JSON_parse JSON_stringify "<html>" target "gw.tld"
     = Normal out) /\
  rewriteJson RefUrl.parse_url_base JSON_parse JSON_stringify "<html>" target "gw.tld"
  = Normal "<html>".
Proof.
  intros JSON_parse JSON_stringify target.
  destruct (rewriteJson_never_throws RefUrl.parse_url_base JSON_parse JSON_stringify
              "<html>" target "gw.tld") as [H1 H2].
  split; [exact H1|]. apply H2. eexists. reflexivity.
Defined.

(* ================================================================== *)
(** * Further properties of the worker *)
(* ================================================================== *)

(** ** The dispatcher always answers *)

Section AnswerFacts.

Variable URL_parse : string -> option URL.

Ltac case_on_matches :=
  repeat match goal with
         | |- context [match ?x with _ => _ end] => destruct x eqn:?
         | |- context [if ?b then _ else _] => destruct b eqn:?
         end.

Lemma normalizeUrl_value_cases (v : option JSON) :
  (exists e, normalizeUrl_value v = Throw e) \/
  (exists t, normalizeUrl_value v = Normal t).
Proof.
  destruct v as [[| | |s| |]|]; simpl; eauto.
  unfold normalizeUrl. case_on_matches; eauto.
Qed.

(** Link generation resolves at once, with one of four statuses. *)
Lemma handleGenerateApi_resolves (now : string) (request : Request) :
  exists r,
    handleGenerateApi URL_parse now request = Resolve r /\
    In (status r) [200; 400; 403; 405]%Z.
Proof.
  unfold handleGenerateApi.
  destruct (negb (String.eqb (req_method request) "POST"));
    [eexists; split; [reflexivity | simpl; auto]|].
  destruct (req_json request) as [j|e]; cbn [cbind try_catch lift];
    [|eexists; split; [reflexivity | simpl; auto]].
  destruct (get_url j) as [v|e]; cbn [cbind try_catch lift];
    [|eexists; split; [reflexivity | simpl; auto]].
  destruct (falsy v); cbn [cbind try_catch lift];
    [eexists; split; [reflexivity | simpl; auto]|].
  destruct (normalizeUrl_value_cases v) as [[e ->]|[t ->]];
    cbn [cbind try_catch lift];
    [eexists; split; [reflexivity | simpl; auto]|].
  destruct (URL_parse t) as [u|]; cbn [cbind try_catch lift];
    [|eexists; split; [reflexivity | simpl; auto]].
  destruct (negb (array_includes ["http:"; "https:"] (protocol u)));
    cbn [cbind try_catch lift];
    [eexists; split; [reflexivity | simpl; auto]|].
  destruct (negb (isPublicUrl u)); cbn [cbind try_catch lift];
    eexists; (split; [reflexivity | simpl; auto]).
Qed.

Lemma handleProxyPage_resolves (now : string) (request : Request) :
  exists r,
    handleProxyPage URL_parse now request = Resolve r /\
    In (status r) [200; 400; 403; 405]%Z.
Proof.
  unfold handleProxyPage. cbv zeta.
  destruct (String.eqb (pathname (req_url request)) "/api/generate").
  - apply handleGenerateApi_resolves.
  - eexists. split; [reflexivity | simpl; auto].
Qed.

(** X1: whatever the request and however the upstream behaves,
    [handleRequest] ends with a response (its promise never rejects) and
    issues at most one upstream fetch. *)
Theorem handleRequest_always_answers (now : string) (request : Request)
  (upstream : string -> RequestInit -> FetchOutcome) :
  exists r n,
    run upstream (handleRequest URL_parse now request) = (Normal r, n) /\
    (n <= 1)%nat.
Proof.
  unfold handleRequest. cbv zeta.
  destruct (_ || _).
  - destruct (handleProxyPage_resolves now request) as (r & -> & _).
    exists r, 0%nat. split; [reflexivity | lia].
  - destruct (extractSubdomain _) as [s|]; cbn [async_try];
      [|eexists; exists 0%nat; split; [reflexivity | lia]].
    destruct (negb (array_includes ALLOWED_METHODS (req_method request)));
      cbn [async_try]; [eexists; exists 0%nat; split; [reflexivity | lia]|].
    destruct (String.eqb (req_method request) "OPTIONS"); cbn [async_try];
      [eexists; exists 0%nat; split; [reflexivity | lia]|].
    destruct (buildTargetUrl URL_parse s (req_url request)) as [t|e];
      cbn [lift abind async_try];
      [|eexists; exists 0%nat; split; [reflexivity | lia]].
    unfold proxyRequest. cbv zeta.
    cbn [await_fetch abind async_try run].
    destruct (upstream _ _) as [resp|e]; cbn [abind async_try run].
    + destruct ((300 <=? status resp)%Z && (status resp <? 400)%Z);
        cbn [async_try run]; eexists; exists 1%nat; split; (reflexivity || lia).
    + destruct (String.eqb (exn_name e) "TimeoutError");
        cbn [async_try run]; eexists; exists 1%nat; split; (reflexivity || lia).
Qed.

(** X2: requests to the landing host (first label [proxy] or [proxy--])
    are answered locally with status 200, 400, 403 or 405: no upstream
    fetch is made, whatever the method, path and body. *)
Theorem landing_host_is_local (now : string) (request : Request) :
  first_label (hostname (req_url request)) = "proxy" \/
  first_label (hostname (req_url request)) = "proxy--" ->
  exists r,
    handleRequest URL_parse now request = Resolve r /\
    In (status r) [200; 400; 403; 405]%Z.
Proof.
  intros H. unfold handleRequest. cbv zeta.
  fold (first_label (hostname (req_url request))).
  assert (E : String.eqb (first_label (hostname (req_url request))) "proxy"
              || String.eqb (first_label (hostname (req_url request))) "proxy--"
              = true).
  { destruct H as [-> | ->]; reflexivity. }
  rewrite E. apply handleProxyPage_resolves.
Qed.

(** X3: on a host that passes the gate, a method outside the allow-list
    is answered 405 without any upstream fetch. *)
Theorem method_not_allowed (now : string) (request : Request) (s : string) :
  extractSubdomain (hostname (req_url request)) = Some s ->
  array_includes ALLOWED_METHODS (req_method request) = false ->
  handleRequest URL_parse now request
  = Resolve (createErrorResponse now "Method not allowed" 405).
Proof.
  intros Hext Hm.
  destruct (gate_excludes_landing_labels _ _ Hext) as [Hp1 Hp2].
  unfold handleRequest. cbv zeta.
  fold (first_label (hostname (req_url request))).
  now rewrite Hp1, Hp2, Hext, Hm.
Qed.

(** X4: when the upstream fetch rejects with a [TimeoutError] the client
    receives the 504 error response. *)
Theorem upstream_timeout (now : string) (request : Request)
  (s d : string) (target : URL) (e : Exn) :
  extractSubdomain (hostname (req_url request)) = Some s ->
  array_includes ALLOWED_METHODS (req_method request) = true ->
  req_method request <> "OPTIONS" ->
  convertSubdomainToUrl s = Some d ->
  URL_parse ("https://" ++ d) = Some target ->
  exn_name e = "TimeoutError" ->
  settle (handleRequest URL_parse now request) (Rejected e)
  = Resolve (createErrorResponse now "Request timeout" 504).
Proof.
  intros Hext Hallowed Hopt Hdec Hparse Hname.
  rewrite (handleRequest_dispatch URL_parse now request s d target
             Hext Hallowed Hopt Hdec Hparse).
  unfold proxyRequest. cbv zeta. cbn [await_fetch abind async_try settle].
  now rewrite Hname.
Qed.

(** X5: when the upstream fetch rejects with any other error the client
    receives the 500 error response carrying the error's message. *)
Theorem upstream_failure (now : string) (request : Request)
  (s d : string) (target : URL) (e : Exn) :
  extractSubdomain (hostname (req_url request)) = Some s ->
  array_includes ALLOWED_METHODS (req_method request) = true ->
  req_method request <> "OPTIONS" ->
  convertSubdomainToUrl s = Some d ->
  URL_parse ("https://" ++ d) = Some target ->
  exn_name e <> "TimeoutError" ->
  settle (handleRequest URL_parse now request) (Rejected e)
  = Resolve (createErrorResponse now (exn_message e) 500).
Proof.
  intros Hext Hallowed Hopt Hdec Hparse Hname.
  rewrite (handleRequest_dispatch URL_parse now request s d target
             Hext Hallowed Hopt Hdec Hparse).
  unfold proxyRequest. cbv zeta. cbn [await_fetch abind async_try settle].
  apply String.eqb_neq in Hname. now rewrite Hname.
Qed.

(** X6: when the platform's URL constructor refuses the decoded host, a
    request that passed the gate is answered with status 500, without any
    upstream fetch. *)
Theorem undecodable_target (now : string) (request : Request) (s d : string) :
  extractSubdomain (hostname (req_url request)) = Some s ->
  array_includes ALLOWED_METHODS (req_method request) = true ->
  req_method request <> "OPTIONS" ->
  convertSubdomainToUrl s = Some d ->
  URL_parse ("https://" ++ d) = None ->
  exists message,
    handleRequest URL_parse now request
    = Resolve (createErrorResponse now message 500).
Proof.
  intros Hext Hallowed Hopt Hdec Hparse.
  destruct (gate_excludes_landing_labels _ _ Hext) as [Hp1 Hp2].
  apply String.eqb_neq in Hopt.
  unfold handleRequest. cbv zeta.
  fold (first_label (hostname (req_url request))).
  rewrite Hp1, Hp2, Hext, Hallowed, Hopt. cbn [orb negb].
  unfold buildTargetUrl, new_URL. rewrite Hdec, Hparse.
  eexists. reflexivity.
Qed.


End AnswerFacts.

(** ** Header lists, continued *)

Section MoreHeaderFacts.

Import Headers.

Lemma lower_char_idem (c : ascii) : lower_char (lower_char c) = lower_char c.
Proof. destruct c as [[] [] [] [] [] [] [] []]; vm_compute; reflexivity. Qed.

Lemma toLowerCase_idem (s : string) : toLowerCase (toLowerCase s) = toLowerCase s.
Proof.
  induction s as [|c s IH]; simpl; [reflexivity|].
  now rewrite lower_char_idem, IH.
Qed.

Lemma name_eq_lower_r (k m : string) : name_eq k (toLowerCase m) = name_eq k m.
Proof. unfold name_eq. now rewrite toLowerCase_idem. Qed.

Lemma name_eq_sym (a b : string) : name_eq a b = name_eq b a.
Proof. unfold name_eq. apply String.eqb_sym. Qed.

(** [get] looks at a name through its lower-cased form only. *)
Lemma values_name_eq (h : t) (n m : string) :
  name_eq n m = true -> values h n = values h m.
Proof.
  intros H. unfold values. f_equal. apply filter_ext. intros [k v]. simpl.
  unfold name_eq in *. apply String.eqb_eq in H. now rewrite H.
Qed.

Lemma get_name_eq (h : t) (n m : string) :
  name_eq n m = true -> get h n = get h m.
Proof. intros H. unfold get. now rewrite (values_name_eq h n m H). Qed.

Lemma get_lower (h : t) (m : string) : get h (toLowerCase m) = get h m.
Proof.
  apply get_name_eq. unfold name_eq. rewrite toLowerCase_idem.
  apply String.eqb_refl.
Qed.

(** [get] after [set], whatever the two names. *)
Lemma get_set (h : t) (n v m : string) :
  get (set h n v) m = if name_eq n m then Some v else get h m.
Proof.
  destruct (name_eq n m) eqn:E.
  - rewrite <- (get_name_eq _ n m E). apply get_set_same.
  - now apply get_set_other.
Qed.

Lemma get_delete (h : t) (n m : string) :
  get (delete h n) m = if name_eq n m then None else get h m.
Proof.
  destruct (name_eq n m) eqn:E.
  - rewrite <- (get_name_eq _ n m E). unfold get.
    now rewrite values_delete_same.
  - now apply get_delete_other.
Qed.

Lemma get_fold_delete (l : list string) :
  forall (h : t) (m : string),
    get (fold_left delete l h) m = if name_among l m then None else get h m.
Proof.
  induction l as [|n l IH]; intros h m; [reflexivity|].
  cbn [fold_left name_among existsb]. rewrite IH, get_delete.
  fold (name_among l m).
  destruct (name_eq n m), (name_among l m); reflexivity.
Qed.

Lemma has_get (h : t) (m : string) :
  has h m = match get h m with Some _ => true | None => false end.
Proof.
  unfold has, get, values.
  induction h as [|[k v] h IH]; [reflexivity|].
  simpl. destruct (name_eq k m); simpl; [reflexivity|].
  rewrite IH. destruct (map snd _); reflexivity.
Qed.

Lemma get_set_if_absent (h : t) (n v : string) :
  get (set_if_absent h n v) n
  = match get h n with Some x => Some x | None => Some v end.
Proof.
  unfold set_if_absent. rewrite has_get.
  destruct (get h n) eqn:E; cbn [negb]; [exact E | apply get_set_same].
Qed.

(** *** Iterating a header list *)

Lemma array_includes_In (l : list string) (x : string) :
  array_includes l x = true <-> In x l.
Proof.
  unfold array_includes. rewrite existsb_exists. split.
  - intros (y & Hy & E). apply String.eqb_eq in E. now subst.
  - intros H. exists x. split; [exact H | apply String.eqb_refl].
Qed.

Lemma dedup_In (l : list string) (x : string) : In x (dedup l) <-> In x l.
Proof.
  induction l as [|y l IH]; [reflexivity|].
  simpl. destruct (array_includes l y) eqn:E.
  - rewrite IH. split; [auto|]. intros [<-|H]; [|exact H].
    now apply array_includes_In.
  - simpl. now rewrite IH.
Qed.

Lemma dedup_NoDup (l : list string) : NoDup (dedup l).
Proof.
  induction l as [|y l IH]; simpl; [constructor|].
  destruct (array_includes l y) eqn:E; [exact IH|].
  constructor; [|exact IH]. rewrite dedup_In. intros H.
  apply array_includes_In in H. congruence.
Qed.

Lemma insert_sorted_In (x y : string) (l : list string) :
  In x (insert_sorted y l) <-> x = y \/ In x l.
Proof.
  induction l as [|z l IH]; simpl.
  - split; [intros [<-|[]]; auto | intros [->|[]]; auto].
  - destruct (String.leb y z); simpl.
    + split; [intros [<-|H]; auto | intros [->|H]; auto].
    + rewrite IH. split.
      * intros [<-|[->|H]]; auto.
      * intros [->|[<-|H]]; auto.
Qed.

Lemma insert_sorted_NoDup (y : string) (l : list string) :
  ~ In y l -> NoDup l -> NoDup (insert_sorted y l).
Proof.
  induction l as [|z l IH]; simpl; intros Hy Hl.
  - constructor; [intros [] | constructor].
  - destruct (String.leb y z).
    + constructor; assumption.
    + inversion Hl as [|? ? Hz Hl']; subst.
      constructor.
      * rewrite insert_sorted_In. intros [->|H]; [apply Hy; now left | contradiction].
      * apply IH; [intros H; apply Hy; now right | exact Hl'].
Qed.

Lemma sort_In (l : list string) (x : string) : In x (sort l) <-> In x l.
Proof.
  unfold sort. induction l as [|y l IH]; [reflexivity|].
  simpl. rewrite insert_sorted_In, IH. split; intros [H|H]; auto.
Qed.

Lemma sort_NoDup (l : list string) : NoDup l -> NoDup (sort l).
Proof.
  unfold sort. induction l as [|y l IH]; intros Hl; simpl; [constructor|].
  inversion Hl; subst. apply insert_sorted_NoDup; [|now apply IH].
  fold (sort l). now rewrite sort_In.
Qed.

Lemma assoc_map_In (f : string -> string) (names : list string) (n : string) :
  In n names -> assoc n (map (fun x => (x, f x)) names) = Some (f n).
Proof.
  induction names as [|x names IH]; [intros []|].
  intros H. simpl. destruct (String.eqb x n) eqn:E.
  - apply String.eqb_eq in E. now subst.
  - destruct H as [->|H]; [now rewrite String.eqb_refl in E | now apply IH].
Qed.

Lemma assoc_map_notin (f : string -> string) (names : list string) (n : string) :
  ~ In n names -> assoc n (map (fun x => (x, f x)) names) = None.
Proof.
  induction names as [|x names IH]; [reflexivity|].
  intros H. simpl. destruct (String.eqb x n) eqn:E.
  - apply String.eqb_eq in E. subst. exfalso. apply H. now left.
  - apply IH. intros Hin. apply H. now right.
Qed.

Lemma assoc_notin (n : string) (E : list (string * string)) :
  ~ In n (map fst E) -> assoc n E = None.
Proof.
  induction E as [|[k v] E IH]; [reflexivity|].
  simpl. intros H. destruct (String.eqb k n) eqn:Ek.
  - apply String.eqb_eq in Ek. subst. exfalso. apply H. now left.
  - apply IH. intros Hin. apply H. now right.
Qed.

(** The loop of [cleanRequestHeaders] over entries with distinct
    lower-case names. *)
Lemma get_fold_copy (E : list (string * string)) :
  Forall (fun kv => toLowerCase (fst kv) = fst kv) E ->
  NoDup (map fst E) ->
  forall (acc : t) (m : string),
    get (fold_left copy_allowed E acc) m
    = match assoc (toLowerCase m) E with
      | Some v =>
          if array_includes BLOCKED_HEADERS (toLowerCase m)
          then get acc m else Some v
      | None => get acc m
      end.
Proof.
  induction E as [|[n v] E IH]; intros Hlow Hnd acc m; [reflexivity|].
  inversion Hlow as [|? ? Hn Hlow']; subst. simpl in Hn.
  inversion Hnd as [|? ? Hnotin Hnd']; subst.
  cbn [fold_left]. rewrite (IH Hlow' Hnd'). cbn [assoc].
  unfold copy_allowed. rewrite Hn.
  destruct (String.eqb n (toLowerCase m)) eqn:En.
  - apply String.eqb_eq in En. subst n.
    rewrite (assoc_notin _ _ Hnotin).
    destruct (array_includes BLOCKED_HEADERS (toLowerCase m)); cbn [negb];
      [reflexivity|].
    rewrite get_set, name_eq_sym, name_eq_lower_r.
    now rewrite (proj2 (String.eqb_eq _ _) eq_refl : name_eq m m = true).
  - assert (Hne : name_eq n m = false).
    { unfold name_eq. now rewrite Hn. }
    assert (Hacc : get (if negb (array_includes BLOCKED_HEADERS n)
                        then set acc n v else acc) m = get acc m).
    { destruct (negb _); [now rewrite get_set, Hne | reflexivity]. }
    now rewrite Hacc.
Qed.

Lemma entries_shape (h : t) :
  Forall (fun kv => toLowerCase (fst kv) = fst kv) (entries h) /\
  NoDup (map fst (entries h)).
Proof.
  unfold entries. split.
  - apply Forall_forall. intros [n v] Hin. apply in_map_iff in Hin as (x & [= <- <-] & Hx).
    simpl. apply sort_In, dedup_In, in_map_iff in Hx as ([k w] & <- & _).
    apply toLowerCase_idem.
  - rewrite map_map. simpl. rewrite map_id.
    apply sort_NoDup, dedup_NoDup.
Qed.

Lemma has_In_lower (h : t) (m : string) :
  has h m = true <-> In (toLowerCase m) (map (fun kv => toLowerCase (fst kv)) h).
Proof.
  unfold has. rewrite existsb_exists, in_map_iff. split.
  - intros ([k v] & Hin & E). exists (k, v). split; [|exact Hin].
    now apply String.eqb_eq in E.
  - intros ([k v] & E & Hin). exists (k, v). split; [exact Hin|].
    simpl in *. unfold name_eq. rewrite E. apply String.eqb_refl.
Qed.

(** What the copy loop of [cleanRequestHeaders] leaves under a name. *)
Lemma copied_headers (h : t) (m : string) :
  get (fold_left copy_allowed (entries h) []) m
  = if array_includes BLOCKED_HEADERS (toLowerCase m) then None else get h m.
Proof.
  destruct (entries_shape h) as [Hlow Hnd].
  rewrite (get_fold_copy _ Hlow Hnd).
  change (get [] m) with (@None string).
  unfold entries.
  destruct (has h m) eqn:Hhas.
  - rewrite assoc_map_In
      by (apply sort_In, dedup_In; now apply has_In_lower).
    rewrite get_lower. rewrite has_get in Hhas.
    destruct (get h m); [reflexivity | discriminate].
  - rewrite assoc_map_notin.
    + rewrite has_get in Hhas. destruct (get h m); [discriminate|].
      now destruct (array_includes _ _).
    + rewrite sort_In, dedup_In, <- has_In_lower. congruence.
Qed.

End MoreHeaderFacts.

(** ** What the sanitizers keep, set and drop *)

Section SanitizerMore.

Variable URL_parse : string -> option URL.


Lemma cleanRequestHeaders_before_defaults (h : Headers.t) (target : URL)
  (m : string) :
  name_among ["Host"; "Origin"; "Referer"] m = false ->
  array_includes BLOCKED_HEADERS (toLowerCase m) = false ->
  exists h3,
    cleanRequestHeaders URL_parse h target
    = set_if_absent
        (set_if_absent
           (set_if_absent
              (set_if_absent h3 "User-Agent"
                 "Mozilla/5.0 (Windows NT 10.0; Win64; x64) AppleWebKit/537.36 (KHTML, like Gecko) Chrome/120.0.0.0 Safari/537.36")
              "Accept"
              "text/html,application/xhtml+xml,application/xml;q=0.9,image/webp,*/*;q=0.8")
           "Accept-Language" "en-US,en;q=0.5")
        "Accept-Encoding" "gzip, deflate, br" /\
    Headers.get h3 m = Headers.get h m.
Proof.
  unfold name_among. cbn [existsb]. rewrite orb_false_r.
  intros H Hb. repeat (apply orb_false_iff in H as [? H]).
  unfold cleanRequestHeaders. cbv zeta. eexists. split; [reflexivity|].
  set (h1 := Headers.set _ "Host" _).
  assert (Eh1 : Headers.get h1 m = Headers.get h m).
  { subst h1. rewrite get_set_other by assumption.
    now rewrite copied_headers, Hb. }
  set (h2 := if Headers.has h "Origin" then _ else _).
  assert (Eh2 : Headers.get h2 m = Headers.get h1 m).
  { subst h2. destruct (Headers.has h "Origin"); [|reflexivity].
    now rewrite get_set_other by assumption. }
  destruct (Headers.has h "Referer"); [|now rewrite Eh2, Eh1].
  unfold new_URL.
  destruct (Headers.get h "Referer"); simpl;
    destruct (URL_parse _); simpl;
    (rewrite get_set_other by assumption) ||
    (rewrite get_delete_other by assumption); now rewrite Eh2, Eh1.
Qed.

(** X9: [User-Agent], [Accept], [Accept-Language] and [Accept-Encoding]
    keep the client's value when the client sent one; the browser-like
    default is filled in only when the header is absent. *)
Theorem browser_defaults_only_when_absent (h : Headers.t) (target : URL) :
  let out := cleanRequestHeaders URL_parse h target in
  Headers.get out "User-Agent"
  = Some (match Headers.get h "User-Agent" with
          | Some v => v
          | None => "Mozilla/5.0 (Windows NT 10.0; Win64; x64) AppleWebKit/537.36 (KHTML, like Gecko) Chrome/120.0.0.0 Safari/537.36"
          end) /\
  Headers.get out "Accept"
  = Some (match Headers.get h "Accept" with
          | Some v => v
          | None => "text/html,application/xhtml+xml,application/xml;q=0.9,image/webp,*/*;q=0.8"
          end) /\
  Headers.get out "Accept-Language"
  = Some (match Headers.get h "Accept-Language" with
          | Some v => v
          | None => "en-US,en;q=0.5"
          end) /\
  Headers.get out "Accept-Encoding"
  = Some (match Headers.get h "Accept-Encoding" with
          | Some v => v
          | None => "gzip, deflate, br"
          end).
Proof.
  cbv zeta. repeat split.
  - destruct (cleanRequestHeaders_before_defaults h target "User-Agent"
                eq_refl eq_refl) as (h3 & -> & E).
    rewrite !get_set_if_absent_other by reflexivity.
    rewrite get_set_if_absent, E. now destruct (Headers.get h _).
  - destruct (cleanRequestHeaders_before_defaults h target "Accept"
                eq_refl eq_refl) as (h3 & -> & E).
    rewrite !get_set_if_absent_other by reflexivity.
    rewrite get_set_if_absent, get_set_if_absent_other, E by reflexivity.
    now destruct (Headers.get h _).
  - destruct (cleanRequestHeaders_before_defaults h target "Accept-Language"
                eq_refl eq_refl) as (h3 & -> & E).
    rewrite !get_set_if_absent_other by reflexivity.
    rewrite get_set_if_absent, !get_set_if_absent_other, E by reflexivity.
    now destruct (Headers.get h _).
  - destruct (cleanRequestHeaders_before_defaults h target "Accept-Encoding"
                eq_refl eq_refl) as (h3 & -> & E).
    rewrite get_set_if_absent, !get_set_if_absent_other, E by reflexivity.
    now destruct (Headers.get h _).
Qed.

(** X10: the outbound [Origin] is the target's origin when the client
    sent an [Origin], and is absent otherwise. *)
Theorem origin_rewritten (h : Headers.t) (target : URL) :
  Headers.get (cleanRequestHeaders URL_parse h target) "Origin"
  = if Headers.has h "Origin" then Some (URL_origin target) else None.
Proof.
  unfold cleanRequestHeaders. cbv zeta.
  rewrite !get_set_if_absent_other by reflexivity.
  set (h1 := Headers.set _ "Host" _).
  assert (H1 : Headers.get h1 "Origin" = Headers.get h "Origin").
  { subst h1. rewrite get_set_other by reflexivity.
    now rewrite copied_headers. }
  set (h2 := if Headers.has h "Origin" then _ else _).
  assert (H2 : Headers.get h2 "Origin"
               = if Headers.has h "Origin" then Some (URL_origin target) else None).
  { subst h2. rewrite (has_get h "Origin") in *.
    destruct (Headers.get h "Origin") eqn:E; [apply get_set_same | exact H1]. }
  destruct (Headers.has h "Referer"); [|exact H2].
  unfold new_URL.
  destruct (Headers.get h "Referer"); simpl;
    destruct (URL_parse _); simpl;
    (rewrite get_set_other by reflexivity) ||
    (rewrite get_delete_other by reflexivity); exact H2.
Qed.


Lemma createProxyResponse_get (response : Response) (m : string) :
  Headers.get (headers (createProxyResponse response)) m
  = if name_among headersToRemove m then None
    else if name_among CORS_HEADERS m then Headers.get (addCorsHeaders []) m
    else Headers.get (headers response) m.
Proof.
  unfold createProxyResponse. cbv zeta. cbn [headers].
  rewrite get_fold_delete.
  destruct (name_among headersToRemove m); [reflexivity|].
  unfold addCorsHeaders, CORS_HEADERS, name_among. cbv zeta.
  rewrite !get_set. cbn [existsb]. change (Headers.get [] m) with (@None string).
  destruct (Headers.name_eq "Access-Control-Expose-Headers" m),
           (Headers.name_eq "Access-Control-Max-Age" m),
           (Headers.name_eq "Access-Control-Allow-Headers" m),
           (Headers.name_eq "Access-Control-Allow-Methods" m),
           (Headers.name_eq "Access-Control-Allow-Origin" m); reflexivity.
Qed.


End SanitizerMore.

(** ** Redirects *)

Section RedirectFacts.

Variable URL_parse : string -> option URL.

Lemma alpha_is_hostname_char (c : ascii) :
  is_alpha c = true -> is_alnum_dot_hyphen c = true.
Proof. destruct c as [[] [] [] [] [] [] [] []]; vm_compute; congruence. Qed.

Lemma dot_is_hostname_char (c : ascii) :
  is_char "." c = true -> is_alnum_dot_hyphen c = true.
Proof. destruct c as [[] [] [] [] [] [] [] []]; vm_compute; congruence. Qed.

(** A string matched by a pattern is made of the pattern's classes. *)
Lemma Lang_classes (p : ascii -> bool) (r : regex) (s : string) :
  Lang r s -> classes_within p r -> forall_chars p s = true.
Proof.
  intros H. induction H as [|q c Hq|r1 r2 s1 s2 _ IH1 _ IH2|r1 r2 s _ IH
                            |r1 r2 s _ IH| |r1 s1 s2 _ IH1 _ IH2];
    cbn [classes_within]; intros Hr.
  - reflexivity.
  - cbn [forall_chars]. now rewrite (Hr _ Hq).
  - destruct Hr as [Hr1 Hr2].
    now rewrite forall_chars_app, (IH1 Hr1), (IH2 Hr2).
  - now apply IH.
  - now apply IH.
  - reflexivity.
  - now rewrite forall_chars_app, (IH1 Hr), (IH2 Hr).
Qed.

(** A host name accepted by [isStandardDomain] is a non-empty string over
    [[a-zA-Z0-9.-]]. *)
Lemma standard_domain_chars (host : string) :
  isStandardDomain host = true ->
  is_empty host = false /\ forall_chars is_alnum_dot_hyphen host = true.
Proof.
  unfold isStandardDomain. intros H.
  apply andb_true_iff in H as [H _]. apply andb_true_iff in H as [H _].
  split.
  - destruct host; [discriminate H | reflexivity].
  - apply test_Lang in H. apply (Lang_classes _ _ _ H).
    cbn [re_standard_domain Plus AtLeast2 Chr classes_within].
    repeat split; auto using alpha_is_hostname_char, dot_is_hostname_char.
Qed.

(** X13: the encoder never fails on a host name that [isStandardDomain]
    accepts, so a redirect to a standard domain is always rewritten. *)
Theorem standard_domain_encodes (host : string) :
  isStandardDomain host = true ->
  convertUrlToSubdomain host = Some (replace_char "." "--" host).
Proof.
  intros H. destruct (standard_domain_chars host H) as [Hne Hchars].
  unfold convertUrlToSubdomain. now rewrite Hne, test_re_hostname, Hne, Hchars.
Qed.

(** X14: a redirect whose [Location] parses as a URL with a standard
    domain is answered with the same status and body and with
    [Location] moved to the gateway: the host with every dot replaced by
    the double hyphen, a dot, and the inbound host name without its first
    label; scheme, path, query and fragment stay. *)
Theorem redirect_rewritten (response : Response) (request : Request)
  (location : string) (u : URL) :
  Headers.get (headers response) "Location" = Some location ->
  location <> "" ->
  URL_parse location = Some u ->
  isStandardDomain (hostname u) = true ->
  Headers.get (headers (handleRedirect URL_parse response request)) "Location"
  = Some (URL_toString
            (URL_set_hostname u
               (replace_char "." "--" (hostname u) ++ "."
                ++ gateway_base (hostname (req_url request))))) /\
  status (handleRedirect URL_parse response request) = status response /\
  body (handleRedirect URL_parse response request) = body response.
Proof.
  intros Hget Hne Hparse Hstd.
  unfold handleRedirect. rewrite Hget.
  destruct location; [contradiction|]. cbn [is_empty].
  rewrite Hparse. cbv zeta. rewrite Hstd, (standard_domain_encodes _ Hstd).
  cbn [headers status body]. repeat split.
  rewrite get_addCorsHeaders_other by reflexivity. apply get_set_same.
Qed.

(** X15: a redirect without [Location], or whose [Location] is empty,
    does not parse, or names a host that is not a standard domain (an
    address, a single label, a host holding a double hyphen), is relayed
    by [createProxyResponse] with the [Location] the upstream sent. *)
Theorem redirect_fails_open (response : Response) (request : Request) :
  match Headers.get (headers response) "Location" with
  | None => True
  | Some location =>
      location = "" \/
      match URL_parse location with
      | None => True
      | Some u => isStandardDomain (hostname u) = false
      end
  end ->
  handleRedirect URL_parse response request = createProxyResponse response /\
  Headers.get (headers (handleRedirect URL_parse response request)) "Location"
  = Headers.get (headers response) "Location".
Proof.
  intros H.
  assert (E : handleRedirect URL_parse response request
              = createProxyResponse response).
  { unfold handleRedirect.
    destruct (Headers.get (headers response) "Location") as [location|];
      [|reflexivity].
    destruct H as [->|H]; [reflexivity|].
    destruct (is_empty location); [reflexivity|].
    destruct (URL_parse location) as [u|]; [|reflexivity].
    cbv zeta. now rewrite H. }
  split; [exact E|]. rewrite E.
  now rewrite createProxyResponse_get.
Qed.

End RedirectFacts.

(** ** Codec, continued *)

Section CodecMore.

Lemma split_join_dot (labels : list string) :
  labels <> [] ->
  (forall l, In l labels ->
     forall_chars (fun x => negb (Ascii.eqb x ".")) l = true) ->
  split "." (join "." labels) = labels.
Proof.
  induction labels as [|l labels IH]; intros Hne Hall; [contradiction|].
  destruct labels as [|l2 labels].
  - apply split_dot_single. apply Hall. now left.
  - rewrite join_cons by discriminate.
    rewrite split_dot_part by (apply Hall; now left). f_equal.
    apply IH; [discriminate|]. intros x Hx. apply Hall. now right.
Qed.

Lemma valid_format_parts (s : string) :
  isValidSubdomainFormat s = true ->
  (List.length (split "--" s) <? 2)%nat = false /\
  forallb valid_label (split "--" s) = true.
Proof.
  unfold isValidSubdomainFormat.
  destruct (startsWith s "-" || endsWith s "-"); [discriminate|].
  destruct (List.length (split "--" s) <? 2)%nat; [discriminate|].
  intros Hall. split; [reflexivity|].
  rewrite forallb_forall in *. intros part Hin. specialize (Hall _ Hin).
  unfold valid_label.
  apply andb_true_iff in Hall as [Hall H4].
  apply andb_true_iff in Hall as [Hall H3].
  apply andb_true_iff in Hall as [_ H2].
  now rewrite H2, H3, H4.
Qed.

(** X16: the first label that passes the gate decodes to a domain name of
    at least two labels, which are exactly the parts between the double
    hyphens, each matching [[A-Za-z0-9-]+] and none starting or ending
    with a hyphen. *)
Theorem accepted_subdomain_decodes_to_domain (host s : string) :
  extractSubdomain host = Some s ->
  exists d,
    convertSubdomainToUrl s = Some d /\
    split "." d = split "--" s /\
    valid_domain_name d = true.
Proof.
  intros H. apply extractSubdomain_Some in H as [_ Hvalid].
  destruct (valid_format_decodes _ Hvalid) as [Hlabel Hdec].
  destruct (valid_format_parts _ Hvalid) as [Hlen Hall].
  exists (join "." (split "--" s)). split; [exact Hdec|].
  assert (Hsplit : split "." (join "." (split "--" s)) = split "--" s).
  { apply split_join_dot; [now apply split_nonempty|].
    intros l Hin. apply (forall_chars_impl _ _ _ alnum_hyphen_not_dot).
    rewrite test_re_label in Hlabel. apply andb_true_iff in Hlabel as [_ Hc].
    now apply (split_forall_chars _ "--" s l). }
  split; [exact Hsplit|].
  unfold valid_domain_name. rewrite Hsplit, Hall, andb_true_r.
  apply Nat.leb_le. apply Nat.ltb_ge in Hlen. exact Hlen.
Qed.


End CodecMore.

(** ** Classifier, continued *)

Section ClassifierMore.

Lemma private_octets_in_block (a b c d : N) :
  (a <= 255 -> b <= 255 -> c <= 255 -> d <= 255 ->
   a = 10 \/ (a = 172 /\ 16 <= b <= 31) \/ (a = 192 /\ b = 168) \/
   a = 127 \/ (a = 169 /\ b = 254) ->
   in_private_block (ipv4_value a b c d) = true)%N.
Proof.
  intros Ha Hb Hc Hd H. unfold in_private_block, private_blocks.
  cbn [existsb fst snd]. unfold in_cidr.
  change (32 - 8)%N with 24%N. change (32 - 12)%N with 20%N.
  change (32 - 16)%N with 16%N.
  rewrite !shift_24, !shift_20, !shift_16 by lia.
  pose proof (N.div_mod' b 16) as Hdiv.
  pose proof (N.mod_lt b 16 ltac:(discriminate)) as Hr.
  change (16 / 16)%N with 1%N. change (0 / 16)%N with 0%N.
  repeat rewrite orb_true_iff. rewrite !N.eqb_eq.
  generalize dependent (b / 16)%N. generalize dependent (b mod 16)%N.
  intros. lia.
Qed.

Lemma decimal_starts_with_digit (n : N) :
  (n <= 255)%N ->
  exists c rest, decimal n = String c rest /\ is_digit c = true.
Proof.
  intros Hn. destruct (octet_facts n Hn) as (L & D & _).
  apply test_Lang in L. destruct (decimal n) as [|c rest]; [discriminate L|].
  exists c, rest. split; [reflexivity|].
  cbn [forall_chars] in D. now apply andb_true_iff in D as [D _].
Qed.

(** X18: for the dotted decimal form of an IPv4 address, [isPublicUrl]
    answers exactly by the five private blocks: the address is refused
    when it lies in one of them and accepted otherwise. *)
Theorem isPublicUrl_on_addresses (a b c d : N) (u : URL) :
  (a <= 255)%N -> (b <= 255)%N -> (c <= 255)%N -> (d <= 255)%N ->
  hostname u = dotted_quad a b c d ->
  isPublicUrl u = negb (in_private_block (ipv4_value a b c d)).
Proof.
  intros Ha Hb Hc Hd Hhost.
  destruct (in_private_block (ipv4_value a b c d)) eqn:Hblock.
  - cbn [negb]. unfold isPublicUrl.
    rewrite Hhost, dotted_quad_lower by assumption.
    rewrite dotted_quad_matches, dotted_quad_split by assumption.
    cbn [map nth].
    destruct (octet_facts a Ha) as (_ & _ & ->).
    destruct (octet_facts b Hb) as (_ & _ & ->).
    cbn [num_eq num_ge num_le].
    destruct (in_private_block_octets a b c d Ha Hb Hc Hd Hblock)
      as [->|[[-> [H1 H2]]|[[-> ->]|[->|[-> ->]]]]]; try reflexivity.
    apply N.leb_le in H1, H2. now rewrite H1, H2.
  - cbn [negb]. unfold isPublicUrl.
    rewrite Hhost, dotted_quad_lower by assumption.
    rewrite dotted_quad_matches, (dotted_quad_split a b c d) by assumption.
    cbn [map nth].
    destruct (octet_facts a Ha) as (_ & _ & Na).
    destruct (octet_facts b Hb) as (_ & _ & Nb).
    rewrite Na, Nb. cbn [num_eq num_ge num_le].
    assert (Hcond :
      ((a =? 10) || ((a =? 172) && (16 <=? b) && (b <=? 31)) ||
       ((a =? 192) && (b =? 168)) || (a =? 127) ||
       ((a =? 169) && (b =? 254)))%N = false).
    { apply not_true_is_false. intros Hc'.
      rewrite (private_octets_in_block a b c d Ha Hb Hc Hd) in Hblock;
        [discriminate|].
      repeat rewrite orb_true_iff in Hc'. repeat rewrite andb_true_iff in Hc'.
      rewrite !N.eqb_eq, !N.leb_le in Hc'. lia. }
    rewrite Hcond.
    assert (Hlocal : array_includes localDomains (dotted_quad a b c d) = false).
    { destruct (decimal_starts_with_digit a Ha) as (x & rest & Ex & Dx).
      unfold array_includes, localDomains. cbn [existsb].
      rewrite !orb_false_iff. repeat split.
      - unfold dotted_quad. rewrite Ex. cbn [append String.eqb].
        destruct (Ascii.eqb x "l") eqn:E; [|reflexivity].
        apply Ascii.eqb_eq in E. subst x. discriminate Dx.
      - apply String.eqb_neq. intros E.
        pose proof (dotted_quad_split a b c d Ha Hb Hc Hd) as Hs.
        rewrite E in Hs.
        change (split "." "127.0.0.1") with ["127"; "0"; "0"; "1"] in Hs.
        injection Hs as Ea _ _ _. rewrite <- Ea in Na.
        change (toNumber "127") with (Some 127%N) in Na.
        injection Na as <-. discriminate Hcond.
      - unfold dotted_quad. rewrite Ex. cbn [append String.eqb].
        destruct (Ascii.eqb x ":") eqn:E; [|reflexivity].
        apply Ascii.eqb_eq in E. subst x. discriminate Dx. }
    now rewrite Hlocal.
Qed.

End ClassifierMore.

(** ** URL normalisation and link generation *)

Section NormalizeFacts.

Lemma forall_chars_true (s : string) : forall_chars (fun _ => true) s = true.
Proof. induction s as [|c s IH]; simpl; auto. Qed.

Lemma Lang_anything (s : string) : Lang anything s.
Proof. apply Lang_star_cls. apply forall_chars_true. Qed.

(** [https://] followed by anything has an HTTP scheme. *)
Lemma https_prefix_has_scheme (rest : string) :
  test re_has_http_scheme_i ("https://" ++ rest) = true.
Proof.
  apply test_Lang. unfold re_has_http_scheme_i.
  assert (L1 : Lang (LitI "http") "http") by (apply test_Lang; reflexivity).
  assert (L2 : Lang (Opt (Cls (is_char_i "s"))) "s")
    by (apply test_Lang; reflexivity).
  assert (L3 : Lang (Lit "://") "://") by (apply test_Lang; reflexivity).
  exact (LSeq L1 (LSeq L2 (LSeq L3 (Lang_anything rest)))).
Qed.

Lemma trimEnd_cons (c : ascii) (s : string) :
  is_whitespace c = false -> trimEnd (String c s) = String c (trimEnd s).
Proof. intros H. cbn [trimEnd]. rewrite H. now destruct (trimEnd s). Qed.

Lemma trimEnd_idem (s : string) : trimEnd (trimEnd s) = trimEnd s.
Proof.
  induction s as [|c s IH]; [reflexivity|].
  cbn [trimEnd]. destruct (trimEnd s) as [|x t] eqn:E.
  - destruct (is_whitespace c) eqn:W; [reflexivity|].
    cbn [trimEnd]. now rewrite W.
  - change (trimEnd (String c (String x t)))
      with (match trimEnd (String x t) with
            | "" => if is_whitespace c then "" else String c ""
            | t' => String c t'
            end).
    now rewrite IH.
Qed.

Lemma trimStart_shape (s : string) :
  trimStart s = "" \/
  exists c rest, trimStart s = String c rest /\ is_whitespace c = false.
Proof.
  induction s as [|c s IH]; [now left|].
  cbn [trimStart]. destruct (is_whitespace c) eqn:W; [exact IH|].
  right. now exists c, s.
Qed.

(** [trim] is idempotent. *)
Lemma trim_idem (s : string) : trim (trim s) = trim s.
Proof.
  unfold trim. destruct (trimStart_shape s) as [->|(c & rest & -> & W)].
  - reflexivity.
  - rewrite (trimEnd_cons c rest W). cbn [trimStart]. rewrite W.
    rewrite (trimEnd_cons c _ W). now rewrite trimEnd_idem.
Qed.

Lemma trim_after_prefix (p s : string) :
  p <> "" ->
  forall_chars (fun c => negb (is_whitespace c)) p = true ->
  trim (p ++ trim s) = p ++ trim s.
Proof.
  intros Hne Hp.
  assert (Hend : forall q, forall_chars (fun c => negb (is_whitespace c)) q = true ->
                           trimEnd (q ++ trim s) = q ++ trim s).
  { induction q as [|c q IH]; intros Hq.
    - unfold trim. apply trimEnd_idem.
    - cbn [forall_chars] in Hq. apply andb_true_iff in Hq as [Hc Hq].
      apply negb_true_iff in Hc. cbn [append].
      now rewrite (trimEnd_cons _ _ Hc), (IH Hq). }
  unfold trim at 1. destruct p as [|c p]; [contradiction|].
  cbn [forall_chars] in Hp. apply andb_true_iff in Hp as [Hc Hp'].
  apply negb_true_iff in Hc. cbn [append trimStart]. rewrite Hc.
  apply (Hend (String c p)). cbn [forall_chars]. now rewrite Hc, Hp'.
Qed.

Lemma normalizeUrl_cases (url : string) :
  url <> "" ->
  exists r,
    normalizeUrl url = Normal r /\
    test re_has_http_scheme_i r = true /\
    trim r = r.
Proof.
  intros Hne. unfold normalizeUrl.
  destruct url as [|c url']; [contradiction|]. cbn [is_empty].
  set (url := String c url').
  destruct (test re_has_http_scheme_i (trim url)) eqn:Ht.
  - exists (trim url). repeat split; [exact Ht | apply trim_idem].
  - destruct (startsWith (trim url) "//") eqn:Hs.
    + exists ("https:" ++ trim url). repeat split.
      * unfold startsWith in Hs. apply prefix_drop in Hs. rewrite <- Hs.
        apply (https_prefix_has_scheme (drop 2 (trim url))).
      * now apply trim_after_prefix.
    + exists ("https://" ++ trim url). repeat split.
      * apply https_prefix_has_scheme.
      * now apply trim_after_prefix.
Qed.

(** X19: on every non-empty input [normalizeUrl] returns a string that
    starts with [http://] or [https://] (in any case), and it is
    idempotent: normalising its result gives the result back. *)
Theorem normalizeUrl_idempotent (url : string) :
  url <> "" ->
  exists r,
    normalizeUrl url = Normal r /\
    test re_has_http_scheme_i r = true /\
    normalizeUrl r = Normal r.
Proof.
  intros Hne. destruct (normalizeUrl_cases url Hne) as (r & Hr & Ht & Htrim).
  exists r. repeat split; [exact Hr | exact Ht|].
  unfold normalizeUrl. destruct r; [discriminate Ht|].
  cbn [is_empty]. now rewrite Htrim, Ht.
Qed.

End NormalizeFacts.

Section GenerateMore.

Variable URL_parse : string -> option URL.

Lemma template_of_encode (host : string) :
  template_of (convertUrlToSubdomain host)
  = if test re_hostname host then replace_char "." "--" host else "null".
Proof.
  unfold convertUrlToSubdomain.
  destruct (test re_hostname host) eqn:E.
  - rewrite test_re_hostname in E. apply andb_true_iff in E as [E _].
    apply negb_true_iff in E. now rewrite E.
  - now destruct (is_empty host).
Qed.

(** X20: a [POST] to the link generator whose [url] normalises to a
    public [http:] or [https:] URL is answered 200 with [originalUrl] the
    normalised text and [proxyUrl] made of [https://], the encoded host,
    the gateway's base domain and the path and query of the URL; scheme,
    port and fragment of the URL do not enter it, and a host with a
    character outside [[a-zA-Z0-9.-]] is rendered as [null]. *)
Theorem generated_link (now : string) (request : Request) (body : JSON)
  (t t' : string) (u : URL) :
  req_method request = "POST" ->
  req_json request = Normal body ->
  get_url body = Normal (Some (JString t)) ->
  t <> "" ->
  normalizeUrl t = Normal t' ->
  URL_parse t' = Some u ->
  protocol u = "http:" \/ protocol u = "https:" ->
  isPublicUrl u = true ->
  handleGenerateApi URL_parse now request
  = Resolve
      (mkResponse 200 ""
         (Headers.of_object
            [ ("Content-Type", "application/json; charset=utf-8");
              ("Access-Control-Allow-Origin", "*") ])
         (BJson
            (JObject
               [ ("success", JBool true);
                 ("originalUrl", JString t');
                 ("proxyUrl",
                  JString
                    ("https://"
                     ++ (if test re_hostname (hostname u)
                         then replace_char "." "--" (hostname u) else "null")
                     ++ "." ++ gateway_base (hostname (req_url request))
                     ++ pathname u ++ search u)) ]))).
Proof.
  intros Hm Hjson Hurl Hne Hnorm Hparse Hproto Hpublic.
  unfold handleGenerateApi. rewrite Hm, String.eqb_refl. cbn [negb].
  rewrite Hjson. cbn [cbind]. rewrite Hurl. cbn [cbind].
  destruct t; [contradiction|]. cbn [falsy is_empty normalizeUrl_value].
  rewrite Hnorm. cbn [cbind]. rewrite Hparse.
  assert (Hp : array_includes ["http:"; "https:"] (protocol u) = true)
    by (destruct Hproto as [-> | ->]; reflexivity).
  rewrite Hp, Hpublic. cbn [negb try_catch lift].
  now rewrite template_of_encode.
Qed.

(** X21: a [POST] to the link generator whose [url] normalises to an
    [http:] or [https:] URL with a private IPv4 address as host is
    refused with status 403 and no link is generated. *)
Theorem private_target_refused (now : string) (request : Request) (body : JSON)
  (t t' : string) (u : URL) (a b c d : N) :
  req_method request = "POST" ->
  req_json request = Normal body ->
  get_url body = Normal (Some (JString t)) ->
  t <> "" ->
  normalizeUrl t = Normal t' ->
  URL_parse t' = Some u ->
  protocol u = "http:" \/ protocol u = "https:" ->
  (a <= 255)%N -> (b <= 255)%N -> (c <= 255)%N -> (d <= 255)%N ->
  hostname u = dotted_quad a b c d ->
  in_private_block (ipv4_value a b c d) = true ->
  handleGenerateApi URL_parse now request
  = Resolve (createErrorResponse now "Private network URLs are not allowed" 403).
Proof.
  intros Hm Hjson Hurl Hne Hnorm Hparse Hproto Ha Hb Hc Hd Hhost Hblock.
  unfold handleGenerateApi. rewrite Hm, String.eqb_refl. cbn [negb].
  rewrite Hjson. cbn [cbind]. rewrite Hurl. cbn [cbind].
  destruct t; [contradiction|]. cbn [falsy is_empty normalizeUrl_value].
  rewrite Hnorm. cbn [cbind]. rewrite Hparse.
  assert (Hp : array_includes ["http:"; "https:"] (protocol u) = true)
    by (destruct Hproto as [-> | ->]; reflexivity).
  rewrite Hp. cbn [negb].
  assert (Hpriv : isPublicUrl u = false).
  { unfold isPublicUrl. rewrite Hhost, dotted_quad_lower by assumption.
    rewrite dotted_quad_matches, dotted_quad_split by assumption.
    cbn [map nth].
    destruct (octet_facts a Ha) as (_ & _ & ->).
    destruct (octet_facts b Hb) as (_ & _ & ->).
    cbn [num_eq num_ge num_le].
    destruct (in_private_block_octets a b c d Ha Hb Hc Hd Hblock)
      as [->|[[-> [H1 H2]]|[[-> ->]|[->|[-> ->]]]]]; try reflexivity.
    apply N.leb_le in H1, H2. now rewrite H1, H2. }
  now rewrite Hpriv.
Qed.

(** X22: the preflight response echoes the request's
    [Access-Control-Request-Headers] as [Access-Control-Allow-Headers]
    when that header is present and not empty, and carries the fixed list
    otherwise; its [Access-Control-Allow-Methods] is always the list of
    allowed methods. *)
Theorem preflight_echoes_requested_headers (request : Request) :
  Headers.get (headers (handleOptions request)) "Access-Control-Allow-Headers"
  = Some (match Headers.get (req_headers request) "Access-Control-Request-Headers" with
          | Some v =>
              if is_empty v
              then "Content-Type, Authorization, X-Requested-With, Accept, Origin"
              else v
          | None => "Content-Type, Authorization, X-Requested-With, Accept, Origin"
          end) /\
  Headers.get (headers (handleOptions request)) "Access-Control-Allow-Methods"
  = Some "GET, POST, PUT, DELETE, PATCH, HEAD, OPTIONS".
Proof.
  unfold handleOptions. cbv zeta. cbn [headers].
  set (h0 := addCorsHeaders []).
  set (h1 := match Headers.get (req_headers request) "Access-Control-Request-Headers"
             with Some _ => _ | None => _ end).
  assert (H1 : Headers.get h1 "Access-Control-Allow-Headers"
               = Some (match Headers.get (req_headers request)
                               "Access-Control-Request-Headers" with
                       | Some v =>
                           if is_empty v
                           then "Content-Type, Authorization, X-Requested-With, Accept, Origin"
                           else v
                       | None => "Content-Type, Authorization, X-Requested-With, Accept, Origin"
                       end) /\
               Headers.get h1 "Access-Control-Allow-Methods"
               = Some "GET, POST, PUT, DELETE, PATCH, HEAD, OPTIONS").
  { subst h1.
    destruct (Headers.get (req_headers request) "Access-Control-Request-Headers")
      as [v|]; [|split; reflexivity].
    destruct (is_empty v); [split; reflexivity|].
    split; [apply get_set_same|].
    now rewrite get_set_other by reflexivity. }
  destruct H1 as [Hh Hm].
  destruct (Headers.get (req_headers request) "Access-Control-Request-Method")
    as [rm|]; [|now split].
  destruct (negb (is_empty rm) && array_includes ALLOWED_METHODS rm); [|now split].
  split.
  - now rewrite get_set_other by reflexivity.
  - apply get_set_same.
Qed.

End GenerateMore.

(** ** Content rewriter: single URLs and JSON documents *)

Section RewriteFacts.

Variable URL_parse_base : string -> string -> option URL.

Lemma shouldProxyUrl_exact_aux (url targetUrl : URL) :
  shouldProxyUrl url targetUrl
  = String.eqb (hostname url) (hostname targetUrl)
    || endsWith (hostname url) ("." ++ hostname targetUrl).
Proof.
  unfold shouldProxyUrl.
  destruct (String.eqb (hostname url) (hostname targetUrl)); [reflexivity|].
  destruct (endsWith (hostname url) ("." ++ hostname targetUrl)); [reflexivity|].
  now destruct (existsb _ commonCdnPatterns).
Qed.



(** X24: [rewriteUrl] returns its argument unchanged when the argument is
    empty, starts with [data:], [blob:] or [#], does not parse, or
    resolves to a host that is neither the target's nor a subdomain of
    it. *)
Theorem rewriteUrl_leaves_foreign (url : string) (targetUrl : URL)
  (proxyDomain : string) :
  (url = "" \/ startsWith url "data:" = true \/ startsWith url "blob:" = true \/
   startsWith url "#" = true \/
   match URL_parse_base url (URL_origin targetUrl) with
   | None => True
   | Some u =>
       hostname u <> hostname targetUrl /\
       endsWith (hostname u) ("." ++ hostname targetUrl) = false
   end) ->
  rewriteUrl URL_parse_base url targetUrl proxyDomain = url.
Proof.
  intros H. unfold rewriteUrl.
  destruct (is_empty url || startsWith url "data:" || startsWith url "blob:"
            || startsWith url "#") eqn:E; [reflexivity|].
  repeat (apply orb_false_iff in E as [E ?]).
  destruct H as [->|[H|[H|[H|H]]]]; try discriminate; try congruence.
  destruct (URL_parse_base url (URL_origin targetUrl)) as [u|]; [|reflexivity].
  destruct H as [Hne Hend]. apply String.eqb_neq in Hne.
  now rewrite shouldProxyUrl_exact_aux, Hne, Hend.
Qed.

End RewriteFacts.

Section JsonMore.

Variable URL_parse_base : string -> string -> option URL.
Variable targetUrl : URL.
Variable proxyDomain : string.

Lemma lookup_absent (key : string) (entries : list (string * JSON)) :
  array_includes (map fst entries) key = false -> lookup key entries = None.
Proof.
  induction entries as [|[k v] entries IH]; [reflexivity|].
  unfold array_includes. cbn [map fst existsb lookup].
  intros H. apply orb_false_iff in H as [Hk H].
  rewrite String.eqb_sym, Hk. now apply IH.
Qed.

Lemma assign_fresh (result : list (string * JSON)) (key : string) (value : JSON) :
  ~ In key (map fst result) ->
  assign result key value = (result ++ [(key, value)])%list.
Proof.
  induction result as [|[k v] result IH]; [reflexivity|].
  cbn [map fst In assign app]. intros H.
  destruct (String.eqb k key) eqn:E.
  - apply String.eqb_eq in E. exfalso. apply H. now left.
  - rewrite IH; [reflexivity|]. intros Hin. apply H. now right.
Qed.

Lemma distinct_NoDup (l : list string) : distinct l = true -> NoDup l.
Proof.
  induction l as [|x l IH]; [constructor|].
  cbn [distinct]. intros H. apply andb_true_iff in H as [Hx Hl].
  constructor; [|now apply IH].
  intros Hin. apply array_includes_In in Hin. rewrite Hin in Hx. discriminate.
Qed.

(** X25: a JSON document in which no string starts with [http://] or
    [https://], and whose objects have pairwise different keys none of
    which is [hasOwnProperty] or [__proto__], comes out of
    [rewriteJsonObject] unchanged. *)
Theorem rewriteJsonObject_plain (j : JSON) :
  json_plain j = true ->
  rewriteJsonObject URL_parse_base targetUrl proxyDomain j = Normal j.
Proof.
  induction j as [|b|text|s|items IH|entries IH] using JSON_induction;
    intros Hplain; try reflexivity.
  - cbn [json_plain] in Hplain. apply negb_true_iff in Hplain.
    cbn [rewriteJsonObject]. now rewrite Hplain.
  - cbn [json_plain] in Hplain. cbn [rewriteJsonObject].
    match goal with |- cbind (?F items) _ = _ =>
      assert (HF : F items = Normal items) end.
    { induction IH as [|x l Hx _ IHl]; [reflexivity|].
      cbn [forallb] in Hplain. apply andb_true_iff in Hplain as [Hx' Hl'].
      rewrite (Hx Hx'). cbn [cbind]. rewrite (IHl Hl'). reflexivity. }
    now rewrite HF.
  - cbn [json_plain] in Hplain.
    apply andb_true_iff in Hplain as [Hplain Hvalues].
    apply andb_true_iff in Hplain as [Hplain Hproto].
    apply andb_true_iff in Hplain as [Hdistinct Hown].
    apply negb_true_iff in Hown, Hproto.
    apply distinct_NoDup in Hdistinct.
    assert (Hproto' : ~ In "__proto__" (map fst entries)).
    { intros Hin. apply array_includes_In in Hin. congruence. }
    cbn [rewriteJsonObject]. unfold hasOwnProperty_call.
    rewrite (lookup_absent _ _ Hown).
    match goal with |- cbind (?F entries []) _ = _ =>
      assert (HF : forall l result,
                 Forall (fun kv =>
                           json_plain (snd kv) = true ->
                           rewriteJsonObject URL_parse_base targetUrl proxyDomain
                                             (snd kv) = Normal (snd kv)) l ->
                 forallb (fun kv => json_plain (snd kv)) l = true ->
                 NoDup (map fst l) ->
                 ~ In "__proto__" (map fst l) ->
                 (forall k, In k (map fst l) -> ~ In k (map fst result)) ->
                 F l result = Normal (result ++ l)%list) end.
    { intros l. induction l as [|[k v] l IHl];
        intros result Hall Hval Hnd Hnp Hfresh.
      - now rewrite app_nil_r.
      - inversion Hall as [|? ? Hv Hall']; subst.
        cbn [forallb snd] in Hval. apply andb_true_iff in Hval as [Hv' Hval'].
        cbn [map fst] in Hnd, Hnp, Hfresh.
        inversion Hnd as [|? ? Hk Hnd']; subst.
        cbn [cbind]. cbn [snd] in Hv. rewrite (Hv Hv'). cbn [cbind].
        unfold set_property.
        assert (Ek : String.eqb k "__proto__" = false).
        { apply String.eqb_neq. intros ->. apply Hnp. now left. }
        rewrite Ek, assign_fresh by (apply Hfresh; now left).
        rewrite IHl; try assumption.
        + now rewrite <- app_assoc.
        + intros Hin. apply Hnp. now right.
        + intros k' Hk' Hin. rewrite map_app in Hin.
          apply in_app_or in Hin as [Hin|[<-|[]]].
          * apply (Hfresh k'); [now right | exact Hin].
          * contradiction. }
    rewrite (HF entries [] IH Hvalues Hdistinct Hproto'); [reflexivity|].
    intros k _ [].
Qed.

End JsonMore.

(** ** MIME gate *)

Section MimeFacts.

Lemma toLowerCase_app (a b : string) :
  toLowerCase (a ++ b) = toLowerCase a ++ toLowerCase b.
Proof. induction a as [|c a IH]; simpl; [reflexivity | now rewrite IH]. Qed.

Lemma prefix_app (p q : string) : String.prefix p (p ++ q) = true.
Proof.
  induction p as [|c p IH]; [apply prefix_nil|].
  cbn [append]. now rewrite prefix_cons, Ascii.eqb_refl, IH.
Qed.

Lemma includes_prefix (s p : string) :
  String.prefix p s = true -> includes s p = true.
Proof.
  intros H. destruct s; cbn [includes]; now rewrite H.
Qed.

Lemma includes_app (pre p post : string) : includes (pre ++ p ++ post) p = true.
Proof.
  induction pre as [|c pre IH].
  - change ("" ++ p ++ post) with (p ++ post).
    apply includes_prefix. apply prefix_app.
  - cbn [append]. rewrite includes_cons, IH. apply orb_true_r.
Qed.

Lemma is_empty_lower (s : string) : is_empty (toLowerCase s) = is_empty s.
Proof. now destruct s. Qed.

(** X26: [shouldRewriteContent] looks at the content type without regard
    to case, and accepts every content type that holds one of the nine
    rewritable MIME types, whatever precedes or follows it (a
    [charset] parameter, say). *)
Theorem shouldRewriteContent_insensitive (contentType type pre post : string) :
  In type REWRITABLE_CONTENT_TYPES ->
  toLowerCase contentType = pre ++ type ++ post ->
  shouldRewriteContent contentType = true /\
  shouldRewriteContent (toLowerCase contentType) = true.
Proof.
  intros Hin Hct.
  assert (Hne : is_empty contentType = false).
  { rewrite <- is_empty_lower, Hct.
    destruct pre; [|reflexivity]. cbn [append].
    repeat (destruct Hin as [<-|Hin]; [reflexivity|]). destruct Hin. }
  assert (Hex : existsb (fun t => includes (toLowerCase contentType) t)
                        REWRITABLE_CONTENT_TYPES = true).
  { apply existsb_exists. exists type. split; [exact Hin|].
    rewrite Hct. apply includes_app. }
  unfold shouldRewriteContent. cbv zeta.
  now rewrite is_empty_lower, toLowerCase_idem, Hne, Hex.
Qed.

End MimeFacts.

(** ** Escaping and the way back through the gate *)

Section EscapeFacts.

(** X27: [escapeRegExp] returns unchanged every string without a
    backslash, so the dots of a host name reach the pattern of
    [rewriteGeneric] unescaped. *)
Theorem escapeRegExp_without_backslash (s : string) :
  forall_chars (fun c => negb (Ascii.eqb c "\")) s = true ->
  escapeRegExp s = s.
Proof.
  induction s as [|c1 s IH]; [reflexivity|].
  cbn [forall_chars]. intros H. apply andb_true_iff in H as [_ Hs].
  specialize (IH Hs).
  destruct s as [|c2 [|c3 [|c4 rest]]];
    try (cbn [escapeRegExp] in *; now rewrite ?IH).
  cbn [forall_chars] in Hs. apply andb_true_iff in Hs as [Hc2 _].
  apply negb_true_iff in Hc2.
  change (escapeRegExp (String c1 (String c2 (String c3 (String c4 rest)))))
    with (if is_escape_class c1 && Ascii.eqb c2 "\" && Ascii.eqb c3 "\"
             && Ascii.eqb c4 "]"
          then "\\" ++ String c1 (String c2 (String c3 (String c4 (escapeRegExp rest))))
          else String c1 (escapeRegExp (String c2 (String c3 (String c4 rest))))).
  rewrite Hc2, andb_false_r. cbn [andb]. now rewrite IH.
Qed.

End EscapeFacts.

Section GatewayRoundTrip.

Lemma endsWith_app (a b p : string) :
  b <> "" -> (String.length p <= String.length b)%nat ->
  endsWith (a ++ b) p = endsWith b p.
Proof.
  intros Hb Hlen. induction a as [|c a IH]; [reflexivity|].
  cbn [append]. rewrite endsWith_cons, IH.
  destruct (String.eqb (String c (a ++ b)) p) eqn:E; [|reflexivity].
  apply String.eqb_eq in E. exfalso.
  assert (Hl : String.length (String c (a ++ b)) = String.length p) by now rewrite E.
  cbn [String.length] in Hl.
  assert (Happ : forall x y, String.length (x ++ y)
                             = (String.length x + String.length y)%nat).
  { intros x y. induction x as [|z x IHx]; simpl; [reflexivity | now rewrite IHx]. }
  rewrite Happ in Hl. lia.
Qed.

Lemma endsWith_join_hyphen (labels : list string) :
  labels <> [] ->
  (forall l, In l labels -> is_empty l = false /\ endsWith l "-" = false) ->
  endsWith (join "--" labels) "-" = false.
Proof.
  induction labels as [|l labels IH]; intros Hne Hall; [contradiction|].
  destruct labels as [|l2 labels].
  - apply Hall. now left.
  - rewrite join_cons by discriminate.
    assert (Hrest : endsWith (join "--" (l2 :: labels)) "-" = false).
    { apply IH; [discriminate|]. intros x Hx. apply Hall. now right. }
    assert (Hne2 : is_empty (join "--" (l2 :: labels)) = false).
    { destruct labels as [|l3 labels].
      - apply (Hall l2). right. now left.
      - rewrite join_cons by discriminate.
        destruct l2; reflexivity. }
    rewrite <- append_assoc.
    rewrite endsWith_app; [exact Hrest | |].
    + intros E. now rewrite E in Hne2.
    + destruct (join "--" (l2 :: labels)); [discriminate | cbn; lia].
Qed.

(** The encoding of a valid domain name without hyphen pairs, its parts
    and its decoding. *)
Lemma encoded_domain (d : string) :
  valid_domain_name d = true ->
  no_double_hyphen d = true ->
  let e := replace_char "." "--" d in
  split "--" e = split "." d /\
  test re_label e = true /\
  isValidSubdomainFormat e = true /\
  convertSubdomainToUrl e = Some d.
Proof.
  intros Hvalid Hnodd. cbv zeta.
  unfold valid_domain_name in Hvalid. unfold no_double_hyphen in Hnodd.
  apply andb_true_iff in Hvalid as [Hlen Hall].
  assert (Hlen' : (List.length (split "." d) <? 2)%nat = false).
  { apply Nat.ltb_ge. now apply Nat.leb_le. }
  assert (Hd : join "." (split "." d) = d) by now apply join_split.
  rewrite forallb_forall in Hall, Hnodd.
  assert (Hlab : forall l, In l (split "." d) ->
                   is_empty l = false /\ forall_chars is_alnum_hyphen l = true /\
                   startsWith l "-" = false /\ endsWith l "-" = false).
  { intros l Hin. specialize (Hall _ Hin). unfold valid_label in Hall.
    rewrite test_re_label in Hall.
    apply andb_true_iff in Hall as [Hall H3].
    apply andb_true_iff in Hall as [Hall H2].
    apply andb_true_iff in Hall as [H0 H1].
    apply negb_true_iff in H0, H2, H3. auto. }
  assert (He : replace_char "." "--" d = join "--" (split "." d)).
  { rewrite <- Hd at 1. apply replace_dot_join. intros l Hin.
    apply (forall_chars_impl _ _ _ alnum_hyphen_not_dot). now apply Hlab. }
  rewrite He.
  assert (Hsplit : split "--" (join "--" (split "." d)) = split "." d).
  { apply split_join_dd; [now apply split_nonempty|].
    intros l Hin. split.
    - specialize (Hnodd _ Hin). now apply negb_true_iff in Hnodd.
    - now apply Hlab. }
  assert (Hlabel : test re_label (join "--" (split "." d)) = true).
  { rewrite test_re_label, join_two_nonempty by (assumption || discriminate).
    apply forall_chars_join; [reflexivity|]. intros l Hin. now apply Hlab. }
  assert (Hformat : isValidSubdomainFormat (join "--" (split "." d)) = true).
  { unfold isValidSubdomainFormat. rewrite Hsplit, Hlen'.
    assert (Hstart : startsWith (join "--" (split "." d)) "-" = false).
    { destruct (split "." d) as [|l1 [|l2 ls]] eqn:Es; try discriminate.
      rewrite join_cons by discriminate.
      destruct (Hlab l1 (or_introl eq_refl)) as (Hn & _ & Hs & _).
      destruct l1 as [|c l1]; [discriminate|].
      unfold startsWith in *. cbn [append]. rewrite prefix_cons in *.
      now rewrite prefix_nil in *. }
    rewrite Hstart.
    rewrite endsWith_join_hyphen;
      [| now apply split_nonempty | intros l Hin; split; now apply Hlab].
    cbn [orb]. apply forallb_forall. intros l Hin.
    destruct (Hlab l Hin) as (Hn & Hc & Hs & He').
    now rewrite is_empty_length, test_re_label, Hn, Hc, Hs, He'. }
  repeat split; try assumption.
  destruct (valid_format_decodes _ Hformat) as [_ Hdec].
  now rewrite Hdec, Hsplit, Hd.
Qed.

(** X28: for a domain name of at least two labels, each matching
    [[A-Za-z0-9-]+], none starting or ending with a hyphen and none
    holding two hyphens in a row, the gateway host made of its encoding,
    a dot and any base domain passes the gate with the encoding as
    subdomain, and the subdomain decodes to the domain name: links and
    rewritten redirects lead back to the host they were made for. *)
Theorem gateway_host_round_trip (d base : string) :
  valid_domain_name d = true ->
  no_double_hyphen d = true ->
  extractSubdomain (replace_char "." "--" d ++ "." ++ base)
  = Some (replace_char "." "--" d) /\
  convertSubdomainToUrl (replace_char "." "--" d) = Some d.
Proof.
  intros Hvalid Hnodd.
  destruct (encoded_domain d Hvalid Hnodd) as (_ & Hlabel & Hformat & Hdec).
  split; [|exact Hdec].
  assert (Hdot : forall_chars (fun x => negb (Ascii.eqb x "."))
                              (replace_char "." "--" d) = true).
  { rewrite test_re_label in Hlabel. apply andb_true_iff in Hlabel as [_ Hc].
    exact (forall_chars_impl _ _ _ alnum_hyphen_not_dot Hc). }
  unfold extractSubdomain. rewrite (split_dot_part _ base Hdot).
  cbn [nth]. rewrite Hlabel, Hformat. cbn [negb].
  pose proof (split_nonempty "." base ltac:(discriminate)) as Hne.
  destruct (split "." base); [contradiction | reflexivity].
Qed.

End GatewayRoundTrip.

(** ** The further properties at concrete inputs *)

Lemma landing_host_is_local_witness :
  exists r,
    handleRequest RefUrl.parse_url "2024-01-01T00:00:00.000Z"
      (bodiless "DELETE" (mkURL "https:" "proxy.gw.tld" "" "/api/generate" "" "") [])
    = Resolve r /\
    In (status r) [200; 400; 403; 405]%Z.
Proof.
  apply (landing_host_is_local RefUrl.parse_url "2024-01-01T00:00:00.000Z"
           (bodiless "DELETE"
              (mkURL "https:" "proxy.gw.tld" "" "/api/generate" "" "") [])).
  left. reflexivity.
Defined.

Lemma method_not_allowed_witness :
  handleRequest RefUrl.parse_url "2024-01-01T00:00:00.000Z"
    (bodiless "TRACE" (url_of_host "youtube--com.gw.tld") [])
  = Resolve (createErrorResponse "2024-01-01T00:00:00.000Z" "Method not allowed" 405).
Proof.
  apply (method_not_allowed RefUrl.parse_url "2024-01-01T00:00:00.000Z"
           (bodiless "TRACE" (url_of_host "youtube--com.gw.tld") [])
           "youtube--com"); reflexivity.
Defined.

Lemma upstream_timeout_witness :
  settle
    (handleRequest RefUrl.parse_url "2024-01-01T00:00:00.000Z"
       (bodiless "GET" (url_of_host "youtube--com.gw.tld") []))
    (Rejected (mkExn "TimeoutError" "The operation was aborted due to timeout"))
  = Resolve (createErrorResponse "2024-01-01T00:00:00.000Z" "Request timeout" 504).
Proof.
  apply (upstream_timeout RefUrl.parse_url "2024-01-01T00:00:00.000Z"
           (bodiless "GET" (url_of_host "youtube--com.gw.tld") [])
           "youtube--com" "youtube.com" (url_of_host "youtube.com"));
    try reflexivity.
  vm_compute. discriminate.
Defined.

Lemma upstream_failure_witness :
  settle
    (handleRequest RefUrl.parse_url "2024-01-01T00:00:00.000Z"
       (bodiless "GET" (url_of_host "youtube--com.gw.tld") []))
    (Rejected (mkExn "TypeError" "Network connection lost."))
  = Resolve (createErrorResponse "2024-01-01T00:00:00.000Z"
               "Network connection lost." 500).
Proof.
  apply (upstream_failure RefUrl.parse_url "2024-01-01T00:00:00.000Z"
           (bodiless "GET" (url_of_host "youtube--com.gw.tld") [])
           "youtube--com" "youtube.com" (url_of_host "youtube.com")
           (mkExn "TypeError" "Network connection lost."));
    try reflexivity; vm_compute; discriminate.
Defined.

Lemma undecodable_target_witness :
  let parse := fun s : string =>
    if String.eqb s "https://1.2.3.4.5" then None else RefUrl.parse_url s in
  exists message,
    handleRequest parse "2024-01-01T00:00:00.000Z"
      (bodiless "GET" (url_of_host "1--2--3--4--5.gw.tld") [])
    = Resolve (createErrorResponse "2024-01-01T00:00:00.000Z" message 500).
Proof.
  intros parse.
  apply (undecodable_target parse "2024-01-01T00:00:00.000Z"
           (bodiless "GET" (url_of_host "1--2--3--4--5.gw.tld") [])
           "1--2--3--4--5" "1.2.3.4.5"); try reflexivity.
  vm_compute. discriminate.
Defined.



Lemma standard_domain_encodes_witness :
  convertUrlToSubdomain "x.b.com" = Some (replace_char "." "--" "x.b.com").
Proof. apply standard_domain_encodes. reflexivity. Defined.

Lemma redirect_rewritten_witness :
  let response :=
    mkResponse 301 "Moved Permanently"
               [("Location", "https://www.example.org/a?b=c#d"); ("Server", "nginx")]
               BNull in
  let request := bodiless "GET" (url_of_host "example--org.proxy.example.net") [] in
  Headers.get (headers (handleRedirect RefUrl.parse_url response request)) "Location"
  = Some (URL_toString
            (URL_set_hostname
               (mkURL "https:" "www.example.org" "" "/a" "?b=c" "#d")
               (replace_char "." "--" "www.example.org" ++ "."
                ++ gateway_base "example--org.proxy.example.net"))) /\
  status (handleRedirect RefUrl.parse_url response request) = 301%Z /\
  body (handleRedirect RefUrl.parse_url response request) = BNull.
Proof.
  intros response request.
  apply (redirect_rewritten RefUrl.parse_url response request
           "https://www.example.org/a?b=c#d"
           (mkURL "https:" "www.example.org" "" "/a" "?b=c" "#d"));
    try reflexivity.
  discriminate.
Defined.

Lemma redirect_fails_open_witness :
  let response :=
    mkResponse 302 "Found" [("Location", "https://xn--p1ai.example/")] BNull in
  let request := bodiless "GET" (url_of_host "example--org.gw.tld") [] in
  handleRedirect RefUrl.parse_url response request = createProxyResponse response /\
  Headers.get (headers (handleRedirect RefUrl.parse_url response request)) "Location"
  = Headers.get (headers response) "Location".
Proof.
  intros response request.
  apply (redirect_fails_open RefUrl.parse_url response request).
  right. reflexivity.
Defined.

Lemma accepted_subdomain_decodes_to_domain_witness :
  exists d,
    convertSubdomainToUrl "api--git-hub--com" = Some d /\
    split "." d = split "--" "api--git-hub--com" /\
    valid_domain_name d = true.
Proof.
  apply (accepted_subdomain_decodes_to_domain "api--git-hub--com.gw.tld").
  reflexivity.
Defined.


Lemma isPublicUrl_on_addresses_witness :
  isPublicUrl (url_of_host "172.32.0.1")
  = negb (in_private_block (ipv4_value 172 32 0 1)).
Proof.
  apply (isPublicUrl_on_addresses 172 32 0 1 (url_of_host "172.32.0.1"));
    vm_compute; (reflexivity || discriminate).
Defined.

Lemma normalizeUrl_idempotent_witness :
  exists r,
    normalizeUrl "  //Example.com/a b " = Normal r /\
    test re_has_http_scheme_i r = true /\
    normalizeUrl r = Normal r.
Proof. apply normalizeUrl_idempotent. discriminate. Defined.

Lemma generated_link_witness :
  let request :=
    mkRequest "POST" (mkURL "https:" "proxy.gw.tld" "" "/api/generate" "" "")
              [] (BJson (JObject [("url", JString "http://Example.com/a?b=1#top")]))
              (Normal (JObject [("url", JString "http://Example.com/a?b=1#top")])) in
  let u := mkURL "http:" "example.com" "" "/a" "?b=1" "#top" in
  handleGenerateApi RefUrl.parse_url "2024-01-01T00:00:00.000Z" request
  = Resolve
      (mkResponse 200 ""
         (Headers.of_object
            [ ("Content-Type", "application/json; charset=utf-8");
              ("Access-Control-Allow-Origin", "*") ])
         (BJson
            (JObject
               [ ("success", JBool true);
                 ("originalUrl", JString "http://Example.com/a?b=1#top");
                 ("proxyUrl",
                  JString
                    ("https://"
                     ++ (if test re_hostname (hostname u)
                         then replace_char "." "--" (hostname u) else "null")
                     ++ "." ++ gateway_base "proxy.gw.tld"
                     ++ pathname u ++ search u)) ]))).
Proof.
  intros request u.
  apply (generated_link RefUrl.parse_url "2024-01-01T00:00:00.000Z" request
           (JObject [("url", JString "http://Example.com/a?b=1#top")])
           "http://Example.com/a?b=1#top" "http://Example.com/a?b=1#top" u);
    try reflexivity.
  - discriminate.
  - left. reflexivity.
Defined.

Lemma private_target_refused_witness :
  let request :=
    mkRequest "POST" (mkURL "https:" "proxy.gw.tld" "" "/api/generate" "" "")
              [] (BJson (JObject [("url", JString "192.168.1.1/admin")]))
              (Normal (JObject [("url", JString "192.168.1.1/admin")])) in
  handleGenerateApi RefUrl.parse_url "2024-01-01T00:00:00.000Z" request
  = Resolve (createErrorResponse "2024-01-01T00:00:00.000Z"
               "Private network URLs are not allowed" 403).
Proof.
  intros request.
  apply (private_target_refused RefUrl.parse_url "2024-01-01T00:00:00.000Z" request
           (JObject [("url", JString "192.168.1.1/admin")])
           "192.168.1.1/admin" "https://192.168.1.1/admin"
           (mkURL "https:" "192.168.1.1" "" "/admin" "" "") 192 168 1 1);
    try reflexivity; try (vm_compute; discriminate).
  right. reflexivity.
Defined.


Lemma rewriteUrl_leaves_foreign_witness :
  rewriteUrl RefUrl.parse_url_base "https://fonts.gstatic.com/x"
             (url_of_host "youtube.com") "gw.tld"
  = "https://fonts.gstatic.com/x".
Proof.
  apply (rewriteUrl_leaves_foreign RefUrl.parse_url_base
           "https://fonts.gstatic.com/x" (url_of_host "youtube.com") "gw.tld").
  right. right. right. right. vm_compute. split; [discriminate | reflexivity].
Defined.

Lemma rewriteJsonObject_plain_witness :
  let doc :=
    JObject [ ("name", JString "ftp://files.example/x");
              ("tags", JArray [JString "a"; JNumber "1"; JNull]);
              ("nested", JObject [("ok", JBool true)]) ] in
  rewriteJsonObject RefUrl.parse_url_base (url_of_host "youtube.com") "gw.tld" doc
  = Normal doc.
Proof.
  intros doc.
  apply (rewriteJsonObject_plain RefUrl.parse_url_base
           (url_of_host "youtube.com") "gw.tld" doc).
  reflexivity.
Defined.

Lemma shouldRewriteContent_insensitive_witness :
  shouldRewriteContent "Text/HTML; Charset=UTF-8" = true /\
  shouldRewriteContent (toLowerCase "Text/HTML; Charset=UTF-8") = true.
Proof.
  apply (shouldRewriteContent_insensitive "Text/HTML; Charset=UTF-8"
           "text/html" "" "; charset=utf-8").
  - left. reflexivity.
  - reflexivity.
Defined.

Lemma escapeRegExp_without_backslash_witness :
  escapeRegExp "www.you-tube.com" = "www.you-tube.com".
Proof. apply escapeRegExp_without_backslash. reflexivity. Defined.

Lemma gateway_host_round_trip_witness :
  extractSubdomain (replace_char "." "--" "api.git-hub.com" ++ "." ++ "gw.tld")
  = Some (replace_char "." "--" "api.git-hub.com") /\
  convertSubdomainToUrl (replace_char "." "--" "api.git-hub.com")
  = Some "api.git-hub.com".
Proof. apply gateway_host_round_trip; reflexivity. Defined.

(** ** Relaying the upstream's answer *)

Section RelayFacts.

Variable URL_parse : string -> option URL.


End RelayFacts.

